(** * vtkPythonInterpreter: lifecycle of the embedded Python runtime

    A shallow embedding of Utilities/PythonInterpreter/vtkPythonInterpreter.cxx.

    The class keeps its state in process-wide statics; the embedding threads
    one [Process] value through every member function.  Everything the file
    only calls (the CPython C API, vtksys::SystemTools, dlsym/dladdr, the
    output window) is collected in a [World] of oracles, so every theorem
    holds for any behaviour of those collaborators.  What the process does to
    the outside is recorded, oldest first, in the [trace] of the process.

    Build configuration: the PY_VERSION_HEX >= 0x03000000 branches are the ones
    embedded (wide-character program name and arguments, PyUnicode_FromString
    for the entries of sys.path); _WIN32, VTK_BUILD_SHARED_LIBS and
    VTK_PYTHON_FULL_THREADSAFE are fields of the [World].
    vtkPythonScopeGilEnsurer only takes and releases the GIL around a block,
    which has no effect on a single thread of control, so it has no
    counterpart here.

    Where the C++ has no defined behaviour (a null pointer assigned to a
    std::string, or handed to Py_DECREF) the embedded function returns
    [Undefined]. *)

From Stdlib Require Import List String Ascii ZArith NArith Bool Lia DecimalString.
Import ListNotations.

Local Open Scope string_scope.
Local Open Scope list_scope.
Local Open Scope Z_scope.

Infix "^^" := String.append (at level 60, right associativity).

(** ** Characters and strings *)

Definition CR : ascii := ascii_of_nat 13.
Definition LF : ascii := ascii_of_nat 10.
Definition slash : ascii := ascii_of_nat 47.
Definition backslash : ascii := ascii_of_nat 92.

Definition str1 (c : ascii) : string := String c EmptyString.

(** wchar_t strings, one code point per element. *)
Definition wstring := list N.

(** The address of a vtkPythonInterpreter object. *)
Definition ident := N.

(** printf's %i *)
Definition decimal (n : nat) : string := NilEmpty.string_of_uint (Nat.to_uint n).

(** std::replace(begin, end, from, to) *)
Fixpoint replace_char (from to : ascii) (str : string) : string :=
  match str with
  | EmptyString => EmptyString
  | String c rest =>
      String (if Ascii.eqb c from then to else c) (replace_char from to rest)
  end.

(** buffer.erase(std::remove(buffer.begin(), buffer.end(), '\r'), buffer.end()) *)
Fixpoint remove_cr (buffer : string) : string :=
  match buffer with
  | EmptyString => EmptyString
  | String c rest =>
      if Ascii.eqb c CR then remove_cr rest else String c (remove_cr rest)
  end.

(** ** Events and observable actions *)

Inductive EventId : Type :=
| EnterEvent
| ExitEvent
| ErrorEvent
| SetOutputEvent
| UpdateEvent.

(** The void* calldata of InvokeEvent: nothing, or a C string. *)
Inductive CallData : Type :=
| NoData
| Text (txt : string).

(** What a running script sends to sys.stdout or sys.stderr. *)
Inductive Output : Type :=
| ToStdout (txt : string)
| ToStderr (txt : string).

(** What sys.stdout, sys.stderr and sys.stdin are bound to: the console the
    runtime starts with, or a vtkPythonStdStreamCaptureHelper. *)
Inductive Stream : Type :=
| Console
| CaptureHelper (DumpToError : bool).

Inductive Event : Type :=
| EvCout (line : string)
| EvStderr (text : string)
| EvDisplayText (text : string)
| EvDisplayErrorText (text : string)
| EvInvoke (obj : ident) (eventid : EventId) (calldata : CallData)
| EvPyInitializeEx (initsigs : Z)
| EvSignalDefault
| EvPyFinalize
| EvSaveThread
| EvPySetProgramName (name : option wstring)
| EvPyRunSimpleString (buffer : string)
| EvPyMain (argv : list wstring)
| EvConsole (w : Output).

(** ** The collaborators *)

Record Dl_info : Type := mkDl_info {
  dli_fname : option string;
  dli_saddr : option N
}.

Record World : Type := mkWorld {
  (* build configuration *)
  win32 : bool;
  build_shared_libs : bool;
  full_threadsafe : bool;
  VTK_PYTHON_SITE_PACKAGES_SUFFIX : string;
  GetVTKSourceVersion : string;
  (* the embedded runtime *)
  Py_GetPythonHome : option wstring;
  Py_DecodeLocale : string -> option wstring;
  Py_EncodeLocale : wstring -> option string;
  PyUnicode_FromString : string -> bool;  (* false: the result is null *)
  default_sys_path : list string;
  PyRun_SimpleString : string -> list Output * Z;
  Py_Main : list wstring -> list Output * Z;
  (* the loader *)
  GetModuleHandle : option N;
  GetModuleFileName : N -> option string;
  dlsym : string -> option N;
  dladdr : N -> option Dl_info;
  (* vtksys::SystemTools *)
  FileExists : string -> bool;
  FileIsDirectory : string -> bool;
  GetFilenamePath : string -> string;
  CollapseFullPath : string -> string;
  SplitPath : string -> list string;
  JoinPath : list string -> string
}.

Definition VTK_PATH_SEPARATOR (W : World) : string :=
  if win32 W then str1 backslash else str1 slash.

Definition GetLibraryForSymbol (W : World) (symbolname : string) : string :=
  if win32 W then
    match GetModuleHandle W with
    | None => EmptyString
    | Some handle =>
        match GetModuleFileName W handle with
        | None => EmptyString
        | Some path => path
        end
    end
  else
    match dlsym W symbolname with
    | None => EmptyString
    | Some handle =>
        match dladdr W handle with
        | None => EmptyString
        | Some di =>
            match dli_saddr di, dli_fname di with
            | Some _, Some fname => fname
            | _, _ => EmptyString
            end
        end
    end.

(** ** The process state *)

(** What the file reads and writes of the embedded runtime. *)
Record PyRuntime : Type := mkPyRuntime {
  py_initialized : bool;            (* Py_IsInitialized() != 0 *)
  py_threads_initialized : bool;    (* PyEval_ThreadsInitialized() *)
  py_program_name : wstring;        (* Py_GetProgramName() *)
  sys_path : list string;           (* PySys_GetObject("path") *)
  sys_stdout : Stream;
  sys_stderr : Stream;
  sys_stdin : Stream
}.

(** The statics of the class (InitializedOnce to PythonVerboseFlag), the two
    statics of the file (GlobalInterpreters, a vector of weak pointers, null
    being [None], and PythonPaths), the flag kept by
    vtksys::SystemInformation, the runtime, and the trace.  PythonVerboseFlag
    is an int that only the argument scan of PyMain raises, by one per
    argument, so it stays far from the bounds of int. *)
Record Process : Type := mkProcess {
  InitializedOnce : bool;
  CaptureStdin : bool;
  ConsoleBuffering : bool;
  StdErrBuffer : string;
  StdOutBuffer : string;
  PythonVerboseFlag : Z;
  GlobalInterpreters : list (option ident);
  PythonPaths : list string;
  StackTraceOnError : bool;
  python : PyRuntime;
  trace : list Event
}.

Definition set_InitializedOnce (v : bool) (s : Process) : Process :=
  mkProcess v (CaptureStdin s) (ConsoleBuffering s) (StdErrBuffer s)
    (StdOutBuffer s) (PythonVerboseFlag s) (GlobalInterpreters s)
    (PythonPaths s) (StackTraceOnError s) (python s) (trace s).

Definition set_ConsoleBuffering (v : bool) (s : Process) : Process :=
  mkProcess (InitializedOnce s) (CaptureStdin s) v (StdErrBuffer s)
    (StdOutBuffer s) (PythonVerboseFlag s) (GlobalInterpreters s)
    (PythonPaths s) (StackTraceOnError s) (python s) (trace s).

Definition set_StdErrBuffer (v : string) (s : Process) : Process :=
  mkProcess (InitializedOnce s) (CaptureStdin s) (ConsoleBuffering s) v
    (StdOutBuffer s) (PythonVerboseFlag s) (GlobalInterpreters s)
    (PythonPaths s) (StackTraceOnError s) (python s) (trace s).

Definition set_StdOutBuffer (v : string) (s : Process) : Process :=
  mkProcess (InitializedOnce s) (CaptureStdin s) (ConsoleBuffering s)
    (StdErrBuffer s) v (PythonVerboseFlag s) (GlobalInterpreters s)
    (PythonPaths s) (StackTraceOnError s) (python s) (trace s).

Definition set_PythonVerboseFlag (v : Z) (s : Process) : Process :=
  mkProcess (InitializedOnce s) (CaptureStdin s) (ConsoleBuffering s)
    (StdErrBuffer s) (StdOutBuffer s) v (GlobalInterpreters s)
    (PythonPaths s) (StackTraceOnError s) (python s) (trace s).

Definition set_GlobalInterpreters (v : list (option ident)) (s : Process)
  : Process :=
  mkProcess (InitializedOnce s) (CaptureStdin s) (ConsoleBuffering s)
    (StdErrBuffer s) (StdOutBuffer s) (PythonVerboseFlag s) v
    (PythonPaths s) (StackTraceOnError s) (python s) (trace s).

Definition set_PythonPaths (v : list string) (s : Process) : Process :=
  mkProcess (InitializedOnce s) (CaptureStdin s) (ConsoleBuffering s)
    (StdErrBuffer s) (StdOutBuffer s) (PythonVerboseFlag s)
    (GlobalInterpreters s) v (StackTraceOnError s) (python s) (trace s).

Definition set_StackTraceOnError (v : bool) (s : Process) : Process :=
  mkProcess (InitializedOnce s) (CaptureStdin s) (ConsoleBuffering s)
    (StdErrBuffer s) (StdOutBuffer s) (PythonVerboseFlag s)
    (GlobalInterpreters s) (PythonPaths s) v (python s) (trace s).

Definition set_python (v : PyRuntime) (s : Process) : Process :=
  mkProcess (InitializedOnce s) (CaptureStdin s) (ConsoleBuffering s)
    (StdErrBuffer s) (StdOutBuffer s) (PythonVerboseFlag s)
    (GlobalInterpreters s) (PythonPaths s) (StackTraceOnError s) v (trace s).

(** Append events to the trace. *)
Definition log (es : list Event) (s : Process) : Process :=
  mkProcess (InitializedOnce s) (CaptureStdin s) (ConsoleBuffering s)
    (StdErrBuffer s) (StdOutBuffer s) (PythonVerboseFlag s)
    (GlobalInterpreters s) (PythonPaths s) (StackTraceOnError s) (python s)
    (trace s ++ es).

Definition emit (e : Event) : Process -> Process := log [e].

Definition set_sys_path (v : list string) (r : PyRuntime) : PyRuntime :=
  mkPyRuntime (py_initialized r) (py_threads_initialized r)
    (py_program_name r) v (sys_stdout r) (sys_stderr r) (sys_stdin r).

Definition set_py_program_name (v : wstring) (r : PyRuntime) : PyRuntime :=
  mkPyRuntime (py_initialized r) (py_threads_initialized r) v (sys_path r)
    (sys_stdout r) (sys_stderr r) (sys_stdin r).

Definition set_py_threads_initialized (v : bool) (r : PyRuntime) : PyRuntime :=
  mkPyRuntime (py_initialized r) v (py_program_name r) (sys_path r)
    (sys_stdout r) (sys_stderr r) (sys_stdin r).

Definition set_streams (out err inp : Stream) (r : PyRuntime) : PyRuntime :=
  mkPyRuntime (py_initialized r) (py_threads_initialized r)
    (py_program_name r) (sys_path r) out err inp.

(** L"python", the program name the runtime starts with. *)
Definition wide_python : wstring := [112; 121; 116; 104; 111; 110]%N.

(** The statics as the loader leaves them, and a runtime not yet started. *)
Definition process_start : Process :=
  mkProcess false false false EmptyString EmptyString 0 [] [] false
    (mkPyRuntime false false wide_python [] Console Console Console) [].

(** ** The runtime's own entry points *)

(** Py_InitializeEx: a fresh sys module, with the default path and streams. *)
Definition Py_InitializeEx (W : World) (initsigs : Z) (s : Process) : Process :=
  emit (EvPyInitializeEx initsigs)
    (set_python
       (mkPyRuntime true (py_threads_initialized (python s))
          (py_program_name (python s)) (default_sys_path W)
          Console Console Console) s).

Definition Py_Finalize (s : Process) : Process :=
  emit EvPyFinalize
    (set_python
       (mkPyRuntime false false (py_program_name (python s)) []
          Console Console Console) s).

(** Py_SetProgramName ignores a null or empty name. *)
Definition Py_SetProgramName (name : option wstring) (s : Process) : Process :=
  let s := emit (EvPySetProgramName name) s in
  match name with
  | Some (c :: w) => set_python (set_py_program_name (c :: w) (python s)) s
  | _ => s
  end.

(** PyList_Insert(PySys_GetObject("path"), 0, newpath) for a [newpath] that is
    not null: the object PyUnicode_FromString made of that text. *)
Definition PyList_Insert_sys_path (newpath : string) (s : Process) : Process :=
  set_python (set_sys_path (newpath :: sys_path (python s)) (python s)) s.

(** ** Diagnostics *)

Definition cout (line : string) : Process -> Process := emit (EvCout line).

Definition VTKPY_DEBUG_MESSAGE (x : string) (s : Process) : Process :=
  if 0 <? PythonVerboseFlag s then cout ("# vtk: " ^^ x) s else s.

Definition VTKPY_DEBUG_MESSAGE_VV (x : string) (s : Process) : Process :=
  if 1 <? PythonVerboseFlag s then cout ("# vtk: " ^^ x) s else s.

(** ** The observer registry *)

(** vtkWeakPointer == raw pointer *)
Definition weak_is (this : ident) (w : option ident) : bool :=
  match w with
  | Some p => N.eqb p this
  | None => false
  end.

(** The loop of the destructor: erase the first entry equal to [this]. *)
Fixpoint erase_first (this : ident) (v : list (option ident))
  : list (option ident) :=
  match v with
  | [] => []
  | w :: rest => if weak_is this w then rest else w :: erase_first this rest
  end.

(** Modelled from the spec: vtkWeakPointer (vtkWeakPointer.h is not under
    src/).  A weak reference does not keep its object alive and reads as null
    once the object is destroyed. *)
Definition expire (this : ident) (v : list (option ident))
  : list (option ident) :=
  map (fun w => if weak_is this w then None else w) v.

(** vtkPythonInterpreter::vtkPythonInterpreter() *)
Definition vtkPythonInterpreter_ctor (this : ident) (s : Process) : Process :=
  set_GlobalInterpreters (GlobalInterpreters s ++ [Some this]) s.

(** vtkPythonInterpreter::~vtkPythonInterpreter(), then the end of the
    object's life. *)
Definition vtkPythonInterpreter_dtor (this : ident) (s : Process) : Process :=
  set_GlobalInterpreters (expire this (erase_first this (GlobalInterpreters s))) s.

Definition NotifyInterpreters (eventid : EventId) (calldata : CallData)
  (s : Process) : Process :=
  fold_left
    (fun st iter =>
       match iter with
       | Some p => emit (EvInvoke p eventid calldata) st
       | None => st
       end)
    (GlobalInterpreters s) s.

(** ** Results of the member functions that may not return

    [Undefined] is a path on which the C++ has no defined behaviour;
    [OutOfFuel] is the bound on the mutual recursion of Initialize and
    RunSimpleString being reached, which [Initialize_returns] and
    [RunSimpleString_returns] below show never happens from two on. *)

Inductive outcome (A : Type) : Type :=
| Ok (a : A) (s : Process)
| Undefined
| OutOfFuel.

Arguments Ok {A} a s.
Arguments Undefined {A}.
Arguments OutOfFuel {A}.

Definition bind {A B : Type} (m : Process -> outcome A)
  (k : A -> Process -> outcome B) (s : Process) : outcome B :=
  match m s with
  | Ok a s' => k a s'
  | Undefined => Undefined
  | OutOfFuel => OutOfFuel
  end.

Definition ret {A : Type} (a : A) (s : Process) : outcome A := Ok a s.

(** A step that always returns, and returns nothing. *)
Definition step (f : Process -> Process) (s : Process) : outcome unit :=
  Ok tt (f s).

(** A call that always returns a value. *)
Definition call {A : Type} (f : Process -> A * Process) (s : Process)
  : outcome A :=
  let (a, s') := f s in Ok a s'.

Notation "x <- m ;; k" := (bind m (fun x => k))
  (at level 61, m at next level, right associativity).
Notation "m ;; k" := (bind m (fun _ => k))
  (at level 61, right associativity).

(** ** Module search path *)

(** PyUnicode_FromString returns null for a text that is not valid UTF-8.
    The result goes unchecked to PyList_Insert, which refuses a null item,
    and to Py_DECREF, which dereferences it: with a null result the function
    has no defined behaviour. *)
Definition vtkPrependPythonPath (W : World) (pathtoadd : string)
  : Process -> outcome unit :=
  step (VTKPY_DEBUG_MESSAGE ("adding module search path " ^^ pathtoadd)) ;;
  fun s =>
    if PyUnicode_FromString W pathtoadd
    then Ok tt (PyList_Insert_sys_path pathtoadd s)
    else Undefined.

Definition vtkSafePrependPythonPath (W : World) (pathtoadd : string)
  : Process -> outcome unit :=
  step (VTKPY_DEBUG_MESSAGE_VV ("trying " ^^ pathtoadd)) ;;
  if negb (String.eqb pathtoadd EmptyString) && FileIsDirectory W pathtoadd
  then vtkPrependPythonPath W pathtoadd
  else ret tt.

(** vtkPythonInterpreter::PrependPythonPath; [None] is the null pointer. *)
Definition PrependPythonPath (W : World) (dir : option string)
  : Process -> outcome unit :=
  match dir with
  | None => ret tt
  | Some d =>
      let out_dir := if win32 W then replace_char slash backslash d else d in
      step (fun s => set_PythonPaths (PythonPaths s ++ [out_dir]) s) ;;
      fun s =>
        if negb (py_initialized (python s)) then Ok tt s
        else vtkPrependPythonPath W out_dir s
  end.

(** ** Standard streams *)

Definition WriteStdOut (txt : string) (s : Process) : Process :=
  if ConsoleBuffering s then set_StdOutBuffer (StdOutBuffer s ^^ txt) s
  else NotifyInterpreters SetOutputEvent (Text txt) (emit (EvDisplayText txt) s).

Definition WriteStdErr (txt : string) (s : Process) : Process :=
  if ConsoleBuffering s then set_StdErrBuffer (StdErrBuffer s ^^ txt) s
  else NotifyInterpreters ErrorEvent (Text txt) (emit (EvDisplayErrorText txt) s).

(** Modelled from the spec: vtkPythonStdStreamCaptureHelper
    (vtkPythonStdStreamCaptureHelper.h is not under src/).  The adapter bound
    to sys.stderr forwards what is written to it to WriteStdErr, the one
    bound to sys.stdout to WriteStdOut; a stream still bound to the console
    writes there. *)
Definition stream_write (target : Stream) (w : Output) (txt : string)
  (s : Process) : Process :=
  match target with
  | Console => emit (EvConsole w) s
  | CaptureHelper true => WriteStdErr txt s
  | CaptureHelper false => WriteStdOut txt s
  end.

Definition deliver (s : Process) (w : Output) : Process :=
  match w with
  | ToStdout txt => stream_write (sys_stdout (python s)) w txt s
  | ToStderr txt => stream_write (sys_stderr (python s)) w txt s
  end.

(** The call PyRun_SimpleString(buffer): the runtime is handed the text, what
    the script prints goes through sys.stdout and sys.stderr, and the status
    comes back. *)
Definition call_PyRun_SimpleString (W : World) (buffer : string) (s : Process)
  : Z * Process :=
  let (writes, status) := PyRun_SimpleString W buffer in
  (status, fold_left deliver writes (emit (EvPyRunSimpleString buffer) s)).

(** The call Py_Main(argc, argv).  Py_Main runs the program on the runtime
    that is up and, before it returns, shuts the runtime down as Py_Finalize
    does. *)
Definition call_Py_Main (W : World) (argv : list wstring) (s : Process)
  : Z * Process :=
  let (writes, status) := Py_Main W argv in
  let s := fold_left deliver writes (emit (EvPyMain argv) s) in
  (status,
   set_python
     (mkPyRuntime false false (py_program_name (python s)) []
        Console Console Console) s).

(** The two flushes at the end of RunSimpleString. *)
Definition flush_StdErrBuffer (s : Process) : Process :=
  if negb (String.eqb (StdErrBuffer s) EmptyString) then
    set_StdErrBuffer EmptyString
      (NotifyInterpreters ErrorEvent (Text (StdErrBuffer s))
         (emit (EvDisplayErrorText (StdErrBuffer s)) s))
  else s.

Definition flush_StdOutBuffer (s : Process) : Process :=
  if negb (String.eqb (StdOutBuffer s) EmptyString) then
    set_StdOutBuffer EmptyString
      (NotifyInterpreters SetOutputEvent (Text (StdOutBuffer s))
         (emit (EvDisplayText (StdOutBuffer s)) s))
  else s.

(** ** Locating the standard library and the vtk package *)

Definition SetupPythonPrefix (W : World) (s : Process) : Process :=
  match Py_GetPythonHome W with
  | Some _ =>
      VTKPY_DEBUG_MESSAGE "`PYTHONHOME` already set. Leaving unchanged." s
  | None =>
      let pythonlib := GetLibraryForSymbol W "Py_SetProgramName" in
      if String.eqb pythonlib EmptyString then
        VTKPY_DEBUG_MESSAGE
          ("static Python build or `Py_SetProgramName` library couldn't be found. "
           ^^ "Set `PYTHONHOME` if Python standard library fails to load.") s
      else
        let oldprogramname := Py_EncodeLocale W (py_program_name (python s)) in
        if match oldprogramname with
           | Some old => negb (String.eqb old "python")
           | None => false
           end
        then
          VTKPY_DEBUG_MESSAGE "program-name has been changed. Leaving unchanged." s
        else
          let newprogramname :=
            GetFilenamePath W pythonlib ^^ VTK_PATH_SEPARATOR W ^^ "vtkpython" in
          let s :=
            VTKPY_DEBUG_MESSAGE
              ("calling Py_SetProgramName(" ^^ newprogramname
               ^^ ") to aid in setup of Python prefix.") s in
          Py_SetProgramName (Py_DecodeLocale W newprogramname) s
  end.

Definition landmark (W : World) : string :=
  if win32 W then "vtk" ^^ str1 backslash ^^ "__init__.py"
  else "vtk/__init__.py".

Definition pathtocheck (W : World) (components : list string) : string :=
  JoinPath W components ^^ VTK_PATH_SEPARATOR W
  ^^ VTK_PYTHON_SITE_PACKAGES_SUFFIX W.

Definition landmarktocheck (W : World) (components : list string) : string :=
  pathtocheck W components ^^ VTK_PATH_SEPARATOR W ^^ landmark W.

(** The while loop of SetupVTKPythonPaths.  Every turn pops one component, so
    [n] = vtkprefix_components.size() turns are enough. *)
Fixpoint landmark_walk (W : World) (n : nat) (vtkprefix_components : list string)
  : Process -> outcome unit :=
  match n, vtkprefix_components with
  | S n', _ :: _ =>
      if FileExists W (landmarktocheck W vtkprefix_components) then
        step (VTKPY_DEBUG_MESSAGE_VV
                ("trying VTK landmark file "
                 ^^ landmarktocheck W vtkprefix_components ^^ " -- success!")) ;;
        vtkSafePrependPythonPath W (pathtocheck W vtkprefix_components)
      else
        step (VTKPY_DEBUG_MESSAGE_VV
                ("trying VTK landmark file "
                 ^^ landmarktocheck W vtkprefix_components ^^ " -- failed!")) ;;
        landmark_walk W n' (removelast vtkprefix_components)
  | _, _ => ret tt
  end.

(** The library whose directory starts the walk; empty in a static build. *)
Definition vtklib (W : World) : string :=
  if build_shared_libs W then GetLibraryForSymbol W "GetVTKVersion"
  else EmptyString.

(** The components the walk starts from.  Without a library the program name
    is encoded and assigned to a std::string, which is undefined when the
    encoder returns null: [None]. *)
Definition start_components (W : World) (s : Process) : option (list string) :=
  if String.eqb (vtklib W) EmptyString then
    match Py_EncodeLocale W (py_program_name (python s)) with
    | None => None
    | Some tmp => Some (SplitPath W (CollapseFullPath W tmp))
    end
  else Some (SplitPath W (GetFilenamePath W (vtklib W))).

Definition announce_build (W : World) (s : Process) : Process :=
  if build_shared_libs W then
    let s := VTKPY_DEBUG_MESSAGE "shared VTK build detected." s in
    if String.eqb (vtklib W) EmptyString then
      VTKPY_DEBUG_MESSAGE
        "`GetVTKVersion` library couldn't be found. Will use `Py_GetProgramName` next."
        s
    else s
  else
    VTKPY_DEBUG_MESSAGE
      "static VTK build detected. Using `Py_GetProgramName` to locate python modules."
      s.

Definition SetupVTKPythonPaths (W : World) (s : Process) : outcome unit :=
  let s := announce_build W s in
  match start_components W s with
  | None => Undefined
  | Some vtkprefix_components =>
      landmark_walk W (List.length vtkprefix_components)
        vtkprefix_components s
  end.

(** The block of Initialize guarded by VTK_PYTHON_FULL_THREADSAFE. *)
Definition init_threads (W : World) (s : Process) : Process :=
  if full_threadsafe W then
    let threadInit := py_threads_initialized (python s) in
    let s := set_python (set_py_threads_initialized true (python s)) s in
    if negb threadInit then emit EvSaveThread s else s
  else s.

(** The three PySys_SetObject calls of Initialize. *)
Definition bind_streams (s : Process) : Process :=
  let wrapperOut := CaptureHelper false in
  let wrapperErr := CaptureHelper true in
  set_python (set_streams wrapperOut wrapperErr wrapperOut (python s)) s.

(** The loop of Initialize over PythonPaths. *)
Fixpoint prepend_each (W : World) (paths : list string)
  : Process -> outcome unit :=
  match paths with
  | [] => ret tt
  | path :: rest => vtkPrependPythonPath W path ;; prepend_each W rest
  end.

Definition replay_paths (W : World) (s : Process) : outcome unit :=
  prepend_each W (PythonPaths s) s.

(** RunSimpleString, with the Initialize(1) it starts with as a parameter;
    [None] is the null script. *)
Definition RunSimpleString_with (Initialize1 : Process -> outcome bool)
  (W : World) (script : option string) : Process -> outcome Z :=
  Initialize1 ;;
  step (set_ConsoleBuffering true) ;;
  let buffer := match script with Some text => text | None => EmptyString end in
  let buffer := remove_cr buffer in
  pyReturn <- call (call_PyRun_SimpleString W buffer) ;;
  step (set_ConsoleBuffering false) ;;
  step flush_StdErrBuffer ;;
  step flush_StdOutBuffer ;;
  ret pyReturn.

Fixpoint Initialize (W : World) (fuel : nat) (initsigs : Z) (s : Process)
  : outcome bool :=
  match fuel with
  | O => OutOfFuel
  | S fuel' =>
      let s :=
        if negb (py_initialized (python s)) then
          emit EvSignalDefault
            (Py_InitializeEx W initsigs (SetupPythonPrefix W s))
        else s in
      if negb (InitializedOnce s) then
        (step (set_InitializedOnce true) ;;
         step (init_threads W) ;;
         RunSimpleString_with (Initialize W fuel' 1) W (Some EmptyString) ;;
         step bind_streams ;;
         SetupVTKPythonPaths W ;;
         replay_paths W ;;
         step (NotifyInterpreters EnterEvent NoData) ;;
         ret true) s
      else Ok false s
  end.

Definition RunSimpleString (W : World) (fuel : nat) (script : option string)
  : Process -> outcome Z :=
  RunSimpleString_with (Initialize W fuel 1) W script.

Definition Finalize (s : Process) : Process :=
  if py_initialized (python s) then
    Py_Finalize (NotifyInterpreters ExitEvent NoData s)
  else s.

(** vtkPythonInterpreter::SetProgramName *)
Definition SetProgramName (W : World) (programname : option string)
  (s : Process) : Process :=
  match programname with
  | None => s
  | Some name =>
      match Py_DecodeLocale W name with
      | None =>
          let s :=
            emit (EvStderr ("Fatal vtkpython error: "
                            ^^ "unable to decode the program name" ^^ str1 LF)) s in
          Py_SetProgramName (Some []) s
      | Some argv0 => Py_SetProgramName (Some argv0) s
      end
  end.

(** ** PyMain *)

(** The first loop of PyMain, one argument. *)
Definition scan_verbose (s : Process) (arg : string) : Process :=
  let s :=
    if String.eqb arg "-v"
    then set_PythonVerboseFlag (PythonVerboseFlag s + 1) s else s in
  if String.eqb arg "-vv" then set_PythonVerboseFlag 2 s else s.

(** The second loop of PyMain from argument [i] on; [argvWide] holds the
    arguments decoded so far.  [None] is the early return. *)
Fixpoint decode_args (W : World) (i : nat) (argv : list string)
  (argvWide : list wstring) (s : Process) : option (list wstring) * Process :=
  match argv with
  | [] => (Some argvWide, s)
  | arg :: rest =>
      if String.eqb arg "--enable-bt" then
        decode_args W (S i) rest argvWide (set_StackTraceOnError true s)
      else
        let s :=
          if String.eqb arg "-V" then cout (GetVTKSourceVersion W) s else s in
        match Py_DecodeLocale W arg with
        | None =>
            (None,
             emit (EvStderr ("Fatal vtkpython error: "
                             ^^ "unable to decode the command line argument #"
                             ^^ decimal (i + 1) ^^ str1 LF)) s)
        | Some wide => decode_args W (S i) rest (argvWide ++ [wide]) s
        end
  end.

(** vtkPythonInterpreter::PyMain; [argv] holds the argc arguments, none of
    them null.  EnableMSVCDebugHook only concerns the debug runtime of MSVC
    and is left out. *)
Definition PyMain (W : World) (fuel : nat) (argv : list string)
  : Process -> outcome Z :=
  step (set_PythonVerboseFlag 0) ;;
  step (fun s => fold_left scan_verbose argv s) ;;
  Initialize W fuel 1 ;;
  argvWide <- call (decode_args W 0 argv []) ;;
  match argvWide with
  | None => ret 1
  | Some argvWide => call (call_Py_Main W argvWide)
  end.

(** Initialize called once per element of [sigs], results in call order. *)
Fixpoint Initialize_calls (W : World) (fuel : nat) (sigs : list Z)
  : Process -> outcome (list bool) :=
  match sigs with
  | [] => ret []
  | initsigs :: rest =>
      b <- Initialize W fuel initsigs ;;
      bs <- Initialize_calls W fuel rest ;;
      ret (b :: bs)
  end.

(** ** Reading a trace *)

(** The live entries of the registry, in order. *)
Definition live (v : list (option ident)) : list ident :=
  flat_map (fun w => match w with Some p => [p] | None => [] end) v.

(** One InvokeEvent per live entry. *)
Definition notifications (eventid : EventId) (calldata : CallData)
  (v : list (option ident)) : list Event :=
  map (fun p => EvInvoke p eventid calldata) (live v).

(** Text shown in the output window or handed to the observers as output. *)
Definition is_delivery (e : Event) : bool :=
  match e with
  | EvDisplayText _ | EvDisplayErrorText _ => true
  | EvInvoke _ SetOutputEvent _ | EvInvoke _ ErrorEvent _ => true
  | _ => false
  end.

Definition is_run (e : Event) : bool :=
  match e with EvPyRunSimpleString _ => true | _ => false end.

Definition is_main (e : Event) : bool :=
  match e with EvPyMain _ => true | _ => false end.

Definition is_enter (e : Event) : bool :=
  match e with EvInvoke _ EnterEvent _ => true | _ => false end.

(** Events of locating and starting the runtime. *)
Definition diagnostic (e : Event) : bool :=
  match e with
  | EvCout _ | EvPyInitializeEx _ | EvSignalDefault | EvSaveThread
  | EvPySetProgramName _ => true
  | _ => false
  end.

(** Events a script's output can cause. *)
Definition is_output (e : Event) : bool :=
  match e with
  | EvConsole _ => true
  | _ => is_delivery e
  end.

(** What a list of writes sends to each stream, concatenated. *)
Fixpoint stdout_text (writes : list Output) : string :=
  match writes with
  | [] => EmptyString
  | ToStdout txt :: rest => txt ^^ stdout_text rest
  | ToStderr _ :: rest => stdout_text rest
  end.

Fixpoint stderr_text (writes : list Output) : string :=
  match writes with
  | [] => EmptyString
  | ToStderr txt :: rest => txt ^^ stderr_text rest
  | ToStdout _ :: rest => stderr_text rest
  end.

(** The events of flushing an accumulator holding [text]. *)
Definition error_flush (text : string) (v : list (option ident)) : list Event :=
  if String.eqb text EmptyString then []
  else EvDisplayErrorText text :: notifications ErrorEvent (Text text) v.

Definition output_flush (text : string) (v : list (option ident)) : list Event :=
  if String.eqb text EmptyString then []
  else EvDisplayText text :: notifications SetOutputEvent (Text text) v.

(** The walk can start: the library was located, or every program name can
    be encoded. *)
Definition prefix_defined (W : World) : Prop :=
  vtklib W <> EmptyString \/ forall name, Py_EncodeLocale W name <> None.

(** ** A concrete world

    A POSIX shared build installed under /opt/vtk, with an ASCII locale. *)

Definition wide (text : string) : wstring :=
  map N_of_ascii (list_ascii_of_string text).

Definition ascii_only (text : string) : bool :=
  forallb (fun c => N.ltb (N_of_ascii c) 128) (list_ascii_of_string text).

Definition decode_ascii (text : string) : option wstring :=
  if ascii_only text then Some (wide text) else None.

Definition encode_ascii (name : wstring) : option string :=
  if forallb (fun c => N.ltb c 128) name
  then Some (string_of_list_ascii (map ascii_of_N name)) else None.

Fixpoint components_of (path cur : string) : list string :=
  match path with
  | EmptyString => if String.eqb cur EmptyString then [] else [cur]
  | String c rest =>
      if Ascii.eqb c slash then
        if String.eqb cur EmptyString then components_of rest EmptyString
        else cur :: components_of rest EmptyString
      else components_of rest (cur ^^ str1 c)
  end.

Definition split_path (path : string) : list string :=
  "/" :: components_of path EmptyString.

Definition join_path (components : list string) : string :=
  match components with
  | [] => EmptyString
  | root :: rest => root ^^ String.concat "/" rest
  end.

(** Well-formed UTF-8 (the Unicode standard, table 3-7), which is what the
    strict decoder behind PyUnicode_FromString accepts. *)
Definition in_range (lo hi b : N) : bool := N.leb lo b && N.leb b hi.

Definition continuation (b : N) : bool := in_range 128 191 b.

Fixpoint utf8_bytes (bs : list N) : bool :=
  match bs with
  | [] => true
  | b0 :: r0 =>
      if N.ltb b0 128 then utf8_bytes r0
      else if in_range 194 223 b0 then
        match r0 with
        | b1 :: r1 => continuation b1 && utf8_bytes r1
        | _ => false
        end
      else if in_range 224 239 b0 then
        match r0 with
        | b1 :: b2 :: r2 =>
            in_range (if N.eqb b0 224 then 160 else 128)
              (if N.eqb b0 237 then 159 else 191) b1
            && continuation b2 && utf8_bytes r2
        | _ => false
        end
      else if in_range 240 244 b0 then
        match r0 with
        | b1 :: b2 :: b3 :: r3 =>
            in_range (if N.eqb b0 240 then 144 else 128)
              (if N.eqb b0 244 then 143 else 191) b1
            && continuation b2 && continuation b3 && utf8_bytes r3
        | _ => false
        end
      else false
  end.

Definition utf8_valid (text : string) : bool :=
  utf8_bytes (map N_of_ascii (list_ascii_of_string text)).

Definition a_script_run (buffer : string) : list Output * Z :=
  if String.eqb buffer "print('x')"
  then ([ToStdout "x"; ToStdout (str1 LF)], 0)
  else if String.eqb buffer "raise"
  then ([ToStderr "Traceback"; ToStderr (str1 LF)], -1)
  else if String.eqb buffer EmptyString
  then ([ToStderr (str1 LF)], 0)
  else ([], 0).

Definition a_world : World :=
  mkWorld false true false "lib/python3.7/site-packages" "vtk version 8.2.0"
    None decode_ascii encode_ascii utf8_valid ["/usr/lib/python3.7"]
    a_script_run (fun _ => ([], 0))
    None (fun _ => None)
    (fun symbol =>
       if String.eqb symbol "GetVTKVersion" then Some 1%N
       else if String.eqb symbol "Py_SetProgramName" then Some 2%N else None)
    (fun handle =>
       if N.eqb handle 1
       then Some (mkDl_info (Some "/opt/vtk/lib/libvtkCommonCore.so") (Some 1%N))
       else Some (mkDl_info (Some "/usr/lib/libpython3.7m.so") (Some 2%N)))
    (String.eqb "/opt/vtk/lib/python3.7/site-packages/vtk/__init__.py")
    (String.eqb "/opt/vtk/lib/python3.7/site-packages")
    (fun path => join_path (removelast (split_path path)))
    (fun path => path)
    split_path join_path.

(** The same installation with PYTHONHOME set. *)
Definition a_world_with_home : World :=
  mkWorld false true false "lib/python3.7/site-packages" "vtk version 8.2.0"
    (Some (wide "/opt/python")) decode_ascii encode_ascii utf8_valid ["/usr/lib/python3.7"]
    a_script_run (fun _ => ([], 0))
    None (fun _ => None) (dlsym a_world) (dladdr a_world)
    (FileExists a_world) (FileIsDirectory a_world)
    (GetFilenamePath a_world) (CollapseFullPath a_world) split_path join_path.

(** The same installation without the vtk package on disk. *)
Definition a_world_without_vtk : World :=
  mkWorld false true false "lib/python3.7/site-packages" "vtk version 8.2.0"
    None decode_ascii encode_ascii utf8_valid ["/usr/lib/python3.7"]
    a_script_run (fun _ => ([], 0))
    None (fun _ => None) (dlsym a_world) (dladdr a_world)
    (fun _ => false) (fun _ => false)
    (GetFilenamePath a_world) (CollapseFullPath a_world) split_path join_path.

(** An argument no ASCII locale decodes, and which is not UTF-8 either. *)
Definition undecodable : string := String (ascii_of_nat 255) "x".

(** ** Parts of the member functions, named for the proofs *)

(** The first block of Initialize: start the runtime if it is not started. *)
Definition started (W : World) (initsigs : Z) (s : Process) : Process :=
  if negb (py_initialized (python s)) then
    emit EvSignalDefault (Py_InitializeEx W initsigs (SetupPythonPrefix W s))
  else s.

(** RunSimpleString from the line after Initialize(1) on. *)
Definition run_script (W : World) (buffer : string) (s : Process)
  : Z * Process :=
  let (pyReturn, s1) :=
    call_PyRun_SimpleString W buffer (set_ConsoleBuffering true s) in
  (pyReturn,
   flush_StdOutBuffer (flush_StdErrBuffer (set_ConsoleBuffering false s1))).

(** The one-time block of Initialize up to the call of SetupVTKPythonPaths. *)
Definition before_paths (W : World) (s : Process) : Process :=
  bind_streams
    (snd (run_script W EmptyString
            (init_threads W (set_InitializedOnce true s)))).

(** The test of one turn of the walk. *)
Definition probe (W : World) (components : list string) : bool :=
  FileExists W (landmarktocheck W components).

(** ** What the walk is to add

    Following the specification: the start directory and its ancestors, the
    deepest first; the walk stops at the first of them whose landmark file
    exists and adds its site-packages directory, when that is a directory. *)
Definition candidates (components : list string) : list (list string) :=
  map (fun k => firstn k components) (rev (seq 1 (List.length components))).

Definition site_packages (W : World) (components : list string) : list string :=
  match find (probe W) (candidates components) with
  | Some candidate =>
      if FileIsDirectory W (pathtocheck W candidate)
      then [pathtocheck W candidate] else []
  | None => []
  end.

(** ** Where the first Initialize is defined

    The state whose program name the walk reads: SetupPythonPrefix has run
    when the runtime had to be started. *)
Definition at_walk (W : World) (s : Process) : Process :=
  if py_initialized (python s) then s else SetupPythonPrefix W s.

Definition walk_start (W : World) (s : Process) : option (list string) :=
  start_components W (at_walk W s).

(** The one-time block of Initialize has defined behaviour: the start of
    the walk is defined, and PyUnicode_FromString returns an object for
    every path the block inserts. *)
Definition first_Initialize_defined (W : World) (s : Process) : bool :=
  match walk_start W s with
  | Some components =>
      forallb (PyUnicode_FromString W)
        (site_packages W components ++ PythonPaths s)
  | None => false
  end.

(** Every directory of the file system has a name PyUnicode_FromString
    accepts. *)
Definition directories_decode (W : World) : Prop :=
  forall path, FileIsDirectory W path = true ->
               PyUnicode_FromString W path = true.

(** The process after a script was run in [s]: buffering is off again, both
    accumulators are empty, and [es] was added to the trace. *)
Definition after_run (s : Process) (es : list Event) : Process :=
  mkProcess (InitializedOnce s) (CaptureStdin s) false EmptyString EmptyString
    (PythonVerboseFlag s) (GlobalInterpreters s) (PythonPaths s)
    (StackTraceOnError s) (python s) (trace s ++ es).

(** ** States of the supported lifecycle

    Between two calls of the public functions, and as long as the runtime
    has not been shut down (by Finalize, or by Py_Main under PyMain), both
    accumulators are empty; the streams are the capture helpers once the
    one-time block of Initialize has run, and those of a fresh runtime
    before that. *)
Definition lifecycle_ok (s : Process) : Prop :=
  StdErrBuffer s = EmptyString
  /\ StdOutBuffer s = EmptyString
  /\ if InitializedOnce s then
       py_initialized (python s) = true
       /\ sys_stdout (python s) = CaptureHelper false
       /\ sys_stderr (python s) = CaptureHelper true
     else
       py_initialized (python s) = true ->
       sys_stdout (python s) = Console /\ sys_stderr (python s) = Console.

(** ** Arguments of PyMain *)

(** The decoded form of arguments that all decode. *)
Definition decoded (W : World) (args : list string) : list wstring :=
  map (fun arg => match Py_DecodeLocale W arg with
                  | Some wide => wide
                  | None => []
                  end) args.

Definition is_enable_bt (arg : string) : bool := String.eqb arg "--enable-bt".

Definition is_verbosity_flag (arg : string) : bool :=
  String.eqb arg "-v" || String.eqb arg "-vv".

(** The diagnostic of PyMain for argument number [k]. *)
Definition decode_diagnostic (k : nat) : string :=
  "Fatal vtkpython error: " ^^ "unable to decode the command line argument #"
  ^^ decimal k ^^ str1 LF.

(** The reading of the specification under which PyMain hands its arguments
    on without the verbosity flags and without --enable-bt. *)
Definition strips_all_flags (W : World) (fuel : nat) (argv : list string)
  (s : Process) : Prop :=
  exists status s' es,
    PyMain W fuel argv s = Ok status s'
    /\ trace s' = trace s ++ es
    /\ filter is_main es
       = [EvPyMain
            (decoded W
               (filter (fun arg => negb (is_verbosity_flag arg || is_enable_bt arg))
                  argv))].

(** A script with DOS line ends, and the same with UNIX line ends. *)
Definition dos_script : string :=
  "a" ^^ str1 CR ^^ str1 LF ^^ "b" ^^ str1 CR ^^ str1 LF.

Definition unix_script : string := "a" ^^ str1 LF ^^ "b" ^^ str1 LF.

(** ** The other member functions *)

(** vtkPythonInterpreter::IsInitialized *)
Definition IsInitialized (s : Process) : bool := py_initialized (python s).

Definition set_CaptureStdin (v : bool) (s : Process) : Process :=
  mkProcess (InitializedOnce s) v (ConsoleBuffering s) (StdErrBuffer s)
    (StdOutBuffer s) (PythonVerboseFlag s) (GlobalInterpreters s)
    (PythonPaths s) (StackTraceOnError s) (python s) (trace s).

(** vtkPythonInterpreter::SetCaptureStdin and GetCaptureStdin *)
Definition SetCaptureStdin (val : bool) (s : Process) : Process :=
  set_CaptureStdin val s.

Definition GetCaptureStdin (s : Process) : bool := CaptureStdin s.

(** vtkPythonInterpreter::ReadStdin.  Without capture [cin] is the token
    that cin >> string reads.  With capture the calldata of UpdateEvent is
    the address of a string that starts empty; [handler p text] is what the
    observer [p] leaves in the string when it finds [text] there, and the
    event is recorded with the text the observer finds. *)
Definition ReadStdin (cin : string) (handler : ident -> string -> string)
  (s : Process) : string * Process :=
  if negb (CaptureStdin s) then (cin, s)
  else
    fold_left
      (fun acc iter =>
         match iter with
         | Some p =>
             (handler p (fst acc),
              emit (EvInvoke p UpdateEvent (Text (fst acc))) (snd acc))
         | None => acc
         end)
      (GlobalInterpreters s) (EmptyString, s).

(** A Windows build of the same installation. *)
Definition a_windows_world : World :=
  mkWorld true true false "lib/python3.7/site-packages" "vtk version 8.2.0"
    None decode_ascii encode_ascii utf8_valid ["C:/Python37/Lib"]
    a_script_run (fun _ => ([], 0))
    None (fun _ => None) (fun _ => None) (fun _ => None)
    (fun _ => false) (fun _ => false)
    (fun path => path) (fun path => path) split_path join_path.

(** The directory as PrependPythonPath stores it. *)
Definition out_dir (W : World) (dir : string) : string :=
  if win32 W then replace_char slash backslash dir else dir.

(** PrependPythonPath called once per directory, in order. *)
Fixpoint PrependPythonPaths (W : World) (dirs : list string)
  : Process -> outcome unit :=
  match dirs with
  | [] => ret tt
  | dir :: rest => PrependPythonPath W (Some dir) ;; PrependPythonPaths W rest
  end.

(** The installation of [a_world] with a stray landmark file below a path
    that is not a directory, deeper than the real package. *)
Definition a_world_with_stray_landmark : World :=
  mkWorld false true false "lib/python3.7/site-packages" "vtk version 8.2.0"
    None decode_ascii encode_ascii utf8_valid ["/usr/lib/python3.7"]
    a_script_run (fun _ => ([], 0))
    None (fun _ => None) (dlsym a_world) (dladdr a_world)
    (fun path =>
       String.eqb path "/opt/vtk/lib/lib/python3.7/site-packages/vtk/__init__.py"
       || String.eqb path "/opt/vtk/lib/python3.7/site-packages/vtk/__init__.py")
    (String.eqb "/opt/vtk/lib/python3.7/site-packages")
    (GetFilenamePath a_world) (CollapseFullPath a_world) split_path join_path.

(** A static build in a locale that cannot encode the program name. *)
Definition a_static_world : World :=
  mkWorld false false false "lib/python3.7/site-packages" "vtk version 8.2.0"
    None decode_ascii (fun _ => None) utf8_valid ["/usr/lib/python3.7"]
    a_script_run (fun _ => ([], 0))
    None (fun _ => None) (fun _ => None) (fun _ => None)
    (fun _ => false) (fun _ => false)
    (fun path => path) (fun path => path) split_path join_path.

(** The events of one write that is forwarded at once. *)
Definition forwarded (v : list (option ident)) (w : Output) : list Event :=
  match w with
  | ToStdout txt =>
      EvDisplayText txt :: notifications SetOutputEvent (Text txt) v
  | ToStderr txt =>
      EvDisplayErrorText txt :: notifications ErrorEvent (Text txt) v
  end.

(** The supported lifecycle between two calls: buffering is off as well. *)
Definition quiescent (s : Process) : Prop :=
  lifecycle_ok s /\ ConsoleBuffering s = false.

(** The UpdateEvent invocations of ReadStdin on the observers [ps], the
    string holding [text] at the start. *)
Fixpoint update_events (handler : ident -> string -> string)
  (ps : list ident) (text : string) : list Event :=
  match ps with
  | [] => []
  | p :: rest =>
      EvInvoke p UpdateEvent (Text text)
      :: update_events handler rest (handler p text)
  end.

(** An installation whose main program prints. *)
Definition a_chatty_world : World :=
  mkWorld false true false "lib/python3.7/site-packages" "vtk version 8.2.0"
    None decode_ascii encode_ascii utf8_valid ["/usr/lib/python3.7"]
    a_script_run (fun _ => ([ToStdout "1"; ToStdout "2"; ToStderr "e"], 0))
    None (fun _ => None) (dlsym a_world) (dladdr a_world)
    (FileExists a_world) (FileIsDirectory a_world)
    (GetFilenamePath a_world) (CollapseFullPath a_world) split_path join_path.

(** ** Sequences of calls

    The calls a client of the class can make, what each one answers, and a
    sequence of them run on the process from left to right. *)

Inductive Call : Type :=
| CallInitialize (initsigs : Z)
| CallFinalize
| CallSetProgramName (programname : option string)
| CallPrependPythonPath (dir : option string)
| CallPyMain (argv : list string)
| CallRunSimpleString (script : option string)
| CallSetCaptureStdin (val : bool)
| CallWriteStdOut (txt : string)
| CallWriteStdErr (txt : string)
| CallNew (this : ident)
| CallDelete (this : ident).

Inductive Answer : Type :=
| Returned
| ReturnedBool (b : bool)
| ReturnedInt (status : Z).

Definition run_call (W : World) (fuel : nat) (c : Call)
  : Process -> outcome Answer :=
  match c with
  | CallInitialize initsigs =>
      b <- Initialize W fuel initsigs ;; ret (ReturnedBool b)
  | CallFinalize => step Finalize ;; ret Returned
  | CallSetProgramName programname =>
      step (SetProgramName W programname) ;; ret Returned
  | CallPrependPythonPath dir =>
      PrependPythonPath W dir ;; ret Returned
  | CallPyMain argv =>
      status <- PyMain W fuel argv ;; ret (ReturnedInt status)
  | CallRunSimpleString script =>
      status <- RunSimpleString W fuel script ;; ret (ReturnedInt status)
  | CallSetCaptureStdin val => step (SetCaptureStdin val) ;; ret Returned
  | CallWriteStdOut txt => step (WriteStdOut txt) ;; ret Returned
  | CallWriteStdErr txt => step (WriteStdErr txt) ;; ret Returned
  | CallNew this => step (vtkPythonInterpreter_ctor this) ;; ret Returned
  | CallDelete this => step (vtkPythonInterpreter_dtor this) ;; ret Returned
  end.

Fixpoint run_calls (W : World) (fuel : nat) (cs : list Call)
  : Process -> outcome (list Answer) :=
  match cs with
  | [] => ret []
  | c :: rest =>
      a <- run_call W fuel c ;;
      answers <- run_calls W fuel rest ;;
      ret (a :: answers)
  end.

(** The directories a sequence of calls registers, as they are stored. *)
Definition registered (W : World) (cs : list Call) : list string :=
  flat_map (fun c => match c with
                     | CallPrependPythonPath (Some dir) => [out_dir W dir]
                     | _ => []
                     end) cs.

Definition answered_true (a : Answer) : bool :=
  match a with ReturnedBool true => true | _ => false end.

(** The calls that shut the runtime down. *)
Definition is_finalize (c : Call) : bool :=
  match c with CallFinalize | CallPyMain _ => true | _ => false end.

(** The instances alive after a sequence of calls, oldest first. *)
Definition alive_step (l : list ident) (c : Call) : list ident :=
  match c with
  | CallNew this => l ++ [this]
  | CallDelete this => remove N.eq_dec this l
  | _ => l
  end.

Definition alive_after (cs : list Call) (l : list ident) : list ident :=
  fold_left alive_step cs l.

(** No instance is constructed at the address of one that is alive. *)
Fixpoint constructs_fresh (cs : list Call) (l : list ident) : Prop :=
  match cs with
  | [] => True
  | c :: rest =>
      match c with
      | CallNew this => ~ In this l
      | _ => True
      end
      /\ constructs_fresh rest (alive_step l c)
  end.

(** ** Classes of events for the diagnostics *)

(** A line printed on cout. *)
Definition is_cout (e : Event) : bool :=
  match e with EvCout _ => true | _ => false end.

Definition silent (e : Event) : bool := negb (is_cout e).

(** The calls that configure and start the runtime. *)
Definition is_startup (e : Event) : bool :=
  match e with
  | EvPyInitializeEx _ | EvSignalDefault | EvPySetProgramName _ => true
  | _ => false
  end.

Definition no_startup (e : Event) : bool := negb (is_startup e).

Definition plain (e : Event) : bool := silent e && no_startup e.

(** [s'] is [s] after some more events, all of them in the class [P]. *)
Definition extends (P : Event -> bool) (s s' : Process) : Prop :=
  exists es, trace s' = trace s ++ es /\ forallb P es = true.

(** [s'] is [s] with [paths] put in front of sys.path and some more lines
    on cout, none at verbosity zero. *)
Definition inserts (paths : list string) (s s' : Process) : Prop :=
  exists es,
    s' = log es
           (set_python
              (set_sys_path (paths ++ sys_path (python s)) (python s)) s)
    /\ forallb is_cout es = true
    /\ (PythonVerboseFlag s <= 0 -> es = []).

(** A process whose host has started the runtime itself. *)
Definition a_hosted_process : Process :=
  set_python
    (mkPyRuntime true false wide_python ["/host/lib"] Console Console Console)
    (set_PythonPaths ["/a"] process_start).

(** * Properties *)

(** ** The trace and the state *)

Lemma append_nil_r (a : string) : a ^^ EmptyString = a.
Proof. induction a as [|c a IH]; simpl; now rewrite ?IH. Qed.

Lemma append_assoc (a b c : string) : (a ^^ b) ^^ c = a ^^ b ^^ c.
Proof. induction a as [|x a IH]; simpl; now rewrite ?IH. Qed.

(** Setters and projections, computed innermost first. *)
Ltac fields :=
  cbv [log emit after_run bind_streams
       set_InitializedOnce set_ConsoleBuffering set_StdErrBuffer
       set_StdOutBuffer set_PythonVerboseFlag set_GlobalInterpreters
       set_PythonPaths set_StackTraceOnError set_python
       set_sys_path set_py_program_name set_py_threads_initialized set_streams
       InitializedOnce CaptureStdin ConsoleBuffering StdErrBuffer StdOutBuffer
       PythonVerboseFlag GlobalInterpreters PythonPaths StackTraceOnError
       python trace py_initialized py_threads_initialized py_program_name
       sys_path sys_stdout sys_stderr sys_stdin].

Ltac by_fields s :=
  destruct s as [? ? ? ? ? ? ? ? ? [] ?]; simpl in *; subst; fields;
  rewrite ?app_nil_r, ?append_nil_r; try reflexivity.

Lemma log_nil (s : Process) : log [] s = s.
Proof. destruct s; unfold log; simpl; now rewrite app_nil_r. Qed.

Lemma log_log (es1 es2 : list Event) (s : Process) :
  log es2 (log es1 s) = log (es1 ++ es2) s.
Proof. unfold log; simpl; now rewrite app_assoc. Qed.

Lemma set_python_same (s : Process) : set_python (python s) s = s.
Proof. now destruct s. Qed.

Lemma live_app (v1 v2 : list (option ident)) :
  live (v1 ++ v2) = live v1 ++ live v2.
Proof. unfold live; apply flat_map_app. Qed.

Lemma NotifyInterpreters_log (eventid : EventId) (calldata : CallData)
  (s : Process) :
  NotifyInterpreters eventid calldata s
  = log (notifications eventid calldata (GlobalInterpreters s)) s.
Proof.
  unfold NotifyInterpreters, notifications.
  generalize (GlobalInterpreters s) as v; intros v; revert s.
  induction v as [|[p|] v IH]; intros s; simpl.
  - now rewrite log_nil.
  - rewrite IH; unfold emit; now rewrite log_log.
  - apply IH.
Qed.

Lemma VTKPY_DEBUG_MESSAGE_log (x : string) (s : Process) :
  exists es, VTKPY_DEBUG_MESSAGE x s = log es s /\ forallb diagnostic es = true.
Proof.
  unfold VTKPY_DEBUG_MESSAGE, cout, emit.
  destruct (0 <? PythonVerboseFlag s).
  - now exists [EvCout ("# vtk: " ^^ x)].
  - exists []; now rewrite log_nil.
Qed.

Lemma VTKPY_DEBUG_MESSAGE_VV_log (x : string) (s : Process) :
  exists es, VTKPY_DEBUG_MESSAGE_VV x s = log es s /\ forallb diagnostic es = true.
Proof.
  unfold VTKPY_DEBUG_MESSAGE_VV, cout, emit.
  destruct (1 <? PythonVerboseFlag s).
  - now exists [EvCout ("# vtk: " ^^ x)].
  - exists []; now rewrite log_nil.
Qed.

(** ** The null directory *)

(** C10: PrependPythonPath with a null directory returns at once: the process
    is left as it was, so neither the pending list PythonPaths nor sys.path
    changes, whether or not the runtime is initialized. *)
Theorem PrependPythonPath_null (W : World) (s : Process) :
  PrependPythonPath W None s = Ok tt s
  /\ exists s',
       PrependPythonPath W None s = Ok tt s'
       /\ s' = s
       /\ PythonPaths s' = PythonPaths s
       /\ sys_path (python s') = sys_path (python s).
Proof. split; [reflexivity|]; exists s; repeat split. Qed.

(** ** PYTHONHOME *)

(** C8: with PYTHONHOME set, SetupPythonPrefix leaves the whole process as it
    was but for the verbose-mode message: the program name and the rest of
    the runtime are unchanged, Py_SetProgramName is not called, and the
    result is the same whatever the loader would have answered. *)
Theorem SetupPythonPrefix_home_set (W : World) (home : wstring) (s : Process) :
  Py_GetPythonHome W = Some home ->
  SetupPythonPrefix W s
  = VTKPY_DEBUG_MESSAGE "`PYTHONHOME` already set. Leaving unchanged." s
  /\ python (SetupPythonPrefix W s) = python s
  /\ SetupPythonPrefix W s
     = log (if 0 <? PythonVerboseFlag s
            then [EvCout "# vtk: `PYTHONHOME` already set. Leaving unchanged."]
            else []) s
  /\ (forall name, In (EvPySetProgramName name) (trace (SetupPythonPrefix W s)) ->
                   In (EvPySetProgramName name) (trace s))
  /\ (forall W' home', Py_GetPythonHome W' = Some home' ->
                       SetupPythonPrefix W' s = SetupPythonPrefix W s).
Proof.
  intros Hhome.
  assert (Heq : forall W0 h, Py_GetPythonHome W0 = Some h ->
            SetupPythonPrefix W0 s
            = VTKPY_DEBUG_MESSAGE "`PYTHONHOME` already set. Leaving unchanged." s).
  { intros W0 h H0; unfold SetupPythonPrefix; now rewrite H0. }
  rewrite (Heq W home Hhome).
  unfold VTKPY_DEBUG_MESSAGE, cout, emit.
  repeat split.
  - now destruct (0 <? PythonVerboseFlag s).
  - destruct (0 <? PythonVerboseFlag s); [reflexivity|now rewrite log_nil].
  - intros name; destruct (0 <? PythonVerboseFlag s); simpl; [|tauto].
    rewrite in_app_iff; simpl; intros [H|[H|[]]]; [assumption|discriminate].
  - intros W' home' H'; rewrite (Heq W' home' H').
    now unfold VTKPY_DEBUG_MESSAGE, cout, emit.
Qed.

Lemma SetupPythonPrefix_home_set_witness :
  SetupPythonPrefix a_world_with_home process_start = process_start
  /\ SetupPythonPrefix a_world_with_home (set_PythonVerboseFlag 1 process_start)
     = log [EvCout "# vtk: `PYTHONHOME` already set. Leaving unchanged."]
         (set_PythonVerboseFlag 1 process_start).
Proof.
  split.
  - exact (proj1 (SetupPythonPrefix_home_set a_world_with_home
                    (wide "/opt/python") process_start eq_refl)).
  - exact (proj1 (SetupPythonPrefix_home_set a_world_with_home
                    (wide "/opt/python") (set_PythonVerboseFlag 1 process_start)
                    eq_refl)).
Defined.

(** ** The observer registry *)

Lemma weak_is_true (this : ident) (w : option ident) :
  weak_is this w = true <-> w = Some this.
Proof.
  destruct w as [p|]; simpl; [|split; discriminate].
  rewrite N.eqb_eq; split; [now intros ->|now intros [= ->]].
Qed.

Lemma live_expire (this : ident) (v : list (option ident)) :
  live (expire this v) = filter (fun p => negb (N.eqb p this)) (live v).
Proof.
  induction v as [|[p|] v IH]; simpl; trivial.
  destruct (N.eqb p this); simpl; now rewrite IH.
Qed.

Lemma live_erase_first_expire (this : ident) (v : list (option ident)) :
  live (expire this (erase_first this v))
  = filter (fun p => negb (N.eqb p this)) (live v).
Proof.
  induction v as [|[p|] v IH]; simpl; trivial.
  destruct (N.eqb p this) eqn:E; simpl.
  - apply live_expire.
  - rewrite E; simpl; now rewrite IH.
Qed.

Lemma erase_first_first (this : ident) (l1 l2 : list (option ident)) :
  ~ In (Some this) l1 ->
  erase_first this (l1 ++ Some this :: l2) = l1 ++ l2.
Proof.
  induction l1 as [|w l1 IH]; simpl; intros Hnot.
  - now rewrite N.eqb_refl.
  - destruct (weak_is this w) eqn:E.
    + apply weak_is_true in E; subst w; tauto.
    + rewrite IH; tauto.
Qed.

Lemma expire_absent (this : ident) (v : list (option ident)) :
  ~ In (Some this) v -> expire this v = v.
Proof.
  induction v as [|w v IH]; simpl; intros Hnot; trivial.
  destruct (weak_is this w) eqn:E.
  - apply weak_is_true in E; subst w; tauto.
  - rewrite IH; tauto.
Qed.

(** C5: the constructor adds the instance at the end of the registry and a
    notification then reaches it; the destructor removes the first entry
    that is this instance; after the destructor a notification invokes
    exactly the other live entries, once each and in order, and never the
    destroyed instance. *)
Theorem observer_registry_lifecycle (this : ident) (eventid : EventId)
  (calldata : CallData) (s : Process) :
  GlobalInterpreters (vtkPythonInterpreter_ctor this s)
  = GlobalInterpreters s ++ [Some this]
  /\ In (EvInvoke this eventid calldata)
        (notifications eventid calldata
           (GlobalInterpreters (vtkPythonInterpreter_ctor this s)))
  /\ (forall l1 l2,
         GlobalInterpreters s = l1 ++ Some this :: l2 ->
         ~ In (Some this) l1 ->
         GlobalInterpreters (vtkPythonInterpreter_dtor this s)
         = l1 ++ expire this l2)
  /\ (~ In (Some this) (GlobalInterpreters s) ->
      GlobalInterpreters
        (vtkPythonInterpreter_dtor this (vtkPythonInterpreter_ctor this s))
      = GlobalInterpreters s)
  /\ NotifyInterpreters eventid calldata (vtkPythonInterpreter_dtor this s)
     = log (map (fun p => EvInvoke p eventid calldata)
              (filter (fun p => negb (N.eqb p this))
                 (live (GlobalInterpreters s))))
         (vtkPythonInterpreter_dtor this s)
  /\ (forall e c,
         ~ In (EvInvoke this e c)
             (notifications eventid calldata
                (GlobalInterpreters (vtkPythonInterpreter_dtor this s)))).
Proof.
  repeat split.
  - unfold notifications; simpl; rewrite live_app, map_app, in_app_iff.
    right; simpl; now left.
  - intros l1 l2 Hv Hnot; simpl; rewrite Hv, erase_first_first by assumption.
    unfold expire; rewrite map_app; f_equal.
    now apply expire_absent.
  - intros Hnot; simpl.
    rewrite <- (app_nil_r (GlobalInterpreters s)) at 1.
    rewrite <- app_assoc; simpl.
    rewrite erase_first_first by assumption.
    rewrite app_nil_r; now apply expire_absent.
  - rewrite NotifyInterpreters_log; unfold notifications; simpl.
    now rewrite live_erase_first_expire.
  - intros e c; unfold notifications; simpl.
    rewrite live_erase_first_expire, in_map_iff.
    intros [p [[= -> _ _] Hin]].
    apply filter_In in Hin; destruct Hin as [_ Hne].
    now rewrite N.eqb_refl in Hne.
Qed.

Lemma observer_registry_lifecycle_witness :
  trace (NotifyInterpreters ErrorEvent (Text "oops")
           (vtkPythonInterpreter_dtor 1%N
              (vtkPythonInterpreter_ctor 2%N
                 (vtkPythonInterpreter_ctor 1%N process_start))))
  = [EvInvoke 2%N ErrorEvent (Text "oops")]
  /\ GlobalInterpreters
       (vtkPythonInterpreter_dtor 1%N
          (vtkPythonInterpreter_ctor 1%N
             (vtkPythonInterpreter_ctor 2%N process_start)))
     = [Some 2%N].
Proof.
  split.
  - pose proof
      (observer_registry_lifecycle 1%N ErrorEvent (Text "oops")
         (vtkPythonInterpreter_ctor 2%N
            (vtkPythonInterpreter_ctor 1%N process_start))) as H.
    destruct H as (_ & _ & _ & _ & H & _).
    rewrite H; reflexivity.
  - pose proof
      (observer_registry_lifecycle 1%N ErrorEvent (Text "oops")
         (vtkPythonInterpreter_ctor 2%N process_start)) as H.
    destruct H as (_ & _ & _ & H & _).
    apply H; simpl; intros [H1|[]]; discriminate.
Defined.

(** ** Results that may be undefined *)

Lemma bind_Ok {A B : Type} (m : Process -> outcome A)
  (k : A -> Process -> outcome B) (s s' : Process) (a : A) :
  m s = Ok a s' -> bind m k s = k a s'.
Proof. intros H; unfold bind; now rewrite H. Qed.

Lemma bind_Undefined {A B : Type} (m : Process -> outcome A)
  (k : A -> Process -> outcome B) (s : Process) :
  m s = Undefined -> bind m k s = Undefined.
Proof. intros H; unfold bind; now rewrite H. Qed.

(** ** Insertions into the module search path *)

Lemma inserts_refl (s : Process) : inserts [] s s.
Proof.
  exists []; split; [|split]; trivial.
  destruct s as [? ? ? ? ? ? ? ? ? [] ?]; unfold log; simpl.
  now rewrite app_nil_r.
Qed.

Lemma inserts_trans (p1 p2 : list string) (s1 s2 s3 : Process) :
  inserts p1 s1 s2 -> inserts p2 s2 s3 -> inserts (p2 ++ p1) s1 s3.
Proof.
  intros (es1 & -> & H1 & Q1) (es2 & -> & H2 & Q2).
  exists (es1 ++ es2); split; [|split].
  - unfold log; simpl; now rewrite <- !app_assoc.
  - now rewrite forallb_app, H1, H2.
  - intros Hv; now rewrite (Q1 Hv), (Q2 Hv).
Qed.

Lemma inserts_debug (x : string) (s : Process) :
  inserts [] s (VTKPY_DEBUG_MESSAGE x s).
Proof.
  unfold VTKPY_DEBUG_MESSAGE, cout, emit.
  destruct (Z.ltb_spec 0 (PythonVerboseFlag s)) as [Hv|Hv].
  - exists [EvCout ("# vtk: " ^^ x)]; split; [|split].
    + destruct s as [? ? ? ? ? ? ? ? ? [] ?]; reflexivity.
    + reflexivity.
    + intros; lia.
  - apply inserts_refl.
Qed.

Lemma inserts_debug_vv (x : string) (s : Process) :
  inserts [] s (VTKPY_DEBUG_MESSAGE_VV x s).
Proof.
  unfold VTKPY_DEBUG_MESSAGE_VV, cout, emit.
  destruct (Z.ltb_spec 1 (PythonVerboseFlag s)) as [Hv|Hv].
  - exists [EvCout ("# vtk: " ^^ x)]; split; [|split].
    + destruct s as [? ? ? ? ? ? ? ? ? [] ?]; reflexivity.
    + reflexivity.
    + intros; lia.
  - apply inserts_refl.
Qed.

Lemma inserts_insert (newpath : string) (s : Process) :
  inserts [newpath] s (PyList_Insert_sys_path newpath s).
Proof.
  exists []; split; [|split]; trivial.
  unfold PyList_Insert_sys_path; now rewrite log_nil.
Qed.

Lemma inserts_announce_build (W : World) (s : Process) :
  inserts [] s (announce_build W s).
Proof.
  unfold announce_build.
  destruct (build_shared_libs W); [|apply inserts_debug].
  destruct (vtklib W =? EmptyString)%string; [|apply inserts_debug].
  apply (inserts_trans [] [] s (VTKPY_DEBUG_MESSAGE "shared VTK build detected." s));
    apply inserts_debug.
Qed.

(** What an insertion leaves alone. *)
Lemma inserts_python (paths : list string) (s s' : Process) :
  inserts paths s s' ->
  python s' = set_sys_path (paths ++ sys_path (python s)) (python s).
Proof. now intros (es & -> & _). Qed.

Lemma inserts_sys_path (paths : list string) (s s' : Process) :
  inserts paths s s' ->
  sys_path (python s') = paths ++ sys_path (python s).
Proof. now intros (es & -> & _). Qed.

Lemma inserts_program_name (paths : list string) (s s' : Process) :
  inserts paths s s' ->
  py_program_name (python s') = py_program_name (python s).
Proof. now intros (es & -> & _). Qed.

Lemma inserts_statics (paths : list string) (s s' : Process) :
  inserts paths s s' ->
  PythonVerboseFlag s' = PythonVerboseFlag s
  /\ PythonPaths s' = PythonPaths s
  /\ GlobalInterpreters s' = GlobalInterpreters s
  /\ InitializedOnce s' = InitializedOnce s.
Proof. now intros (es & -> & _). Qed.

Lemma start_components_inserts (W : World) (paths : list string)
  (s s' : Process) :
  inserts paths s s' -> start_components W s' = start_components W s.
Proof. now intros (es & -> & _). Qed.

(** vtkPrependPythonPath puts the path in front of sys.path when
    PyUnicode_FromString returns an object for it, and is undefined when it
    returns null. *)
Lemma vtkPrependPythonPath_ok (W : World) (pathtoadd : string) (s : Process) :
  PyUnicode_FromString W pathtoadd = true ->
  exists s',
    vtkPrependPythonPath W pathtoadd s = Ok tt s'
    /\ inserts [pathtoadd] s s'.
Proof.
  intros Hdec; unfold vtkPrependPythonPath, bind, step; rewrite Hdec.
  eexists; split; [reflexivity|].
  apply (inserts_trans [] [pathtoadd] s
           (VTKPY_DEBUG_MESSAGE ("adding module search path " ^^ pathtoadd) s));
    [apply inserts_debug|apply inserts_insert].
Qed.

Lemma vtkPrependPythonPath_undefined (W : World) (pathtoadd : string)
  (s : Process) :
  PyUnicode_FromString W pathtoadd = false ->
  vtkPrependPythonPath W pathtoadd s = Undefined.
Proof.
  intros Hdec; unfold vtkPrependPythonPath, bind, step; now rewrite Hdec.
Qed.

(** The replay loop: every path is put in front of the ones replayed before
    it; the loop is undefined as soon as one of them gives a null object. *)
Lemma prepend_each_ok (W : World) (paths : list string) (s : Process) :
  forallb (PyUnicode_FromString W) paths = true ->
  exists s',
    prepend_each W paths s = Ok tt s' /\ inserts (rev paths) s s'.
Proof.
  revert s; induction paths as [|p paths IH]; intros s Hall.
  - exists s; split; [reflexivity|apply inserts_refl].
  - cbn [forallb] in Hall; apply andb_prop in Hall; destruct Hall as [Hp Hall].
    destruct (vtkPrependPythonPath_ok W p s Hp) as (s1 & Hrun1 & Hins1).
    destruct (IH s1 Hall) as (s2 & Hrun2 & Hins2).
    exists s2; split.
    + cbn [prepend_each]; now rewrite (bind_Ok _ _ _ _ _ Hrun1).
    + cbn [rev]; exact (inserts_trans [p] (rev paths) s s1 s2 Hins1 Hins2).
Qed.

Lemma prepend_each_undefined (W : World) (paths : list string) (s : Process) :
  forallb (PyUnicode_FromString W) paths = false ->
  prepend_each W paths s = Undefined.
Proof.
  revert s; induction paths as [|p paths IH]; intros s Hall; [discriminate|].
  cbn [forallb] in Hall; cbn [prepend_each].
  destruct (PyUnicode_FromString W p) eqn:Hp.
  - destruct (vtkPrependPythonPath_ok W p s Hp) as (s1 & Hrun1 & _).
    rewrite (bind_Ok _ _ _ _ _ Hrun1); now apply IH.
  - apply bind_Undefined; now apply vtkPrependPythonPath_undefined.
Qed.

(** ** The landmark walk *)

Lemma append_nonempty (a b : string) (c : ascii) :
  (a ^^ String c b =? EmptyString)%string = false.
Proof. apply String.eqb_neq; now destruct a. Qed.

Lemma pathtocheck_nonempty (W : World) (components : list string) :
  (pathtocheck W components =? EmptyString)%string = false.
Proof.
  unfold pathtocheck, VTK_PATH_SEPARATOR, str1.
  destruct (win32 W); apply append_nonempty.
Qed.

Lemma length_removelast_cons {A : Type} (a : A) (l : list A) :
  List.length (removelast (a :: l)) = List.length l.
Proof.
  rewrite removelast_firstn_len, length_firstn; simpl; lia.
Qed.

(** The candidates of a directory are the directory and the candidates of
    its parent. *)
Lemma candidates_cons (c : string) (components : list string) :
  candidates (c :: components)
  = (c :: components) :: candidates (removelast (c :: components)).
Proof.
  unfold candidates.
  rewrite length_removelast_cons.
  cbn [List.length]; rewrite seq_S, rev_app_distr; cbn [rev app map].
  f_equal.
  - apply (firstn_all (c :: components)).
  - apply map_ext_in; intros k Hk.
    apply in_rev, in_seq in Hk.
    symmetry; apply firstn_removelast; cbn [List.length]; lia.
Qed.

Lemma site_packages_nil (W : World) : site_packages W [] = [].
Proof. reflexivity. Qed.

Lemma site_packages_cons (W : World) (c : string) (components : list string) :
  site_packages W (c :: components)
  = if probe W (c :: components) then
      if FileIsDirectory W (pathtocheck W (c :: components))
      then [pathtocheck W (c :: components)] else []
    else site_packages W (removelast (c :: components)).
Proof.
  unfold site_packages; rewrite candidates_cons; cbn [find].
  now destruct (probe W (c :: components)).
Qed.

(** One turn of the walk that finds the landmark. *)
Lemma vtkSafePrependPythonPath_ok (W : World) (components : list string)
  (s : Process) :
  forallb (PyUnicode_FromString W)
    (if FileIsDirectory W (pathtocheck W components)
     then [pathtocheck W components] else []) = true ->
  exists s',
    vtkSafePrependPythonPath W (pathtocheck W components) s = Ok tt s'
    /\ inserts (if FileIsDirectory W (pathtocheck W components)
                then [pathtocheck W components] else []) s s'.
Proof.
  intros Hdec; unfold vtkSafePrependPythonPath.
  rewrite pathtocheck_nonempty; cbn [negb andb].
  unfold bind at 1; unfold step at 1.
  destruct (FileIsDirectory W (pathtocheck W components)).
  - cbn [forallb] in Hdec; rewrite andb_true_r in Hdec.
    match goal with
    | |- context [vtkPrependPythonPath W ?p ?st] =>
        destruct (vtkPrependPythonPath_ok W p st Hdec) as (s' & -> & Hins)
    end.
    exists s'; split; trivial.
    exact (inserts_trans [] [pathtocheck W components] _ _ _
             (inserts_debug_vv _ s) Hins).
  - eexists; split; [reflexivity|apply inserts_debug_vv].
Qed.

Lemma vtkSafePrependPythonPath_undefined (W : World)
  (components : list string) (s : Process) :
  forallb (PyUnicode_FromString W)
    (if FileIsDirectory W (pathtocheck W components)
     then [pathtocheck W components] else []) = false ->
  vtkSafePrependPythonPath W (pathtocheck W components) s = Undefined.
Proof.
  intros Hdec; unfold vtkSafePrependPythonPath.
  rewrite pathtocheck_nonempty; cbn [negb andb].
  unfold bind at 1; unfold step at 1.
  destruct (FileIsDirectory W (pathtocheck W components)); [|discriminate].
  cbn [forallb] in Hdec; rewrite andb_true_r in Hdec.
  now apply vtkPrependPythonPath_undefined.
Qed.

(** The walk adds what the specification says, and is undefined exactly
    when PyUnicode_FromString returns null for the directory to add. *)
Lemma landmark_walk_ok (W : World) (n : nat) (components : list string)
  (s : Process) :
  List.length components = n ->
  forallb (PyUnicode_FromString W) (site_packages W components) = true ->
  exists s',
    landmark_walk W n components s = Ok tt s'
    /\ inserts (site_packages W components) s s'.
Proof.
  revert components s; induction n as [|n IH]; intros components s Hlen Hdec.
  - destruct components; [|discriminate].
    exists s; split; [reflexivity|apply inserts_refl].
  - destruct components as [|c components]; [discriminate|].
    rewrite site_packages_cons in Hdec |- *.
    cbn [landmark_walk]; unfold probe in *.
    destruct (FileExists W (landmarktocheck W (c :: components))).
    + unfold bind at 1; unfold step at 1.
      match goal with
      | |- context [vtkSafePrependPythonPath W _ ?st] =>
          destruct (vtkSafePrependPythonPath_ok W (c :: components) st Hdec)
            as (s' & -> & Hins)
      end.
      exists s'; split; trivial.
      rewrite <- (app_nil_r (if FileIsDirectory W _ then _ else _)).
      exact (inserts_trans [] _ _ _ _ (inserts_debug_vv _ s) Hins).
    + unfold bind at 1; unfold step at 1.
      assert (Hlen' : List.length (removelast (c :: components)) = n).
      { rewrite length_removelast_cons; simpl in Hlen; lia. }
      match goal with
      | |- context [landmark_walk W n _ ?st] =>
          destruct (IH (removelast (c :: components)) st Hlen' Hdec)
            as (s' & -> & Hins)
      end.
      exists s'; split; trivial.
      rewrite <- (app_nil_r (site_packages W _)).
      exact (inserts_trans [] _ _ _ _ (inserts_debug_vv _ s) Hins).
Qed.

Lemma landmark_walk_undefined (W : World) (n : nat) (components : list string)
  (s : Process) :
  List.length components = n ->
  forallb (PyUnicode_FromString W) (site_packages W components) = false ->
  landmark_walk W n components s = Undefined.
Proof.
  revert components s; induction n as [|n IH]; intros components s Hlen Hdec.
  - destruct components; discriminate.
  - destruct components as [|c components]; [discriminate|].
    rewrite site_packages_cons in Hdec.
    cbn [landmark_walk]; unfold probe in *.
    destruct (FileExists W (landmarktocheck W (c :: components))).
    + unfold bind at 1; unfold step at 1.
      now apply vtkSafePrependPythonPath_undefined.
    + unfold bind at 1; unfold step at 1.
      apply IH; trivial.
      rewrite length_removelast_cons; simpl in Hlen; lia.
Qed.

Lemma SetupVTKPythonPaths_ok (W : World) (s : Process)
  (components : list string) :
  start_components W s = Some components ->
  forallb (PyUnicode_FromString W) (site_packages W components) = true ->
  exists s',
    SetupVTKPythonPaths W s = Ok tt s'
    /\ inserts (site_packages W components) s s'.
Proof.
  intros Hstart Hdec; unfold SetupVTKPythonPaths.
  rewrite (start_components_inserts W _ _ _ (inserts_announce_build W s)), Hstart.
  destruct (landmark_walk_ok W (List.length components) components
              (announce_build W s) eq_refl Hdec) as (s' & -> & Hins).
  exists s'; split; trivial.
  rewrite <- (app_nil_r (site_packages W components)).
  exact (inserts_trans [] _ _ _ _ (inserts_announce_build W s) Hins).
Qed.

Lemma SetupVTKPythonPaths_undefined (W : World) (s : Process) :
  match start_components W s with
  | Some components =>
      forallb (PyUnicode_FromString W) (site_packages W components)
  | None => false
  end = false ->
  SetupVTKPythonPaths W s = Undefined.
Proof.
  intros Hdec; unfold SetupVTKPythonPaths.
  rewrite (start_components_inserts W _ _ _ (inserts_announce_build W s)).
  destruct (start_components W s) as [components|]; trivial.
  now apply landmark_walk_undefined.
Qed.

(** The directory the walk adds, read off the tests of the single turns. *)
Lemma site_packages_found (W : World) (n k : nat) (components : list string) :
  List.length components = n ->
  (1 <= k <= n)%nat ->
  probe W (firstn k components) = true ->
  (forall j, (k < j <= n)%nat -> probe W (firstn j components) = false) ->
  site_packages W components
  = if FileIsDirectory W (pathtocheck W (firstn k components))
    then [pathtocheck W (firstn k components)] else [].
Proof.
  revert components; induction n as [|n IH]; intros components Hlen Hk Hhit Hmiss.
  - lia.
  - destruct components as [|c components]; [discriminate|].
    rewrite site_packages_cons.
    destruct (Nat.eq_dec k (S n)) as [->|Hne].
    + rewrite <- Hlen, firstn_all in Hhit |- *.
      now rewrite Hhit.
    + assert (Hlast : probe W (c :: components) = false).
      { rewrite <- (firstn_all (c :: components)), Hlen; apply Hmiss; lia. }
      rewrite Hlast.
      assert (Hlen' : List.length (removelast (c :: components)) = n).
      { rewrite length_removelast_cons; simpl in Hlen; lia. }
      rewrite (IH (removelast (c :: components)) Hlen'); try lia.
      * now rewrite firstn_removelast by (rewrite Hlen; lia).
      * rewrite firstn_removelast by (rewrite Hlen; lia); assumption.
      * intros j Hj; rewrite firstn_removelast by (rewrite Hlen; lia).
        apply Hmiss; lia.
Qed.

Lemma site_packages_none (W : World) (n : nat) (components : list string) :
  List.length components = n ->
  (forall j, (1 <= j <= n)%nat -> probe W (firstn j components) = false) ->
  site_packages W components = [].
Proof.
  revert components; induction n as [|n IH]; intros components Hlen Hmiss.
  - now destruct components.
  - destruct components as [|c components]; [discriminate|].
    rewrite site_packages_cons.
    assert (Hlast : probe W (c :: components) = false).
    { rewrite <- (firstn_all (c :: components)), Hlen; apply Hmiss; lia. }
    rewrite Hlast.
    assert (Hlen' : List.length (removelast (c :: components)) = n).
    { rewrite length_removelast_cons; simpl in Hlen; lia. }
    apply (IH _ Hlen').
    intros j Hj; rewrite firstn_removelast by (rewrite Hlen; lia).
    apply Hmiss; lia.
Qed.

(** C3: SetupVTKPythonPaths tries the start directory and then each of its
    ancestors, one path component shorter every turn.  At the deepest one
    whose landmark file exists it stops and prepends that ancestor's
    site-packages directory to sys.path (the directory test of
    vtkSafePrependPythonPath holds of a directory that contains the
    landmark, and PyUnicode_FromString returns an object for a path that is
    valid UTF-8), whatever lies above; when no ancestor has the landmark,
    sys.path is left as it was. *)
Theorem SetupVTKPythonPaths_first_landmark (W : World) (s : Process)
  (components : list string) :
  start_components W s = Some components ->
  (forall k,
      (1 <= k <= List.length components)%nat ->
      probe W (firstn k components) = true ->
      (forall j, (k < j <= List.length components)%nat ->
                 probe W (firstn j components) = false) ->
      FileIsDirectory W (pathtocheck W (firstn k components)) = true ->
      PyUnicode_FromString W (pathtocheck W (firstn k components)) = true ->
      exists s',
        SetupVTKPythonPaths W s = Ok tt s'
        /\ sys_path (python s')
           = pathtocheck W (firstn k components) :: sys_path (python s))
  /\ ((forall j, (1 <= j <= List.length components)%nat ->
                 probe W (firstn j components) = false) ->
      exists s',
        SetupVTKPythonPaths W s = Ok tt s'
        /\ sys_path (python s') = sys_path (python s)).
Proof.
  intros Hstart; split.
  - intros k Hk Hhit Hmiss Hdir Hdec.
    pose proof (site_packages_found W _ k components eq_refl Hk Hhit Hmiss)
      as Hsite.
    rewrite Hdir in Hsite.
    destruct (SetupVTKPythonPaths_ok W s components Hstart) as (s' & Hrun & Hins).
    { rewrite Hsite; cbn [forallb]; now rewrite Hdec. }
    exists s'; split; trivial.
    now rewrite (inserts_sys_path _ _ _ Hins), Hsite.
  - intros Hmiss.
    pose proof (site_packages_none W _ components eq_refl Hmiss) as Hsite.
    destruct (SetupVTKPythonPaths_ok W s components Hstart) as (s' & Hrun & Hins).
    { now rewrite Hsite. }
    exists s'; split; trivial.
    now rewrite (inserts_sys_path _ _ _ Hins), Hsite.
Qed.

Lemma SetupVTKPythonPaths_first_landmark_witness :
  exists s',
    SetupVTKPythonPaths a_world process_start = Ok tt s'
    /\ sys_path (python s') = ["/opt/vtk/lib/python3.7/site-packages"].
Proof.
  destruct (SetupVTKPythonPaths_first_landmark a_world process_start
              ["/"; "opt"; "vtk"; "lib"] eq_refl) as [Hfound _].
  apply (Hfound 3%nat).
  - simpl; lia.
  - reflexivity.
  - intros j Hj; simpl in Hj; assert (j = 4%nat) as -> by lia; reflexivity.
  - reflexivity.
  - reflexivity.
Defined.

(** ** Running a script *)

Lemma forallb_notifications (f : Event -> bool) (eventid : EventId)
  (calldata : CallData) (v : list (option ident)) :
  (forall p, f (EvInvoke p eventid calldata) = true) ->
  forallb f (notifications eventid calldata v) = true.
Proof.
  intros H; unfold notifications; induction (live v) as [|p l IH]; simpl; trivial.
  now rewrite H, IH.
Qed.

Lemma error_flush_output (text : string) (v : list (option ident)) :
  forallb is_output (error_flush text v) = true.
Proof.
  unfold error_flush; destruct (text =? EmptyString)%string; simpl; trivial.
  now apply forallb_notifications.
Qed.

Lemma output_flush_output (text : string) (v : list (option ident)) :
  forallb is_output (output_flush text v) = true.
Proof.
  unfold output_flush; destruct (text =? EmptyString)%string; simpl; trivial.
  now apply forallb_notifications.
Qed.

Lemma flush_StdErrBuffer_log (s : Process) :
  flush_StdErrBuffer s
  = set_StdErrBuffer EmptyString
      (log (error_flush (StdErrBuffer s) (GlobalInterpreters s)) s).
Proof.
  unfold flush_StdErrBuffer, error_flush.
  destruct (StdErrBuffer s =? EmptyString)%string eqn:E; simpl.
  - apply String.eqb_eq in E; by_fields s.
  - rewrite NotifyInterpreters_log; unfold emit; now rewrite log_log.
Qed.

Lemma flush_StdOutBuffer_log (s : Process) :
  flush_StdOutBuffer s
  = set_StdOutBuffer EmptyString
      (log (output_flush (StdOutBuffer s) (GlobalInterpreters s)) s).
Proof.
  unfold flush_StdOutBuffer, output_flush.
  destruct (StdOutBuffer s =? EmptyString)%string eqn:E; simpl.
  - apply String.eqb_eq in E; by_fields s.
  - rewrite NotifyInterpreters_log; unfold emit; now rewrite log_log.
Qed.

(** A write reaches the console, an accumulator, or the output window and
    the observers; nothing else of the process changes. *)
Lemma deliver_shape (w : Output) (s : Process) :
  exists es be bo,
    deliver s w = set_StdOutBuffer bo (set_StdErrBuffer be (log es s))
    /\ forallb is_output es = true.
Proof.
  assert (Hout : forall txt, exists es be bo,
             WriteStdOut txt s = set_StdOutBuffer bo (set_StdErrBuffer be (log es s))
             /\ forallb is_output es = true).
  { intros txt; unfold WriteStdOut; destruct (ConsoleBuffering s).
    - exists [], (StdErrBuffer s), (StdOutBuffer s ^^ txt); split; trivial.
      by_fields s.
    - rewrite NotifyInterpreters_log; unfold emit; rewrite log_log.
      exists ([EvDisplayText txt]
              ++ notifications SetOutputEvent (Text txt) (GlobalInterpreters s)),
        (StdErrBuffer s), (StdOutBuffer s); split; [by_fields s|].
      simpl; now apply forallb_notifications. }
  assert (Herr : forall txt, exists es be bo,
             WriteStdErr txt s = set_StdOutBuffer bo (set_StdErrBuffer be (log es s))
             /\ forallb is_output es = true).
  { intros txt; unfold WriteStdErr; destruct (ConsoleBuffering s).
    - exists [], (StdErrBuffer s ^^ txt), (StdOutBuffer s); split; trivial.
      by_fields s.
    - rewrite NotifyInterpreters_log; unfold emit; rewrite log_log.
      exists ([EvDisplayErrorText txt]
              ++ notifications ErrorEvent (Text txt) (GlobalInterpreters s)),
        (StdErrBuffer s), (StdOutBuffer s); split; [by_fields s|].
      simpl; now apply forallb_notifications. }
  assert (Hcon : exists es be bo,
             emit (EvConsole w) s
             = set_StdOutBuffer bo (set_StdErrBuffer be (log es s))
             /\ forallb is_output es = true).
  { now exists [EvConsole w], (StdErrBuffer s), (StdOutBuffer s). }
  destruct w as [txt|txt]; unfold deliver, stream_write.
  - destruct (sys_stdout (python s)) as [|[|]]; auto.
  - destruct (sys_stderr (python s)) as [|[|]]; auto.
Qed.

Lemma deliver_fold_shape (writes : list Output) (s : Process) :
  exists es be bo,
    fold_left deliver writes s
    = set_StdOutBuffer bo (set_StdErrBuffer be (log es s))
    /\ forallb is_output es = true.
Proof.
  revert s; induction writes as [|w writes IH]; intros s; simpl.
  - exists [], (StdErrBuffer s), (StdOutBuffer s); split; trivial; by_fields s.
  - destruct (deliver_shape w s) as (es1 & be1 & bo1 & -> & H1).
    destruct (IH (set_StdOutBuffer bo1 (set_StdErrBuffer be1 (log es1 s))))
      as (es2 & be2 & bo2 & -> & H2).
    exists (es1 ++ es2), be2, bo2; split.
    + fields; now rewrite app_assoc.
    + now rewrite forallb_app, H1, H2.
Qed.

(** Streams still on the console: every write goes there. *)
Lemma deliver_fold_console (writes : list Output) (s : Process) :
  sys_stdout (python s) = Console ->
  sys_stderr (python s) = Console ->
  fold_left deliver writes s = log (map EvConsole writes) s.
Proof.
  revert s; induction writes as [|w writes IH]; intros s Hout Herr; simpl.
  - now rewrite log_nil.
  - assert (Hw : deliver s w = log [EvConsole w] s).
    { destruct w; unfold deliver; now rewrite ?Hout, ?Herr. }
    rewrite Hw, IH by assumption.
    now rewrite log_log.
Qed.

(** Streams bound by Initialize and buffering on: every write is appended to
    its accumulator. *)
Lemma deliver_fold_bound (writes : list Output) (s : Process) :
  ConsoleBuffering s = true ->
  sys_stdout (python s) = CaptureHelper false ->
  sys_stderr (python s) = CaptureHelper true ->
  fold_left deliver writes s
  = set_StdOutBuffer (StdOutBuffer s ^^ stdout_text writes)
      (set_StdErrBuffer (StdErrBuffer s ^^ stderr_text writes) s).
Proof.
  revert s; induction writes as [|w writes IH]; intros s HCB Hout Herr.
  - simpl; by_fields s.
  - cbn [fold_left].
    destruct w as [txt|txt]; unfold deliver, stream_write;
      rewrite ?Hout, ?Herr; unfold WriteStdOut, WriteStdErr; rewrite HCB;
      rewrite IH by assumption; simpl;
      unfold set_StdOutBuffer, set_StdErrBuffer; simpl;
      now rewrite append_assoc.
Qed.

Lemma run_script_status (W : World) (buffer : string) (s : Process) :
  fst (run_script W buffer s) = snd (PyRun_SimpleString W buffer).
Proof.
  unfold run_script, call_PyRun_SimpleString.
  now destruct (PyRun_SimpleString W buffer).
Qed.

(** In any state the script is handed to the runtime once, and leaves
    buffering off and both accumulators empty. *)
Lemma run_script_general (W : World) (buffer : string) (s : Process) :
  exists es,
    snd (run_script W buffer s)
    = after_run s (EvPyRunSimpleString buffer :: es)
    /\ forallb is_output es = true.
Proof.
  unfold run_script, call_PyRun_SimpleString.
  destruct (PyRun_SimpleString W buffer) as [writes status]; simpl.
  destruct (deliver_fold_shape writes
              (emit (EvPyRunSimpleString buffer) (set_ConsoleBuffering true s)))
    as (es & be & bo & -> & Hes).
  rewrite flush_StdOutBuffer_log, flush_StdErrBuffer_log.
  exists (es ++ error_flush be (GlobalInterpreters s)
             ++ output_flush bo (GlobalInterpreters s)); split.
  - fields; f_equal; now rewrite <- !app_assoc.
  - now rewrite !forallb_app, Hes, error_flush_output, output_flush_output.
Qed.

Lemma run_script_console (W : World) (buffer : string) (s : Process) :
  sys_stdout (python s) = Console ->
  sys_stderr (python s) = Console ->
  snd (run_script W buffer s)
  = after_run s
      (EvPyRunSimpleString buffer
       :: map EvConsole (fst (PyRun_SimpleString W buffer))
       ++ error_flush (StdErrBuffer s) (GlobalInterpreters s)
       ++ output_flush (StdOutBuffer s) (GlobalInterpreters s)).
Proof.
  intros Hout Herr.
  unfold run_script, call_PyRun_SimpleString.
  destruct (PyRun_SimpleString W buffer) as [writes status]; simpl.
  rewrite deliver_fold_console by assumption.
  rewrite flush_StdOutBuffer_log, flush_StdErrBuffer_log.
  fields; f_equal; now rewrite <- !app_assoc.
Qed.

Lemma run_script_bound (W : World) (buffer : string) (s : Process) :
  sys_stdout (python s) = CaptureHelper false ->
  sys_stderr (python s) = CaptureHelper true ->
  snd (run_script W buffer s)
  = after_run s
      (EvPyRunSimpleString buffer
       :: error_flush
            (StdErrBuffer s ^^ stderr_text (fst (PyRun_SimpleString W buffer)))
            (GlobalInterpreters s)
       ++ output_flush
            (StdOutBuffer s ^^ stdout_text (fst (PyRun_SimpleString W buffer)))
            (GlobalInterpreters s)).
Proof.
  intros Hout Herr.
  unfold run_script, call_PyRun_SimpleString.
  destruct (PyRun_SimpleString W buffer) as [writes status]; simpl.
  rewrite deliver_fold_bound by (trivial; assumption).
  rewrite flush_StdOutBuffer_log, flush_StdErrBuffer_log.
  fields; f_equal; now rewrite <- !app_assoc.
Qed.

(** ** Classes of events *)

Lemma filter_none (f g : Event -> bool) (es : list Event) :
  (forall e, g e = true -> f e = false) ->
  forallb g es = true -> filter f es = [].
Proof.
  intros Hfg; induction es as [|e es IH]; simpl; trivial.
  intros H; apply andb_prop in H; destruct H as [He Hes].
  now rewrite (Hfg e He), IH.
Qed.

Lemma filter_all (f : Event -> bool) (es : list Event) :
  forallb f es = true -> filter f es = es.
Proof.
  induction es as [|e es IH]; simpl; trivial.
  intros H; apply andb_prop in H; destruct H as [He Hes].
  now rewrite He, IH.
Qed.

Lemma diagnostic_not (f : Event -> bool) :
  f = is_run \/ f = is_enter \/ f = is_main \/ f = is_delivery ->
  forall e, diagnostic e = true -> f e = false.
Proof. intros [ -> | [ -> | [ -> | -> ] ] ] [] H; trivial; discriminate. Qed.

Lemma output_not (f : Event -> bool) :
  f = is_run \/ f = is_enter \/ f = is_main ->
  forall e, is_output e = true -> f e = false.
Proof.
  intros [ -> | [ -> | -> ] ] [| | | |p [] c| | | | | | | |] H; trivial; discriminate.
Qed.

Lemma filter_console (f : Event -> bool) (writes : list Output) :
  f = is_run \/ f = is_enter \/ f = is_main \/ f = is_delivery ->
  filter f (map EvConsole writes) = [].
Proof.
  intros Hf; induction writes as [|w writes IH]; simpl; trivial.
  now destruct Hf as [ -> | [ -> | [ -> | -> ] ] ].
Qed.

Lemma filter_enter_notifications (f : Event -> bool) (v : list (option ident)) :
  f = is_run \/ f = is_main \/ f = is_delivery ->
  filter f (notifications EnterEvent NoData v) = [].
Proof.
  intros Hf; unfold notifications; induction (live v) as [|p l IH]; simpl; trivial.
  now destruct Hf as [ -> | [ -> | -> ] ].
Qed.

Lemma extends_refl (P : Event -> bool) (s : Process) : extends P s s.
Proof. exists []; now rewrite app_nil_r. Qed.

Lemma extends_trans (P : Event -> bool) (s1 s2 s3 : Process) :
  extends P s1 s2 -> extends P s2 s3 -> extends P s1 s3.
Proof.
  intros (es1 & H1 & Q1) (es2 & H2 & Q2).
  exists (es1 ++ es2); split.
  - now rewrite H2, H1, app_assoc.
  - now rewrite forallb_app, Q1, Q2.
Qed.

Lemma forallb_weaken (P Q : Event -> bool) (es : list Event) :
  (forall e, P e = true -> Q e = true) ->
  forallb P es = true -> forallb Q es = true.
Proof.
  intros HPQ H; apply forallb_forall; intros e He.
  apply HPQ; revert e He; now apply forallb_forall.
Qed.

Lemma extends_weaken (P Q : Event -> bool) (s s' : Process) :
  (forall e, P e = true -> Q e = true) -> extends P s s' -> extends Q s s'.
Proof.
  intros HPQ (es & H & HP); exists es; split; trivial.
  now apply (forallb_weaken P Q).
Qed.

Lemma extends_log (P : Event -> bool) (es : list Event) (r : PyRuntime)
  (s : Process) :
  forallb P es = true -> extends P s (log es (set_python r s)).
Proof. intros H; now exists es. Qed.

Lemma plain_silent (e : Event) : plain e = true -> silent e = true.
Proof. unfold plain; intros H; now apply andb_prop in H. Qed.

Lemma plain_no_startup (e : Event) : plain e = true -> no_startup e = true.
Proof. unfold plain; intros H; now apply andb_prop in H. Qed.

Lemma output_plain (e : Event) : is_output e = true -> plain e = true.
Proof. intros H; destruct e; trivial; discriminate. Qed.

Lemma cout_no_startup (e : Event) : is_cout e = true -> no_startup e = true.
Proof. intros H; destruct e; trivial; discriminate. Qed.

Lemma output_silent (e : Event) : is_output e = true -> silent e = true.
Proof. intros H; now apply plain_silent, output_plain. Qed.

Lemma output_no_startup (e : Event) : is_output e = true -> no_startup e = true.
Proof. intros H; now apply plain_no_startup, output_plain. Qed.

Lemma cout_diagnostic (e : Event) : is_cout e = true -> diagnostic e = true.
Proof. intros H; destruct e; trivial; discriminate. Qed.

Lemma forallb_nil_or (P Q : Event -> bool) (es : list Event) :
  forallb Q es = true ->
  (es = [] \/ forall e, Q e = true -> P e = true) ->
  forallb P es = true.
Proof.
  intros HQ [->|HQP]; trivial.
  now apply (forallb_weaken Q).
Qed.

Lemma debug_quiet (x : string) (s : Process) :
  PythonVerboseFlag s <= 0 -> VTKPY_DEBUG_MESSAGE x s = s.
Proof.
  intros Hv; unfold VTKPY_DEBUG_MESSAGE.
  destruct (Z.ltb_spec 0 (PythonVerboseFlag s)); trivial; lia.
Qed.

(** ** Initialize *)

Lemma Initialize_S (W : World) (fuel : nat) (initsigs : Z) (s : Process) :
  Initialize W (S fuel) initsigs s
  = if negb (InitializedOnce (started W initsigs s)) then
      (step (set_InitializedOnce true) ;;
       step (init_threads W) ;;
       RunSimpleString_with (Initialize W fuel 1) W (Some EmptyString) ;;
       step bind_streams ;;
       SetupVTKPythonPaths W ;;
       replay_paths W ;;
       step (NotifyInterpreters EnterEvent NoData) ;;
       ret true) (started W initsigs s)
    else Ok false (started W initsigs s).
Proof. reflexivity. Qed.

(** Once the one-time block has run and while the runtime is up, Initialize
    changes nothing and answers false. *)
Lemma Initialize_again (W : World) (fuel : nat) (initsigs : Z) (s : Process) :
  InitializedOnce s = true ->
  py_initialized (python s) = true ->
  Initialize W (S fuel) initsigs s = Ok false s.
Proof.
  intros Honce Hpy; rewrite Initialize_S; unfold started.
  rewrite Hpy; cbn [negb]; now rewrite Honce.
Qed.

Lemma RunSimpleString_with_run (Initialize1 : Process -> outcome bool)
  (W : World) (script : option string) (s s1 : Process) (b : bool) :
  Initialize1 s = Ok b s1 ->
  RunSimpleString_with Initialize1 W script s
  = Ok (fst (run_script W
               (remove_cr (match script with Some text => text | None => EmptyString end))
               s1))
      (snd (run_script W
               (remove_cr (match script with Some text => text | None => EmptyString end))
               s1)).
Proof.
  intros HI; unfold RunSimpleString_with, bind, step, call, ret, run_script.
  rewrite HI.
  now destruct (call_PyRun_SimpleString W _ (set_ConsoleBuffering true s1)).
Qed.

Lemma SetupPythonPrefix_shape (W : World) (s : Process) :
  exists r es,
    SetupPythonPrefix W s = log es (set_python r s)
    /\ forallb diagnostic es = true.
Proof.
  assert (Hdebug : forall x, exists r es,
             VTKPY_DEBUG_MESSAGE x s = log es (set_python r s)
             /\ forallb diagnostic es = true).
  { intros x; destruct (VTKPY_DEBUG_MESSAGE_log x s) as (es & -> & H).
    exists (python s), es; now rewrite set_python_same. }
  unfold SetupPythonPrefix.
  destruct (Py_GetPythonHome W); [apply Hdebug|].
  destruct (GetLibraryForSymbol W "Py_SetProgramName" =? EmptyString)%string;
    [apply Hdebug|].
  match goal with
  | |- context [if ?c then _ else _] => destruct c; [apply Hdebug|]
  end.
  match goal with
  | |- context [VTKPY_DEBUG_MESSAGE ?x s] =>
      destruct (VTKPY_DEBUG_MESSAGE_log x s) as (es & -> & H)
  end.
  unfold Py_SetProgramName, emit; rewrite log_log.
  destruct (Py_DecodeLocale W _) as [[|c w]|].
  - exists (python s), (es ++ [EvPySetProgramName (Some [])]).
    now rewrite set_python_same, forallb_app, H.
  - exists (set_py_program_name (c :: w) (python s)),
      (es ++ [EvPySetProgramName (Some (c :: w))]).
    now rewrite forallb_app, H.
  - exists (python s), (es ++ [EvPySetProgramName None]).
    now rewrite set_python_same, forallb_app, H.
Qed.

Lemma SetupPythonPrefix_quiet (W : World) (s : Process) :
  PythonVerboseFlag s <= 0 -> extends silent s (SetupPythonPrefix W s).
Proof.
  intros Hv; unfold SetupPythonPrefix.
  rewrite ?(debug_quiet _ s Hv).
  destruct (Py_GetPythonHome W); [apply extends_refl|].
  destruct (GetLibraryForSymbol W "Py_SetProgramName" =? EmptyString)%string;
    [apply extends_refl|].
  match goal with
  | |- context [if ?c then _ else _] => destruct c; [apply extends_refl|]
  end.
  unfold Py_SetProgramName, emit.
  destruct (Py_DecodeLocale W _) as [[|c w]|]; eexists [_]; split; reflexivity.
Qed.

(** The runtime is up after the first block of Initialize.  Where it was
    up already nothing is done; where it had to be started, its sys.path and
    streams are those of a fresh runtime and its program name is the one
    SetupPythonPrefix leaves. *)
Lemma started_shape (W : World) (initsigs : Z) (s : Process) :
  exists r es,
    started W initsigs s = log es (set_python r s)
    /\ forallb diagnostic es = true
    /\ py_initialized r = true
    /\ ((py_initialized (python s) = true ->
         sys_stdout (python s) = Console /\ sys_stderr (python s) = Console) ->
        sys_stdout r = Console /\ sys_stderr r = Console)
    /\ sys_path r
       = (if py_initialized (python s) then sys_path (python s)
          else default_sys_path W)
    /\ py_program_name r = py_program_name (python (at_walk W s))
    /\ (PythonVerboseFlag s <= 0 -> forallb silent es = true)
    /\ (py_initialized (python s) = true -> es = []).
Proof.
  unfold started, at_walk.
  destruct (py_initialized (python s)) eqn:Hpy; cbn [negb].
  - exists (python s), []; rewrite log_nil, set_python_same.
    split; [reflexivity|split; [reflexivity|split; [exact Hpy|]]].
    split; [intros H; exact (H eq_refl)|].
    repeat split.
  - destruct (SetupPythonPrefix_shape W s) as (r0 & es0 & Hs0 & H0).
    pose proof (SetupPythonPrefix_quiet W s) as Hq.
    rewrite Hs0 in Hq |- *.
    exists (mkPyRuntime true (py_threads_initialized r0) (py_program_name r0)
              (default_sys_path W) Console Console Console),
      (es0 ++ [EvPyInitializeEx initsigs; EvSignalDefault]).
    split; [|split; [|split; [|split; [|split; [|split; [|split]]]]]].
    + unfold Py_InitializeEx; fields; now rewrite <- !app_assoc.
    + now rewrite forallb_app, H0.
    + reflexivity.
    + now intros _.
    + reflexivity.
    + reflexivity.
    + intros Hv; destruct (Hq Hv) as (es & Ht & Hes).
      cbn [trace log set_python] in Ht; apply app_inv_head in Ht; subst es.
      now rewrite forallb_app, Hes.
    + discriminate.
Qed.

Lemma init_threads_shape (W : World) (s : Process) :
  exists r es,
    init_threads W s = log es (set_python r s)
    /\ forallb diagnostic es = true
    /\ py_initialized r = py_initialized (python s)
    /\ sys_stdout r = sys_stdout (python s)
    /\ sys_stderr r = sys_stderr (python s)
    /\ sys_path r = sys_path (python s)
    /\ py_program_name r = py_program_name (python s)
    /\ forallb plain es = true.
Proof.
  unfold init_threads.
  destruct (full_threadsafe W).
  - destruct (py_threads_initialized (python s)); simpl.
    + exists (set_py_threads_initialized true (python s)), [].
      now rewrite log_nil.
    + exists (set_py_threads_initialized true (python s)), [EvSaveThread].
      now repeat split.
  - exists (python s), []; now rewrite log_nil, set_python_same.
Qed.

Lemma first_time_block (Initialize1 : Process -> outcome bool) (W : World)
  (s : Process) :
  Initialize1 (init_threads W (set_InitializedOnce true s))
  = Ok false (init_threads W (set_InitializedOnce true s)) ->
  (step (set_InitializedOnce true) ;;
   step (init_threads W) ;;
   RunSimpleString_with Initialize1 W (Some EmptyString) ;;
   step bind_streams ;;
   SetupVTKPythonPaths W ;;
   replay_paths W ;;
   step (NotifyInterpreters EnterEvent NoData) ;;
   ret true) s
  = match SetupVTKPythonPaths W (before_paths W s) with
    | Ok _ s' =>
        match replay_paths W s' with
        | Ok _ s'' => Ok true (NotifyInterpreters EnterEvent NoData s'')
        | Undefined => Undefined
        | OutOfFuel => OutOfFuel
        end
    | Undefined => Undefined
    | OutOfFuel => OutOfFuel
    end.
Proof.
  intros HI.
  unfold bind at 1; unfold step at 1.
  unfold bind at 1; unfold step at 1.
  unfold bind at 1.
  rewrite (RunSimpleString_with_run _ _ _ _ _ _ HI).
  unfold bind at 1; unfold step at 1.
  unfold bind, step, ret, before_paths; simpl remove_cr.
  now destruct (SetupVTKPythonPaths W _) as [[] Y| |].
Qed.

Lemma Initialize_first_unfold (W : World) (n : nat) (initsigs : Z)
  (s : Process) :
  InitializedOnce s = false ->
  Initialize W (S (S n)) initsigs s
  = match SetupVTKPythonPaths W (before_paths W (started W initsigs s)) with
    | Ok _ s' =>
        match replay_paths W s' with
        | Ok _ s'' => Ok true (NotifyInterpreters EnterEvent NoData s'')
        | Undefined => Undefined
        | OutOfFuel => OutOfFuel
        end
    | Undefined => Undefined
    | OutOfFuel => OutOfFuel
    end.
Proof.
  intros Honce; rewrite Initialize_S.
  destruct (started_shape W initsigs s) as (r & es & Hs & _ & Hpy & _).
  assert (Honce' : InitializedOnce (started W initsigs s) = false)
    by now rewrite Hs.
  rewrite Honce'; cbn [negb].
  apply first_time_block.
  apply Initialize_again.
  - now destruct (init_threads_shape W (set_InitializedOnce true (started W initsigs s)))
      as (r' & es' & -> & _).
  - destruct (init_threads_shape W (set_InitializedOnce true (started W initsigs s)))
      as (r' & es' & -> & _ & Hpy' & _).
    simpl; rewrite Hpy', Hs; simpl; exact Hpy.
Qed.

(** What the one-time block keeps up to the call of SetupVTKPythonPaths. *)
Lemma before_paths_keeps (W : World) (s : Process) :
  PythonVerboseFlag (before_paths W s) = PythonVerboseFlag s
  /\ PythonPaths (before_paths W s) = PythonPaths s
  /\ sys_path (python (before_paths W s)) = sys_path (python s)
  /\ py_program_name (python (before_paths W s)) = py_program_name (python s).
Proof.
  unfold before_paths.
  destruct (run_script_general W EmptyString
              (init_threads W (set_InitializedOnce true s))) as (es & -> & _).
  unfold init_threads.
  destruct (full_threadsafe W); [|now repeat split].
  destruct (py_threads_initialized (python (set_InitializedOnce true s)));
    now repeat split.
Qed.

(** The walk of the first Initialize starts where [walk_start] says. *)
Lemma walk_state_start (W : World) (initsigs : Z) (s : Process) :
  start_components W (before_paths W (started W initsigs s)) = walk_start W s.
Proof.
  unfold walk_start, start_components.
  destruct (before_paths_keeps W (started W initsigs s)) as (_ & _ & _ & ->).
  destruct (started_shape W initsigs s) as (r & es & -> & _ & _ & _ & _ & Hname & _).
  cbn [python log set_python]; now rewrite Hname.
Qed.

(** The first Initialize of a process, when it is defined: what it leaves
    behind. *)
Lemma Initialize_first (W : World) (n : nat) (initsigs : Z) (s : Process)
  (components : list string) :
  InitializedOnce s = false ->
  walk_start W s = Some components ->
  forallb (PyUnicode_FromString W)
    (site_packages W components ++ PythonPaths s) = true ->
  exists r es,
    Initialize W (S (S n)) initsigs s
    = Ok true
        (mkProcess true (CaptureStdin s) false EmptyString EmptyString (PythonVerboseFlag s)
           (GlobalInterpreters s) (PythonPaths s) (StackTraceOnError s) r
           (trace s ++ es))
    /\ py_initialized r = true
    /\ sys_stdout r = CaptureHelper false
    /\ sys_stderr r = CaptureHelper true
    /\ sys_stdin r = CaptureHelper false
    /\ sys_path r
       = rev (PythonPaths s) ++ site_packages W components
         ++ (if py_initialized (python s) then sys_path (python s)
             else default_sys_path W)
    /\ py_program_name r = py_program_name (python (at_walk W s))
    /\ filter is_run es = [EvPyRunSimpleString EmptyString]
    /\ filter is_enter es = notifications EnterEvent NoData (GlobalInterpreters s)
    /\ filter is_main es = []
    /\ ((py_initialized (python s) = true ->
         sys_stdout (python s) = Console /\ sys_stderr (python s) = Console) ->
        StdErrBuffer s = EmptyString -> StdOutBuffer s = EmptyString ->
        filter is_delivery es = [])
    /\ (PythonVerboseFlag s <= 0 -> forallb silent es = true)
    /\ (py_initialized (python s) = true -> forallb no_startup es = true).
Proof.
  intros Honce Hstart Hdec.
  rewrite forallb_app in Hdec; apply andb_prop in Hdec; destruct Hdec as [Hsite Hpp].
  rewrite Initialize_first_unfold by assumption.
  pose proof (walk_state_start W initsigs s) as Hws; rewrite Hstart in Hws.
  destruct (started_shape W initsigs s)
    as (r1 & es1 & Hs & Hd1 & Hpy1 & Hcons1 & Hpath1 & Hname1 & Hq1 & Hh1).
  unfold before_paths in Hws |- *; rewrite Hs in Hws |- *.
  destruct (init_threads_shape W
              (set_InitializedOnce true (log es1 (set_python r1 s))))
    as (r2 & es2 & Hi & Hd2 & Hpy2 & Hout2 & Herr2 & Hpath2 & Hname2 & Hplain2).
  rewrite Hi in Hws |- *.
  cbn [python set_InitializedOnce log set_python] in Hpy2, Hout2, Herr2, Hpath2, Hname2.
  set (s1 := log es2 (set_python r2 (set_InitializedOnce true (log es1 (set_python r1 s))))) in *.
  destruct (run_script_general W EmptyString s1) as (es3 & Hrun & Ho3).
  pose proof (run_script_console W EmptyString s1) as Hcons.
  rewrite Hrun in Hcons, Hws |- *.
  destruct (SetupVTKPythonPaths_ok W
              (bind_streams (after_run s1 (EvPyRunSimpleString EmptyString :: es3)))
              components Hws Hsite)
    as (Y & HY & (es4 & HY' & Hc4 & Hq4)).
  rewrite HY, HY'.
  unfold replay_paths.
  match goal with
  | |- context [prepend_each W ?pp ?st] =>
      destruct (prepend_each_ok W pp st Hpp) as (Z & HZ & (es5 & HZ' & Hc5 & Hq5))
  end.
  rewrite HZ, HZ'.
  rewrite NotifyInterpreters_log.
  exists (mkPyRuntime (py_initialized r2) (py_threads_initialized r2)
            (py_program_name r2)
            (rev (PythonPaths s) ++ site_packages W components ++ sys_path r2)
            (CaptureHelper false) (CaptureHelper true)
            (CaptureHelper false)),
    (es1 ++ es2 ++ EvPyRunSimpleString EmptyString :: es3 ++ es4 ++ es5
       ++ notifications EnterEvent NoData (GlobalInterpreters s)).
  split; [|split; [|split; [|split; [|split; [|split; [|split; [|split; [|split;
    [|split; [|split; [|split]]]]]]]]]]].
  - subst s1; fields; do 2 f_equal.
    rewrite <- !app_assoc; simpl; now rewrite <- ?app_assoc.
  - simpl; now rewrite Hpy2.
  - reflexivity.
  - reflexivity.
  - reflexivity.
  - cbn [sys_path]; now rewrite Hpath2, Hpath1.
  - cbn [py_program_name]; now rewrite Hname2, Hname1.
  - rewrite !filter_app; simpl; rewrite !filter_app.
    rewrite (filter_none is_run diagnostic es1), (filter_none is_run diagnostic es2),
      (filter_none is_run is_output es3), (filter_none is_run is_cout es4),
      (filter_none is_run is_cout es5), filter_enter_notifications;
      auto using diagnostic_not, output_not;
      intros e He; apply (diagnostic_not is_run); auto using cout_diagnostic.
  - rewrite !filter_app; simpl; rewrite !filter_app.
    rewrite (filter_none is_enter diagnostic es1), (filter_none is_enter diagnostic es2),
      (filter_none is_enter is_output es3), (filter_none is_enter is_cout es4),
      (filter_none is_enter is_cout es5);
      auto using diagnostic_not, output_not;
      try (intros e He; apply (diagnostic_not is_enter); auto using cout_diagnostic).
    simpl; apply filter_all, forallb_notifications; trivial.
  - rewrite !filter_app; simpl; rewrite !filter_app.
    rewrite (filter_none is_main diagnostic es1), (filter_none is_main diagnostic es2),
      (filter_none is_main is_output es3), (filter_none is_main is_cout es4),
      (filter_none is_main is_cout es5), filter_enter_notifications;
      auto using diagnostic_not, output_not;
      intros e He; apply (diagnostic_not is_main); auto using cout_diagnostic.
  - intros Hconsole Herrb Houtb.
    destruct (Hcons1 Hconsole) as [Hout1 Herr1].
    subst s1; cbn [python log set_python set_InitializedOnce StdErrBuffer
                     StdOutBuffer GlobalInterpreters] in Hcons.
    rewrite Hout2, Herr2 in Hcons.
    specialize (Hcons Hout1 Herr1).
    apply (f_equal trace) in Hcons; cbn [trace after_run] in Hcons.
    apply app_inv_head in Hcons.
    rewrite Herrb, Houtb in Hcons; cbn [error_flush output_flush String.eqb] in Hcons.
    rewrite !app_nil_r in Hcons.
    injection Hcons as ->.
    rewrite !filter_app; simpl; rewrite !filter_app.
    rewrite (filter_none is_delivery diagnostic es1),
      (filter_none is_delivery diagnostic es2),
      (filter_none is_delivery is_cout es4),
      (filter_none is_delivery is_cout es5), filter_enter_notifications,
      !filter_console;
      auto 6 using diagnostic_not;
      intros e He; apply (diagnostic_not is_delivery); auto 6 using cout_diagnostic.
  - intros Hv.
    rewrite (Hq4 Hv), (Hq5 Hv).
    rewrite !forallb_app; cbn [forallb app]; rewrite !forallb_app.
    rewrite (Hq1 Hv), (forallb_weaken plain silent es2 plain_silent Hplain2).
    rewrite (forallb_weaken is_output silent es3 output_silent Ho3).
    now rewrite forallb_notifications.
  - intros Hup.
    rewrite (Hh1 Hup).
    rewrite !forallb_app; cbn [forallb app]; rewrite !forallb_app.
    rewrite (forallb_weaken plain no_startup es2 plain_no_startup Hplain2).
    rewrite (forallb_weaken is_output no_startup es3 output_no_startup Ho3).
    rewrite (forallb_weaken is_cout no_startup es4 cout_no_startup Hc4).
    rewrite (forallb_weaken is_cout no_startup es5 cout_no_startup Hc5).
    now rewrite forallb_notifications.
Qed.

(** Without a defined start of the walk, or with a path to insert for which
    PyUnicode_FromString returns null, the first Initialize is undefined. *)
Lemma Initialize_first_undefined (W : World) (n : nat) (initsigs : Z)
  (s : Process) :
  InitializedOnce s = false ->
  first_Initialize_defined W s = false ->
  Initialize W (S (S n)) initsigs s = Undefined.
Proof.
  intros Honce Hnot.
  rewrite Initialize_first_unfold by assumption.
  pose proof (walk_state_start W initsigs s) as Hws.
  unfold first_Initialize_defined in Hnot.
  destruct (walk_start W s) as [components|];
    [|now rewrite SetupVTKPythonPaths_undefined by now rewrite Hws].
  destruct (forallb (PyUnicode_FromString W) (site_packages W components)) eqn:Hsite;
    [|now rewrite SetupVTKPythonPaths_undefined by now rewrite Hws].
  rewrite forallb_app, Hsite in Hnot; cbn [andb] in Hnot.
  destruct (SetupVTKPythonPaths_ok W _ components Hws Hsite) as (Y & -> & Hins).
  unfold replay_paths.
  destruct (inserts_statics _ _ _ Hins) as (_ & -> & _).
  destruct (before_paths_keeps W (started W initsigs s)) as (_ & -> & _).
  destruct (started_shape W initsigs s) as (r & es & -> & _).
  cbn [PythonPaths log set_python].
  now rewrite prepend_each_undefined.
Qed.

Lemma first_Initialize_defined_components (W : World) (s : Process) :
  first_Initialize_defined W s = true ->
  exists components,
    walk_start W s = Some components
    /\ forallb (PyUnicode_FromString W)
         (site_packages W components ++ PythonPaths s) = true.
Proof.
  unfold first_Initialize_defined.
  destruct (walk_start W s) as [components|]; [|discriminate].
  intros H; now exists components.
Qed.

(** Two units of fuel are as good as any larger amount. *)
Lemma Initialize_fuel (W : World) (n : nat) (initsigs : Z) (s : Process) :
  Initialize W (S (S n)) initsigs s = Initialize W 2 initsigs s.
Proof.
  destruct (InitializedOnce s) eqn:Honce.
  - rewrite !Initialize_S.
    destruct (started_shape W initsigs s) as (r & es & -> & _).
    simpl; now rewrite Honce.
  - now rewrite !Initialize_first_unfold.
Qed.

Lemma RunSimpleString_fuel (W : World) (n : nat) (script : option string)
  (s : Process) :
  RunSimpleString W (S (S n)) script s = RunSimpleString W 2 script s.
Proof.
  unfold RunSimpleString, RunSimpleString_with, bind.
  now rewrite Initialize_fuel.
Qed.

Lemma landmark_walk_returns (W : World) (n : nat) (components : list string)
  (s : Process) :
  landmark_walk W n components s <> OutOfFuel.
Proof.
  revert components s; induction n as [|n IH]; intros components s;
    [discriminate|].
  destruct components as [|c components]; [discriminate|].
  cbn [landmark_walk].
  destruct (FileExists W (landmarktocheck W (c :: components))).
  - unfold bind at 1; unfold step at 1; unfold vtkSafePrependPythonPath.
    unfold bind at 1; unfold step at 1.
    destruct (negb _ && _); [|discriminate].
    unfold vtkPrependPythonPath, bind, step.
    now destruct (PyUnicode_FromString W _).
  - unfold bind at 1; unfold step at 1; apply IH.
Qed.

Lemma prepend_each_returns (W : World) (paths : list string) (s : Process) :
  prepend_each W paths s <> OutOfFuel.
Proof.
  revert s; induction paths as [|p paths IH]; intros s; [discriminate|].
  cbn [prepend_each]; unfold vtkPrependPythonPath, bind, step.
  destruct (PyUnicode_FromString W p); [apply IH|discriminate].
Qed.

(** With two units of fuel or more the recursion always comes back. *)
Lemma Initialize_returns (W : World) (n : nat) (initsigs : Z) (s : Process) :
  Initialize W (S (S n)) initsigs s <> OutOfFuel.
Proof.
  destruct (InitializedOnce s) eqn:Honce.
  - rewrite Initialize_S.
    destruct (started_shape W initsigs s) as (r & es & -> & _).
    simpl; now rewrite Honce.
  - rewrite Initialize_first_unfold by assumption.
    unfold SetupVTKPythonPaths.
    destruct (start_components W _) as [components|]; [|discriminate].
    destruct (landmark_walk W _ components _) as [[] Y| |] eqn:Hwalk;
      [|discriminate|now apply landmark_walk_returns in Hwalk].
    unfold replay_paths.
    destruct (prepend_each W _ Y) as [[] Z| |] eqn:Hreplay;
      [discriminate|discriminate|now apply prepend_each_returns in Hreplay].
Qed.

Lemma RunSimpleString_returns (W : World) (n : nat) (script : option string)
  (s : Process) :
  RunSimpleString W (S (S n)) script s <> OutOfFuel.
Proof.
  unfold RunSimpleString.
  destruct (Initialize W (S (S n)) 1 s) as [b s1| |] eqn:Hinit.
  - now rewrite (RunSimpleString_with_run _ W script s s1 b Hinit).
  - unfold RunSimpleString_with, bind; now rewrite Hinit.
  - now apply Initialize_returns in Hinit.
Qed.

(** Initialize from any state in which it is defined: it returns, answers
    true exactly when the one-time block had not run, and leaves the runtime
    up. *)
Lemma Initialize_general (W : World) (n : nat) (initsigs : Z) (s : Process) :
  (InitializedOnce s = false -> first_Initialize_defined W s = true) ->
  exists r es,
    Initialize W (S (S n)) initsigs s
    = Ok (negb (InitializedOnce s))
        (mkProcess true (CaptureStdin s)
           (if InitializedOnce s then ConsoleBuffering s else false)
           (if InitializedOnce s then StdErrBuffer s else EmptyString)
           (if InitializedOnce s then StdOutBuffer s else EmptyString)
           (PythonVerboseFlag s) (GlobalInterpreters s) (PythonPaths s)
           (StackTraceOnError s) r (trace s ++ es))
    /\ py_initialized r = true
    /\ filter is_main es = []
    /\ filter is_run es
       = (if InitializedOnce s then [] else [EvPyRunSimpleString EmptyString])
    /\ (PythonVerboseFlag s <= 0 -> forallb silent es = true).
Proof.
  intros Hdef.
  destruct (InitializedOnce s) eqn:Honce.
  - rewrite Initialize_S.
    destruct (started_shape W initsigs s)
      as (r & es & -> & Hd & Hpy & _ & _ & _ & Hq & _).
    exists r, es; simpl; rewrite Honce; simpl.
    split; [|split; [|split; [|split]]]; trivial.
    + now rewrite <- Honce.
    + apply (filter_none is_main diagnostic); auto using diagnostic_not.
    + apply (filter_none is_run diagnostic); auto using diagnostic_not.
  - destruct (first_Initialize_defined_components W s (Hdef eq_refl))
      as (components & Hstart & Hdec).
    destruct (Initialize_first W n initsigs s components Honce Hstart Hdec)
      as (r & es & -> & Hpy & _ & _ & _ & _ & _ & Hrun & _ & Hmain & _ & Hq & _).
    now exists r, es.
Qed.

(** ** What the definedness of the first Initialize depends on *)

(** What a debug message leaves alone. *)
Lemma sys_path_debug_vv (x : string) (s : Process) :
  python (VTKPY_DEBUG_MESSAGE_VV x s) = python s.
Proof. now destruct (VTKPY_DEBUG_MESSAGE_VV_log x s) as (es & -> & _). Qed.

Lemma sys_path_debug (x : string) (s : Process) :
  python (VTKPY_DEBUG_MESSAGE x s) = python s.
Proof. now destruct (VTKPY_DEBUG_MESSAGE_log x s) as (es & -> & _). Qed.

Lemma SetupPythonPrefix_python_congr (W : World) (s s' : Process) :
  python s = python s' ->
  python (SetupPythonPrefix W s) = python (SetupPythonPrefix W s').
Proof.
  intros H; unfold SetupPythonPrefix; rewrite H.
  destruct (Py_GetPythonHome W); [now rewrite !sys_path_debug, H|].
  destruct (GetLibraryForSymbol W "Py_SetProgramName" =? EmptyString)%string;
    [now rewrite !sys_path_debug, H|].
  match goal with
  | |- context [if ?c then _ else _] =>
      destruct c; [now rewrite !sys_path_debug, H|]
  end.
  unfold Py_SetProgramName, emit.
  destruct (Py_DecodeLocale W _) as [[|c w]|]; cbn [python log set_python];
    now rewrite !sys_path_debug, H.
Qed.

Lemma walk_start_congr (W : World) (s s' : Process) :
  python s = python s' -> walk_start W s = walk_start W s'.
Proof.
  intros H; unfold walk_start, start_components, at_walk; rewrite H.
  destruct (py_initialized (python s')); [now rewrite H|].
  now rewrite (SetupPythonPrefix_python_congr W s s' H).
Qed.

Lemma first_Initialize_defined_congr (W : World) (s s' : Process) :
  python s = python s' -> PythonPaths s = PythonPaths s' ->
  first_Initialize_defined W s = first_Initialize_defined W s'.
Proof.
  intros H Hpp; unfold first_Initialize_defined.
  now rewrite (walk_start_congr W s s' H), Hpp.
Qed.

(** ** Initialize is idempotent *)

Lemma Initialize_calls_again (W : World) (fuel : nat) (sigs : list Z)
  (s : Process) :
  InitializedOnce s = true ->
  py_initialized (python s) = true ->
  Initialize_calls W (S fuel) sigs s = Ok (repeat false (List.length sigs)) s.
Proof.
  intros Honce Hpy; induction sigs as [|i sigs IH]; trivial.
  cbn [Initialize_calls]; unfold bind.
  rewrite Initialize_again by assumption.
  now rewrite IH.
Qed.

(** C1: in a process whose one-time block has not run, and where that block
    is defined (the start of the walk is defined, and PyUnicode_FromString
    returns an object for every path the block inserts), the first of any
    number of calls of Initialize returns true and every later one returns
    false and changes nothing.  The first call hands the empty script to the
    runtime exactly once, leaves the three streams bound to the capture
    helpers, puts in front of sys.path the site-packages directory the walk
    of SetupVTKPythonPaths finds (that of the deepest ancestor of the start
    directory whose landmark file exists, when it is a directory; nothing
    when there is no landmark) and in front of it every pending path, the
    last registered first, and invokes the enter event exactly once on every
    live observer. *)
Theorem Initialize_idempotent (W : World) (n : nat) (initsigs : Z)
  (sigs : list Z) (s : Process) (components : list string) :
  InitializedOnce s = false ->
  walk_start W s = Some components ->
  forallb (PyUnicode_FromString W)
    (site_packages W components ++ PythonPaths s) = true ->
  exists s1 es,
    Initialize W (S (S n)) initsigs s = Ok true s1
    /\ Initialize_calls W (S (S n)) (initsigs :: sigs) s
       = Ok (true :: repeat false (List.length sigs)) s1
    /\ (forall i, Initialize W (S (S n)) i s1 = Ok false s1)
    /\ InitializedOnce s1 = true
    /\ trace s1 = trace s ++ es
    /\ filter is_run es = [EvPyRunSimpleString EmptyString]
    /\ sys_stdout (python s1) = CaptureHelper false
    /\ sys_stderr (python s1) = CaptureHelper true
    /\ sys_stdin (python s1) = CaptureHelper false
    /\ sys_path (python s1)
       = rev (PythonPaths s) ++ site_packages W components
         ++ (if py_initialized (python s) then sys_path (python s)
             else default_sys_path W)
    /\ (forall k,
           (1 <= k <= List.length components)%nat ->
           probe W (firstn k components) = true ->
           (forall j, (k < j <= List.length components)%nat ->
                      probe W (firstn j components) = false) ->
           site_packages W components
           = if FileIsDirectory W (pathtocheck W (firstn k components))
             then [pathtocheck W (firstn k components)] else [])
    /\ ((forall j, (1 <= j <= List.length components)%nat ->
                   probe W (firstn j components) = false) ->
        site_packages W components = [])
    /\ filter is_enter es
       = notifications EnterEvent NoData (GlobalInterpreters s).
Proof.
  intros Honce Hstart Hdec.
  destruct (Initialize_first W n initsigs s components Honce Hstart Hdec)
    as (r & es & Hinit & Hpy & Hout & Herr & Hin & Hpath & _ & Hrun & Henter & _).
  eexists _, es; split; [exact Hinit|].
  split; [|split; [|split; [|split; [|split; [|split; [|split; [|split; [|split;
    [|split; [|split]]]]]]]]]]; trivial.
  - cbn [Initialize_calls]; unfold bind; rewrite Hinit.
    now rewrite Initialize_calls_again.
  - intros i; now apply Initialize_again.
  - intros k; now apply site_packages_found.
  - now apply site_packages_none.
Qed.

Lemma Initialize_idempotent_witness :
  exists s1,
    Initialize_calls a_world 2 [0; 0; 1] (set_PythonPaths ["/a"] process_start)
    = Ok [true; false; false] s1
    /\ filter is_run (trace s1) = [EvPyRunSimpleString EmptyString]
    /\ sys_path (python s1)
       = ["/a"; "/opt/vtk/lib/python3.7/site-packages"; "/usr/lib/python3.7"].
Proof.
  destruct (Initialize_idempotent a_world 0 0 [0; 1]
              (set_PythonPaths ["/a"] process_start)
              ["/"; "opt"; "vtk"; "lib"] eq_refl eq_refl eq_refl)
    as (s1 & es & _ & Hcalls & _ & _ & Htrace & Hrun & _ & _ & _ & Hpath & _).
  exists s1; split; [exact Hcalls|].
  split; [now rewrite Htrace|].
  rewrite Hpath; reflexivity.
Defined.

(** ** One flush per script *)

Lemma error_flush_delivery (text : string) (v : list (option ident)) :
  forallb is_delivery (error_flush text v) = true.
Proof.
  unfold error_flush; destruct (text =? EmptyString)%string; simpl; trivial.
  now apply forallb_notifications.
Qed.

Lemma output_flush_delivery (text : string) (v : list (option ident)) :
  forallb is_delivery (output_flush text v) = true.
Proof.
  unfold output_flush; destruct (text =? EmptyString)%string; simpl; trivial.
  now apply forallb_notifications.
Qed.

(** A script run once the streams are bound: what it prints is delivered by
    the two flushes and by nothing else. *)
Lemma run_script_ready (W : World) (buffer : string) (s : Process) :
  StdErrBuffer s = EmptyString ->
  StdOutBuffer s = EmptyString ->
  sys_stdout (python s) = CaptureHelper false ->
  sys_stderr (python s) = CaptureHelper true ->
  exists es,
    snd (run_script W buffer s) = after_run s es
    /\ filter is_delivery es
       = error_flush (stderr_text (fst (PyRun_SimpleString W buffer)))
           (GlobalInterpreters s)
         ++ output_flush (stdout_text (fst (PyRun_SimpleString W buffer)))
              (GlobalInterpreters s).
Proof.
  intros Herrb Houtb Hout Herr.
  rewrite run_script_bound by assumption.
  rewrite Herrb, Houtb; cbn [String.append].
  eexists; split; [reflexivity|].
  cbn [filter is_delivery]; rewrite filter_app.
  now rewrite !filter_all by (apply error_flush_delivery || apply output_flush_delivery).
Qed.

(** C4: one call of RunSimpleString, in the supported lifecycle, be it the
    first to initialize (the one-time block then being defined) or a later
    one.  What the script writes to a stream is shown and handed to the
    observers by the flush of that stream's accumulator and in no other way:
    when the text is not empty, one display call and one event per live
    observer (ErrorEvent for stderr, SetOutputEvent for stdout), carrying
    all of the text.  Afterwards buffering is off and both accumulators are
    empty. *)
Theorem RunSimpleString_flushes_once (W : World) (n : nat)
  (script : option string) (s : Process) :
  (InitializedOnce s = false -> first_Initialize_defined W s = true) ->
  lifecycle_ok s ->
  exists s' es,
    RunSimpleString W (S (S n)) script s
    = Ok (snd (PyRun_SimpleString W
                 (remove_cr (match script with
                             | Some text => text
                             | None => EmptyString
                             end)))) s'
    /\ trace s' = trace s ++ es
    /\ filter is_delivery es
       = error_flush
           (stderr_text
              (fst (PyRun_SimpleString W
                      (remove_cr (match script with
                                  | Some text => text
                                  | None => EmptyString
                                  end)))))
           (GlobalInterpreters s)
         ++ output_flush
              (stdout_text
                 (fst (PyRun_SimpleString W
                         (remove_cr (match script with
                                     | Some text => text
                                     | None => EmptyString
                                     end)))))
              (GlobalInterpreters s)
    /\ ConsoleBuffering s' = false
    /\ StdErrBuffer s' = EmptyString
    /\ StdOutBuffer s' = EmptyString
    /\ lifecycle_ok s'.
Proof.
  intros Hdef (Herrb & Houtb & Hstreams).
  unfold RunSimpleString.
  destruct (InitializedOnce s) eqn:Honce.
  - destruct Hstreams as (Hpy & Hout & Herr).
    rewrite (RunSimpleString_with_run _ W script s s false)
      by now apply Initialize_again.
    rewrite run_script_status.
    destruct (run_script_ready W
                (remove_cr (match script with
                            | Some text => text
                            | None => EmptyString
                            end)) s Herrb Houtb Hout Herr) as (es & -> & Hes).
    exists (after_run s es), es; repeat split; trivial.
    unfold lifecycle_ok; simpl; rewrite Honce; auto.
  - destruct (first_Initialize_defined_components W s (Hdef eq_refl))
      as (components & Hstart & Hdec).
    destruct (Initialize_first W n 1 s components Honce Hstart Hdec)
      as (r & es0 & Hinit & Hpy & Hout & Herr & _ & _ & _ & _ & _ & _ & Hquiet & _).
    rewrite (RunSimpleString_with_run _ W script s _ true Hinit).
    rewrite run_script_status.
    match goal with
    | |- context [run_script W ?b ?st] =>
        destruct (run_script_ready W b st eq_refl eq_refl Hout Herr)
          as (es & -> & Hes)
    end.
    eexists _, (es0 ++ es); split; [reflexivity|].
    split; [simpl; now rewrite app_assoc|].
    split; [rewrite filter_app, Hquiet by assumption; exact Hes|].
    repeat split; trivial.
Qed.

Lemma RunSimpleString_flushes_once_witness :
  exists s',
    RunSimpleString a_world 2 (Some "print('x')")
      (vtkPythonInterpreter_ctor 7%N process_start) = Ok 0 s'
    /\ filter is_delivery (trace s')
       = [EvDisplayText ("x" ^^ str1 LF);
          EvInvoke 7%N SetOutputEvent (Text ("x" ^^ str1 LF))].
Proof.
  destruct (RunSimpleString_flushes_once a_world 0 (Some "print('x')")
              (vtkPythonInterpreter_ctor 7%N process_start))
    as (s' & es & Hrun & Htrace & Hes & _).
  - intros _; reflexivity.
  - repeat split; discriminate.
  - exists s'; split; [exact Hrun|].
    rewrite Htrace; exact Hes.
Defined.

(** ** Carriage returns *)

Lemma remove_cr_filter (text : string) :
  list_ascii_of_string (remove_cr text)
  = filter (fun c => negb (Ascii.eqb c CR)) (list_ascii_of_string text).
Proof.
  induction text as [|c text IH]; simpl; trivial.
  destruct (Ascii.eqb c CR); simpl; now rewrite IH.
Qed.

Lemma remove_cr_no_cr (text : string) :
  ~ In CR (list_ascii_of_string (remove_cr text)).
Proof.
  rewrite remove_cr_filter, filter_In; intros [_ H].
  now rewrite Ascii.eqb_refl in H.
Qed.

Lemma remove_cr_idempotent (text : string) :
  remove_cr (remove_cr text) = remove_cr text.
Proof.
  induction text as [|c text IH]; simpl; trivial.
  destruct (Ascii.eqb c CR) eqn:E; simpl; rewrite ?E; now rewrite IH.
Qed.

(** C9: the text RunSimpleString hands to the runtime is the script without
    its carriage returns, every other character kept in order; so a script
    and the same script without carriage returns give the same run, as do
    the DOS and the UNIX form of the two-line script.  Wherever the call is
    defined (the one-time block has run, or is defined), it returns and the
    runtime is handed exactly the stripped text. *)
Theorem RunSimpleString_strips_cr (W : World) (n : nat) (text : string)
  (s : Process) :
  list_ascii_of_string (remove_cr text)
  = filter (fun c => negb (Ascii.eqb c CR)) (list_ascii_of_string text)
  /\ ~ In CR (list_ascii_of_string (remove_cr text))
  /\ RunSimpleString W (S (S n)) (Some text) s
     = RunSimpleString W (S (S n)) (Some (remove_cr text)) s
  /\ RunSimpleString W (S (S n)) (Some dos_script) s
     = RunSimpleString W (S (S n)) (Some unix_script) s
  /\ ((InitializedOnce s = false -> first_Initialize_defined W s = true) ->
      exists status s' es,
        RunSimpleString W (S (S n)) (Some text) s = Ok status s'
        /\ trace s' = trace s ++ es
        /\ filter is_run es
           = (if InitializedOnce s then []
              else [EvPyRunSimpleString EmptyString])
             ++ [EvPyRunSimpleString (remove_cr text)]).
Proof.
  split; [apply remove_cr_filter|].
  split; [apply remove_cr_no_cr|].
  split; [|split].
  - unfold RunSimpleString, RunSimpleString_with.
    now rewrite remove_cr_idempotent.
  - reflexivity.
  - intros Hdef; unfold RunSimpleString.
    destruct (Initialize_general W n 1 s Hdef) as (r & es0 & Hinit & _ & _ & Hrun0 & _).
    rewrite (RunSimpleString_with_run _ W (Some text) s _ _ Hinit).
    match goal with
    | |- context [snd (run_script W ?b ?st)] =>
        destruct (run_script_general W b st) as (es & -> & Hes)
    end.
    eexists _, _, (es0 ++ EvPyRunSimpleString (remove_cr text) :: es).
    split; [reflexivity|].
    split; [simpl; now rewrite app_assoc|].
    rewrite filter_app, Hrun0; simpl.
    now rewrite (filter_none is_run is_output es) by auto using output_not.
Qed.

Lemma RunSimpleString_strips_cr_witness :
  RunSimpleString a_world 2 (Some dos_script) process_start
  = RunSimpleString a_world 2 (Some unix_script) process_start
  /\ remove_cr dos_script = unix_script
  /\ exists status s' es,
       RunSimpleString a_world 2 (Some dos_script) process_start = Ok status s'
       /\ trace s' = trace process_start ++ es
       /\ filter is_run es
          = [EvPyRunSimpleString EmptyString; EvPyRunSimpleString unix_script].
Proof.
  split; [|split].
  - exact (proj1 (proj2 (proj2 (proj2
             (RunSimpleString_strips_cr a_world 0 dos_script process_start))))).
  - reflexivity.
  - exact (proj2 (proj2 (proj2 (proj2
             (RunSimpleString_strips_cr a_world 0 dos_script process_start))))
             (fun _ => eq_refl)).
Defined.

(** ** PyMain *)

Lemma set_PythonVerboseFlag_same (s : Process) :
  set_PythonVerboseFlag (PythonVerboseFlag s) s = s.
Proof. now destruct s. Qed.

Lemma scan_verbose_shape (s : Process) (arg : string) :
  scan_verbose s arg
  = set_PythonVerboseFlag
      (if String.eqb arg "-vv" then 2
       else if String.eqb arg "-v" then PythonVerboseFlag s + 1
            else PythonVerboseFlag s) s.
Proof.
  unfold scan_verbose.
  destruct (String.eqb arg "-v") eqn:Ev.
  - apply String.eqb_eq in Ev; now subst arg.
  - destruct (String.eqb arg "-vv"); trivial.
    now rewrite set_PythonVerboseFlag_same.
Qed.

(** The verbosity after the first loop of PyMain: without -vv, the number of
    -v; with -vv, two more than the number of -v after the last -vv. *)
Lemma scan_shape (argv : list string) (s : Process) :
  exists v,
    fold_left scan_verbose argv s = set_PythonVerboseFlag v s
    /\ (~ In "-vv" argv ->
        v = PythonVerboseFlag s
            + Z.of_nat (List.length (filter (String.eqb "-v") argv)))
    /\ (forall l1 l2, argv = l1 ++ "-vv" :: l2 -> ~ In "-vv" l2 ->
        v = 2 + Z.of_nat (List.length (filter (String.eqb "-v") l2))).
Proof.
  revert s; induction argv as [|arg argv IH]; intros s.
  - exists (PythonVerboseFlag s); simpl.
    split; [now rewrite set_PythonVerboseFlag_same|].
    split; [intros _; lia|].
    intros [|? ?] l2 H; discriminate.
  - cbn [fold_left]; rewrite scan_verbose_shape.
    match goal with
    | |- context [set_PythonVerboseFlag ?v0 s] =>
        destruct (IH (set_PythonVerboseFlag v0 s)) as (v & Hv & Hnone & Hlast)
    end.
    exists v; split; [now rewrite Hv|].
    cbn [PythonVerboseFlag set_PythonVerboseFlag] in Hnone.
    split.
    + intros Hnot.
      assert (Hvv : String.eqb arg "-vv" = false).
      { apply String.eqb_neq; intros ->; apply Hnot; now left. }
      rewrite Hvv in Hnone.
      rewrite Hnone by (intros Hin; apply Hnot; now right).
      cbn [filter]; rewrite (String.eqb_sym "-v" arg).
      destruct (String.eqb arg "-v"); cbn [List.length]; lia.
    + intros [|x l1] l2 Heq Hnot; injection Heq as Harg Hargv.
      * subst arg argv; rewrite String.eqb_refl in Hnone.
        rewrite Hnone by assumption; lia.
      * now apply (Hlast l1 l2).
Qed.

Lemma cout_if_log (b : bool) (line : string) (s : Process) :
  exists es,
    (if b then cout line s else s) = log es s /\ forallb diagnostic es = true.
Proof.
  destruct b.
  - now exists [EvCout line].
  - exists []; now rewrite log_nil.
Qed.

(** The second loop of PyMain when every argument it decodes can be decoded. *)
Lemma decode_args_all (W : World) (argv : list string) (i : nat)
  (argvWide : list wstring) (s : Process) :
  (forall arg, In arg argv -> is_enable_bt arg = false ->
               Py_DecodeLocale W arg <> None) ->
  exists es,
    decode_args W i argv argvWide s
    = (Some (argvWide
             ++ decoded W (filter (fun arg => negb (is_enable_bt arg)) argv)),
       log es
         (set_StackTraceOnError
            (StackTraceOnError s || existsb is_enable_bt argv) s))
    /\ forallb diagnostic es = true.
Proof.
  revert i argvWide s; induction argv as [|arg argv IH]; intros i argvWide s Hall.
  - exists []; split; trivial; simpl.
    rewrite app_nil_r; f_equal.
    destruct s; fields; now rewrite orb_false_r, app_nil_r.
  - cbn [decode_args filter existsb]; fold (is_enable_bt arg).
    destruct (is_enable_bt arg) eqn:Ebt; cbn [negb].
    + destruct (IH (S i) argvWide (set_StackTraceOnError true s)) as (es & -> & Hes).
      { intros a Ha; apply Hall; now right. }
      exists es; split; trivial.
      f_equal; fields; now rewrite orb_true_r.
    + destruct (cout_if_log (String.eqb arg "-V") (GetVTKSourceVersion W) s)
        as (es1 & -> & H1).
      destruct (Py_DecodeLocale W arg) as [wide0|] eqn:Edec.
      * destruct (IH (S i) (argvWide ++ [wide0]) (log es1 s)) as (es & -> & Hes).
        { intros a Ha; apply Hall; now right. }
        exists (es1 ++ es); split; [|now rewrite forallb_app, H1, Hes].
        unfold decoded at 2; cbn [map]; rewrite Edec.
        rewrite <- app_assoc; f_equal.
        fields; now rewrite app_assoc.
      * exfalso; apply (Hall arg); auto; now left.
Qed.


Lemma call_Py_Main_shape (W : World) (argv : list wstring) (s : Process) :
  exists es be bo,
    call_Py_Main W argv s
    = (snd (Py_Main W argv),
       set_python
         (mkPyRuntime false false (py_program_name (python s)) []
            Console Console Console)
         (set_StdOutBuffer bo (set_StdErrBuffer be (log (EvPyMain argv :: es) s))))
    /\ forallb is_output es = true.
Proof.
  unfold call_Py_Main; destruct (Py_Main W argv) as [writes status].
  destruct (deliver_fold_shape writes (emit (EvPyMain argv) s))
    as (es & be & bo & -> & Hes).
  exists es, be, bo; split; trivial.
  cbn [snd]; f_equal; fields; now rewrite <- app_assoc.
Qed.

(** The arguments of PyMain do not bear on whether the first Initialize is
    defined. *)
Lemma first_Initialize_defined_scan (W : World) (v : Z) (s : Process) :
  first_Initialize_defined W (set_PythonVerboseFlag v (set_PythonVerboseFlag 0 s))
  = first_Initialize_defined W s.
Proof. now apply first_Initialize_defined_congr. Qed.

(** C6, as stated, fails: PyMain hands -v on to Py_Main. *)
Lemma PyMain_keeps_verbosity_flag :
  ~ strips_all_flags a_world 2 ["vtkpython"; "-v"; "script.py"] process_start.
Proof.
  intros (status & s' & es & Hrun & Htrace & Hmain).
  vm_compute in Hrun; injection Hrun as _ <-.
  simpl in Htrace; subst es.
  vm_compute in Hmain; discriminate.
Qed.

(** C6, amended: wherever the Initialize(1) it starts with is defined (the
    one-time block has run, or is defined), PyMain recognizes the verbosity
    flags (without -vv the verbosity is the number of -v; with -vv it is two
    more than the number of -v after the last -vv) and --enable-bt (stack
    traces on error are switched on).  Of these only --enable-bt is taken
    out: Py_Main is called once, with the decoded form of every other
    argument, -v and -vv included, in the order given. *)
Theorem PyMain_arguments (W : World) (n : nat) (argv : list string)
  (s : Process) :
  (InitializedOnce s = false -> first_Initialize_defined W s = true) ->
  (forall arg, In arg argv -> is_enable_bt arg = false ->
               Py_DecodeLocale W arg <> None) ->
  exists s' es,
    PyMain W (S (S n)) argv s
    = Ok (snd (Py_Main W
                 (decoded W (filter (fun arg => negb (is_enable_bt arg)) argv))))
        s'
    /\ trace s' = trace s ++ es
    /\ filter is_main es
       = [EvPyMain
            (decoded W (filter (fun arg => negb (is_enable_bt arg)) argv))]
    /\ (forall arg wide0,
           In arg argv -> is_enable_bt arg = false ->
           Py_DecodeLocale W arg = Some wide0 ->
           In wide0
             (decoded W (filter (fun arg => negb (is_enable_bt arg)) argv)))
    /\ StackTraceOnError s' = StackTraceOnError s || existsb is_enable_bt argv
    /\ (~ In "-vv" argv ->
        PythonVerboseFlag s'
        = Z.of_nat (List.length (filter (String.eqb "-v") argv)))
    /\ (forall l1 l2, argv = l1 ++ "-vv" :: l2 -> ~ In "-vv" l2 ->
        PythonVerboseFlag s'
        = 2 + Z.of_nat (List.length (filter (String.eqb "-v") l2))).
Proof.
  intros Hdef Hall.
  destruct (scan_shape argv (set_PythonVerboseFlag 0 s)) as (v & Hv & Hnone & Hlast).
  unfold PyMain, bind, step; rewrite Hv.
  destruct (Initialize_general W n 1
              (set_PythonVerboseFlag v (set_PythonVerboseFlag 0 s)))
    as (r & es0 & -> & _ & Hmain0 & _);
    [now rewrite first_Initialize_defined_scan|].
  unfold call.
  match goal with
  | |- context [decode_args W 0 argv [] ?st] =>
      destruct (decode_args_all W argv 0 [] st Hall) as (es1 & -> & Hes1)
  end.
  cbn [app].
  match goal with
  | |- context [call_Py_Main W ?args ?st] =>
      destruct (call_Py_Main_shape W args st) as (es2 & be & bo & -> & Hes2)
  end.
  eexists _, (es0 ++ es1 ++ EvPyMain _ :: es2).
  split; [reflexivity|].
  split; [fields; now rewrite <- !app_assoc|].
  split; [|split; [|split; [|split]]].
  - rewrite !filter_app, Hmain0; cbn [filter is_main app].
    rewrite (filter_none is_main diagnostic es1) by auto using diagnostic_not.
    now rewrite (filter_none is_main is_output es2) by auto using output_not.
  - intros arg wide0 Hin Hbt Hdec.
    unfold decoded; apply in_map_iff; exists arg; rewrite Hdec; split; trivial.
    apply filter_In; split; trivial; now rewrite Hbt.
  - reflexivity.
  - intros Hnot; cbn; rewrite (Hnone Hnot); simpl; lia.
  - intros l1 l2 Heq Hnot; cbn; exact (Hlast l1 l2 Heq Hnot).
Qed.

Lemma PyMain_arguments_witness :
  exists s',
    PyMain a_world 2 ["vtkpython"; "-v"; "--enable-bt"; "script.py"]
      process_start = Ok 0 s'
    /\ filter is_main (trace s')
       = [EvPyMain [wide "vtkpython"; wide "-v"; wide "script.py"]]
    /\ PythonVerboseFlag s' = 1
    /\ StackTraceOnError s' = true.
Proof.
  destruct (PyMain_arguments a_world 0
              ["vtkpython"; "-v"; "--enable-bt"; "script.py"] process_start)
    as (s' & es & Hrun & Htrace & Hmain & _ & Hbt & Hv & _).
  - intros _; reflexivity.
  - intros arg [<-|[<-|[<-|[<-|[]]]]] H; discriminate.
  - exists s'; split; [exact Hrun|].
    split; [now rewrite Htrace|].
    split; [|exact Hbt].
    rewrite Hv; [reflexivity|].
    intros [H|[H|[H|[H|[]]]]]; discriminate.
Defined.



(** ** Pending paths *)

Lemma set_PythonPaths_same (s : Process) : set_PythonPaths (PythonPaths s) s = s.
Proof. now destruct s. Qed.

Lemma PrependPythonPath_before_startup (W : World) (d : string) (s : Process) :
  py_initialized (python s) = false ->
  PrependPythonPath W (Some d) s
  = Ok tt (set_PythonPaths (PythonPaths s ++ [out_dir W d]) s).
Proof.
  intros Hpy; unfold PrependPythonPath, bind, step, out_dir.
  cbn [python set_PythonPaths]; now rewrite Hpy.
Qed.

(** C2: three directories registered before the runtime is started are
    kept in PythonPaths in the order of registration; the first Initialize
    (where it is defined: the start of the walk is defined and
    PyUnicode_FromString returns an object for every path inserted) replays
    them in that order, each in front of sys.path, so that sys.path begins
    with the third, the second and the first (each with the separators of
    the platform), followed by the sys.path the same start-up builds without
    them: the earlier pending paths, the site-packages directory of VTK and
    the default path of the runtime. *)
Theorem PrependPythonPath_order (W : World) (n : nat) (initsigs : Z)
  (A B C : string) (s : Process) (components : list string) :
  InitializedOnce s = false ->
  py_initialized (python s) = false ->
  walk_start W s = Some components ->
  forallb (PyUnicode_FromString W)
    (site_packages W components ++ PythonPaths s
     ++ [out_dir W A; out_dir W B; out_dir W C]) = true ->
  exists nA nB nC s1 s2 s2',
    (nA = if win32 W then replace_char slash backslash A else A)
    /\ (nB = if win32 W then replace_char slash backslash B else B)
    /\ (nC = if win32 W then replace_char slash backslash C else C)
    /\ (PrependPythonPath W (Some A) ;;
        PrependPythonPath W (Some B) ;;
        PrependPythonPath W (Some C)) s = Ok tt s1
    /\ PythonPaths s1 = PythonPaths s ++ [nA; nB; nC]
    /\ Initialize W (S (S n)) initsigs s1 = Ok true s2
    /\ Initialize W (S (S n)) initsigs s = Ok true s2'
    /\ sys_path (python s2) = nC :: nB :: nA :: sys_path (python s2')
    /\ (win32 W = false ->
        sys_path (python s2) = C :: B :: A :: sys_path (python s2'))
    /\ sys_path (python s2')
       = rev (PythonPaths s) ++ site_packages W components
         ++ default_sys_path W.
Proof.
  intros Honce Hpy Hstart Hdec.
  set (nA := out_dir W A) in *; set (nB := out_dir W B) in *;
    set (nC := out_dir W C) in *.
  set (s1 := set_PythonPaths (PythonPaths s ++ [nA; nB; nC]) s).
  assert (Hreg : (PrependPythonPath W (Some A) ;;
                  PrependPythonPath W (Some B) ;;
                  PrependPythonPath W (Some C)) s = Ok tt s1).
  { unfold bind.
    rewrite (PrependPythonPath_before_startup W A s Hpy).
    rewrite (PrependPythonPath_before_startup W B) by exact Hpy.
    rewrite (PrependPythonPath_before_startup W C) by exact Hpy.
    subst s1; cbn [PythonPaths set_PythonPaths]; fold nA nB nC.
    now rewrite <- !app_assoc. }
  assert (Hdec1 : forallb (PyUnicode_FromString W)
                    (site_packages W components ++ PythonPaths s1) = true)
    by exact Hdec.
  assert (Hdec0 : forallb (PyUnicode_FromString W)
                    (site_packages W components ++ PythonPaths s) = true).
  { rewrite forallb_app in Hdec.
    apply andb_prop in Hdec; destruct Hdec as [Hsite Hrest].
    rewrite forallb_app in Hrest.
    apply andb_prop in Hrest; destruct Hrest as [Hpp _].
    now rewrite forallb_app, Hsite, Hpp. }
  assert (Hstart1 : walk_start W s1 = Some components)
    by (rewrite (walk_start_congr W s1 s eq_refl); exact Hstart).
  destruct (Initialize_first W n initsigs s1 components Honce Hstart1 Hdec1)
    as (r2 & es2 & Hrun2 & _ & _ & _ & _ & Hpath2 & _).
  destruct (Initialize_first W n initsigs s components Honce Hstart Hdec0)
    as (r2' & es2' & Hrun2' & _ & _ & _ & _ & Hpath2' & _).
  rewrite Hpy in Hpath2'.
  assert (Hpath : r2.(sys_path) = nC :: nB :: nA :: r2'.(sys_path)).
  { rewrite Hpath2, Hpath2'; subst s1; cbn [PythonPaths set_PythonPaths python].
    rewrite Hpy, rev_app_distr; reflexivity. }
  eexists nA, nB, nC, s1, _, _.
  split; [reflexivity|split; [reflexivity|split; [reflexivity|]]].
  split; [exact Hreg|].
  split; [reflexivity|].
  split; [exact Hrun2|].
  split; [exact Hrun2'|].
  split; [exact Hpath|].
  split; [|exact Hpath2'].
  intros Hposix; cbn [python]; rewrite Hpath.
  subst nA nB nC; unfold out_dir; now rewrite Hposix.
Qed.

Lemma PrependPythonPath_order_witness :
  exists s1 s2,
    (PrependPythonPath a_world (Some "/a") ;;
     PrependPythonPath a_world (Some "/b") ;;
     PrependPythonPath a_world (Some "/c")) process_start = Ok tt s1
    /\ Initialize a_world 2 0 s1 = Ok true s2
    /\ sys_path (python s2)
       = ["/c"; "/b"; "/a"; "/opt/vtk/lib/python3.7/site-packages";
          "/usr/lib/python3.7"].
Proof.
  destruct (PrependPythonPath_order a_world 0 0 "/a" "/b" "/c" process_start
              ["/"; "opt"; "vtk"; "lib"] eq_refl eq_refl eq_refl eq_refl)
    as (nA & nB & nC & s1 & s2 & s2' & _ & _ & _ & Hreg & _ & Hrun & _ & _
        & Hpath & Hpath').
  exists s1, s2; split; [exact Hreg|].
  split; [exact Hrun|].
  rewrite (Hpath eq_refl), Hpath'; reflexivity.
Defined.

(** ** The supported lifecycle *)

Lemma lifecycle_ok_start : lifecycle_ok process_start.
Proof. repeat split; discriminate. Qed.

Lemma lifecycle_ok_Initialize (W : World) (n : nat) (initsigs : Z)
  (s : Process) :
  (InitializedOnce s = false -> first_Initialize_defined W s = true) ->
  lifecycle_ok s ->
  exists b s', Initialize W (S (S n)) initsigs s = Ok b s' /\ lifecycle_ok s'.
Proof.
  intros Hdef Hok.
  destruct (InitializedOnce s) eqn:Honce.
  - exists false, s; split; trivial.
    destruct Hok as (_ & _ & Hrest); rewrite Honce in Hrest.
    now apply Initialize_again.
  - destruct (first_Initialize_defined_components W s (Hdef eq_refl))
      as (components & Hstart & Hdec).
    destruct (Initialize_first W n initsigs s components Honce Hstart Hdec)
      as (r & es & -> & Hpy & Hout & Herr & _).
    eexists _, _; split; [reflexivity|].
    now repeat split.
Qed.

Lemma lifecycle_ok_PrependPythonPath (W : World) (dir : option string)
  (s s' : Process) :
  lifecycle_ok s -> PrependPythonPath W dir s = Ok tt s' -> lifecycle_ok s'.
Proof.
  intros Hok; destruct dir as [d|]; [|now intros [= <-]].
  unfold PrependPythonPath, bind, step; fold (out_dir W d).
  cbn [python set_PythonPaths].
  destruct (py_initialized (python s)); cbn [negb]; [|now intros [= <-]].
  destruct (PyUnicode_FromString W (out_dir W d)) eqn:Hdec.
  - match goal with
    | |- vtkPrependPythonPath W ?p ?st = _ -> _ =>
        destruct (vtkPrependPythonPath_ok W p st Hdec) as (s1 & -> & (es & -> & _))
    end.
    intros [= <-]; exact Hok.
  - now rewrite vtkPrependPythonPath_undefined.
Qed.

Lemma lifecycle_ok_observers (this : ident) (s : Process) :
  lifecycle_ok s ->
  lifecycle_ok (vtkPythonInterpreter_ctor this s)
  /\ lifecycle_ok (vtkPythonInterpreter_dtor this s).
Proof. intros Hok; split; exact Hok. Qed.

(** ** The concrete world at work *)

Example first_script_trace :
  exists s',
    RunSimpleString a_world 2 (Some "raise")
      (vtkPythonInterpreter_ctor 7%N process_start) = Ok (-1) s'
    /\ filter (fun e => negb (diagnostic e)) (trace s')
       = [EvPyRunSimpleString EmptyString;
          EvConsole (ToStderr (str1 LF));
          EvInvoke 7%N EnterEvent NoData;
          EvPyRunSimpleString "raise";
          EvDisplayErrorText ("Traceback" ^^ str1 LF);
          EvInvoke 7%N ErrorEvent (Text ("Traceback" ^^ str1 LF))].
Proof. eexists; split; [vm_compute; reflexivity|reflexivity]. Qed.

Example verbosity_after_vv :
  exists s',
    PyMain a_world 2 ["vtkpython"; "-vv"; "-v"] process_start = Ok 0 s'
    /\ PythonVerboseFlag s' = 3.
Proof. eexists; split; [vm_compute; reflexivity|reflexivity]. Qed.

Example decode_failure_trace :
  exists s',
    PyMain a_world 2 ["vtkpython"; "--enable-bt"; undecodable; "script.py"]
      process_start = Ok 1 s'
    /\ last (trace s') EvPyFinalize = EvStderr (decode_diagnostic 3)
    /\ StackTraceOnError s' = true.
Proof. eexists; split; [vm_compute; reflexivity|split; reflexivity]. Qed.

Example landmark_absent_no_path :
  exists s',
    Initialize a_world_without_vtk 2 0 process_start = Ok true s'
    /\ sys_path (python s') = ["/usr/lib/python3.7"].
Proof. eexists; split; [vm_compute; reflexivity|reflexivity]. Qed.

(** * Further properties of the code *)

(** ** Finalize *)

Lemma Finalize_shape (s : Process) :
  Finalize s
  = if py_initialized (python s) then
      log (notifications ExitEvent NoData (GlobalInterpreters s) ++ [EvPyFinalize])
        (set_python
           (mkPyRuntime false false (py_program_name (python s)) []
              Console Console Console) s)
    else s.
Proof.
  unfold Finalize; destruct (py_initialized (python s)); trivial.
  rewrite NotifyInterpreters_log; unfold Py_Finalize.
  fields; now rewrite <- app_assoc.
Qed.

(** X1: Finalize does nothing while the runtime is down.  While it is up,
    every live observer is invoked once with ExitEvent, then the runtime is
    shut down; InitializedOnce, the pending paths and the registry are left
    as they were. *)
Theorem Finalize_exit (s : Process) :
  (py_initialized (python s) = false -> Finalize s = s)
  /\ (py_initialized (python s) = true ->
      trace (Finalize s)
      = trace s ++ notifications ExitEvent NoData (GlobalInterpreters s)
        ++ [EvPyFinalize]
      /\ py_initialized (python (Finalize s)) = false
      /\ InitializedOnce (Finalize s) = InitializedOnce s
      /\ PythonPaths (Finalize s) = PythonPaths s
      /\ GlobalInterpreters (Finalize s) = GlobalInterpreters s).
Proof.
  rewrite Finalize_shape; split; intros Hpy; rewrite Hpy; trivial.
  repeat split.
Qed.

Lemma Finalize_exit_witness :
  Finalize process_start = process_start
  /\ exists s1,
       Initialize a_world 2 0 (vtkPythonInterpreter_ctor 7%N process_start)
       = Ok true s1
       /\ trace (Finalize s1)
          = trace s1 ++ [EvInvoke 7%N ExitEvent NoData; EvPyFinalize].
Proof.
  split.
  - exact (proj1 (Finalize_exit process_start) eq_refl).
  - eexists; split; [vm_compute; reflexivity|].
    match goal with
    | |- trace (Finalize ?s1) = _ =>
        exact (proj1 (proj2 (Finalize_exit s1) eq_refl))
    end.
Defined.

(** X2: a second Finalize changes nothing. *)
Theorem Finalize_idempotent (s : Process) :
  Finalize (Finalize s) = Finalize s.
Proof.
  rewrite (Finalize_shape s).
  destruct (py_initialized (python s)) eqn:Hpy.
  - now rewrite Finalize_shape.
  - now rewrite Finalize_shape, Hpy.
Qed.

(** X3: Initialize after Finalize starts the runtime again and answers
    false.  The one-time block does not run a second time: the streams stay
    on the console of the new runtime, sys.path is the default one without
    the pending paths, no script is run and no observer is invoked. *)
Theorem Initialize_after_Finalize (W : World) (n : nat) (initsigs : Z)
  (s : Process) :
  InitializedOnce s = true ->
  py_initialized (python s) = true ->
  exists s2 es,
    Initialize W (S n) initsigs (Finalize s) = Ok false s2
    /\ trace s2 = trace (Finalize s) ++ es
    /\ In (EvPyInitializeEx initsigs) es
    /\ forallb diagnostic es = true
    /\ py_initialized (python s2) = true
    /\ sys_stdout (python s2) = Console
    /\ sys_stderr (python s2) = Console
    /\ sys_stdin (python s2) = Console
    /\ sys_path (python s2) = default_sys_path W
    /\ PythonPaths s2 = PythonPaths s
    /\ InitializedOnce s2 = true.
Proof.
  intros Honce Hpy.
  rewrite Initialize_S, Finalize_shape, Hpy.
  unfold started; cbn [python log set_python py_initialized negb].
  match goal with
  | |- context [SetupPythonPrefix W ?st] =>
      destruct (SetupPythonPrefix_shape W st) as (r0 & es0 & -> & H0)
  end.
  unfold Py_InitializeEx, emit.
  cbn [InitializedOnce log set_python negb]; rewrite Honce; cbn [negb].
  eexists _, (es0 ++ [EvPyInitializeEx initsigs; EvSignalDefault]).
  split; [reflexivity|].
  split; [fields; now rewrite <- !app_assoc|].
  split; [apply in_or_app; right; now left|].
  split; [now rewrite forallb_app, H0|].
  repeat split; trivial.
Qed.

Lemma Initialize_after_Finalize_witness :
  exists s1 s2,
    Initialize a_world 2 0
      (set_PythonPaths ["/a"] process_start) = Ok true s1
    /\ Initialize a_world 2 0 (Finalize s1) = Ok false s2
    /\ sys_path (python s1)
       = ["/a"; "/opt/vtk/lib/python3.7/site-packages"; "/usr/lib/python3.7"]
    /\ sys_path (python s2) = ["/usr/lib/python3.7"]
    /\ sys_stdout (python s2) = Console.
Proof.
  eexists; eexists; split; [vm_compute; reflexivity|].
  match goal with
  | |- Initialize _ _ _ (Finalize ?s1) = _ /\ _ =>
      destruct (Initialize_after_Finalize a_world 1 0 s1 eq_refl eq_refl)
        as (s2 & es & Hrun & _ & _ & _ & _ & Hout & _ & _ & Hpath & _)
  end.
  vm_compute in Hrun; injection Hrun as <-.
  repeat split.
Defined.

(** X4: while the streams are on the console, as they are after Finalize
    and a second Initialize, what a script prints is written on the console
    only: nothing is shown in the output window and no observer is
    notified. *)
Theorem RunSimpleString_after_restart (W : World) (n : nat)
  (script : option string) (s : Process) :
  InitializedOnce s = true ->
  py_initialized (python s) = true ->
  sys_stdout (python s) = Console ->
  sys_stderr (python s) = Console ->
  StdErrBuffer s = EmptyString ->
  StdOutBuffer s = EmptyString ->
  exists s' es,
    RunSimpleString W (S n) script s
    = Ok (snd (PyRun_SimpleString W
                 (remove_cr (match script with
                             | Some text => text
                             | None => EmptyString
                             end)))) s'
    /\ trace s' = trace s ++ es
    /\ es = EvPyRunSimpleString
              (remove_cr (match script with
                          | Some text => text
                          | None => EmptyString
                          end))
            :: map EvConsole
                 (fst (PyRun_SimpleString W
                         (remove_cr (match script with
                                     | Some text => text
                                     | None => EmptyString
                                     end))))
    /\ filter is_delivery es = [].
Proof.
  intros Honce Hpy Hout Herr Herrb Houtb.
  unfold RunSimpleString.
  rewrite (RunSimpleString_with_run _ W script s s false)
    by now apply Initialize_again.
  rewrite run_script_status, run_script_console by assumption.
  rewrite Herrb, Houtb; cbn [error_flush output_flush String.eqb].
  rewrite !app_nil_r.
  eexists _, _; split; [reflexivity|].
  split; [reflexivity|].
  split; [reflexivity|].
  cbn [filter is_delivery]; apply filter_console; auto.
Qed.

Lemma RunSimpleString_after_restart_witness :
  exists s1 s2,
    Initialize a_world 2 0 (vtkPythonInterpreter_ctor 7%N process_start)
    = Ok true s1
    /\ Initialize a_world 2 0 (Finalize s1) = Ok false s2
    /\ exists s3,
         RunSimpleString a_world 2 (Some "print('x')") s2 = Ok 0 s3
         /\ trace s3
            = trace s2
              ++ [EvPyRunSimpleString "print('x')";
                  EvConsole (ToStdout "x"); EvConsole (ToStdout (str1 LF))].
Proof.
  eexists; eexists.
  split; [vm_compute; reflexivity|].
  split; [vm_compute; reflexivity|].
  match goal with
  | |- exists s3, RunSimpleString _ _ _ ?s2 = _ /\ _ =>
      destruct (RunSimpleString_after_restart a_world 1 (Some "print('x')") s2
                  eq_refl eq_refl eq_refl eq_refl eq_refl eq_refl)
        as (s3 & es & Hrun & Htrace & Hes & _)
  end.
  exists s3; split; [exact Hrun|].
  rewrite Htrace, Hes; reflexivity.
Defined.

(** ** PrependPythonPath *)

Lemma PrependPythonPath_shape (W : World) (d : string) (s : Process) :
  (py_initialized (python s) = true ->
   PyUnicode_FromString W (out_dir W d) = true) ->
  exists s',
    PrependPythonPath W (Some d) s = Ok tt s'
    /\ inserts (if py_initialized (python s) then [out_dir W d] else [])
         (set_PythonPaths (PythonPaths s ++ [out_dir W d]) s) s'
    /\ (py_initialized (python s) = false ->
        s' = set_PythonPaths (PythonPaths s ++ [out_dir W d]) s).
Proof.
  intros Hdec; unfold PrependPythonPath, bind, step; fold (out_dir W d).
  cbn [python set_PythonPaths].
  destruct (py_initialized (python s)); cbn [negb].
  - match goal with
    | |- context [vtkPrependPythonPath W ?p ?st] =>
        destruct (vtkPrependPythonPath_ok W p st (Hdec eq_refl))
          as (s' & -> & Hins)
    end.
    exists s'; split; [reflexivity|split; [exact Hins|discriminate]].
  - eexists; split; [reflexivity|split; [apply inserts_refl|reflexivity]].
Qed.

Lemma PrependPythonPath_undefined (W : World) (d : string) (s : Process) :
  py_initialized (python s) = true ->
  PyUnicode_FromString W (out_dir W d) = false ->
  PrependPythonPath W (Some d) s = Undefined.
Proof.
  intros Hpy Hdec; unfold PrependPythonPath, bind, step; fold (out_dir W d).
  cbn [python set_PythonPaths]; rewrite Hpy; cbn [negb].
  now apply vtkPrependPythonPath_undefined.
Qed.

(** X5: directories handed to PrependPythonPath one after the other (each
    one, when the runtime is up, a text PyUnicode_FromString returns an
    object for) are appended to PythonPaths in that order, whether or not
    the runtime is up; when it is up they are also put in front of sys.path
    at once, the last one first.  Nothing else of the process changes: the
    flags, the accumulators, the registry and the rest of the runtime are
    as they were, and the only events are lines on cout, none at verbosity
    zero and none while the runtime is down. *)
Theorem PrependPythonPaths_order (W : World) (dirs : list string)
  (s : Process) :
  (py_initialized (python s) = true ->
   forallb (PyUnicode_FromString W) (map (out_dir W) dirs) = true) ->
  exists s' es,
    PrependPythonPaths W dirs s = Ok tt s'
    /\ s' = log es
              (set_python
                 (set_sys_path
                    ((if py_initialized (python s)
                      then rev (map (out_dir W) dirs) else [])
                     ++ sys_path (python s)) (python s))
                 (set_PythonPaths (PythonPaths s ++ map (out_dir W) dirs) s))
    /\ forallb is_cout es = true
    /\ (PythonVerboseFlag s <= 0 -> es = [])
    /\ (py_initialized (python s) = false -> es = []).
Proof.
  revert s; induction dirs as [|d dirs IH]; intros s Hdec.
  - exists s, []; split; [reflexivity|].
    split; [|now repeat split].
    cbn [map rev]; rewrite app_nil_r.
    destruct (py_initialized (python s));
      destruct s as [? ? ? ? ? ? ? ? ? [] ?]; fields; now rewrite app_nil_r.
  - cbn [PrependPythonPaths map].
    destruct (PrependPythonPath_shape W d s) as (s1 & Hrun1 & (es1 & Hs1 & Hc1 & Hq1) & Hdown1).
    { intros Hpy; specialize (Hdec Hpy); cbn [map forallb] in Hdec.
      now apply andb_prop in Hdec. }
    rewrite (bind_Ok _ _ _ _ _ Hrun1).
    assert (Hpy1 : py_initialized (python s1) = py_initialized (python s))
      by now rewrite Hs1.
    destruct (IH s1) as (s' & es2 & -> & Hs' & Hc2 & Hq2 & Hdown2).
    { rewrite Hpy1; intros Hpy; specialize (Hdec Hpy); cbn [map forallb] in Hdec.
      now apply andb_prop in Hdec. }
    exists s', (es1 ++ es2); split; [reflexivity|].
    split; [|split; [|split]].
    + rewrite Hs', Hpy1, Hs1.
      destruct (py_initialized (python s)); cbn [rev]; fields;
        now rewrite <- !app_assoc.
    + now rewrite forallb_app, Hc1, Hc2.
    + intros Hv; rewrite (Hq1 Hv), Hq2; trivial.
      now rewrite Hs1.
    + intros Hpy.
      assert (Hes1 : es1 = []).
      { specialize (Hdown1 Hpy); rewrite Hdown1 in Hs1.
        apply (f_equal trace) in Hs1; cbn [trace log set_python set_PythonPaths] in Hs1.
        rewrite <- (app_nil_r (trace s)) in Hs1 at 1.
        now apply app_inv_head in Hs1. }
      rewrite Hes1, Hdown2; trivial.
      now rewrite Hpy1.
Qed.

Lemma PrependPythonPaths_order_witness :
  exists s',
    PrependPythonPaths a_world ["/x"; "/y"] a_hosted_process = Ok tt s'
    /\ sys_path (python s') = ["/y"; "/x"; "/host/lib"]
    /\ PythonPaths s' = ["/a"; "/x"; "/y"]
    /\ trace s' = [].
Proof.
  destruct (PrependPythonPaths_order a_world ["/x"; "/y"] a_hosted_process
              (fun _ => eq_refl))
    as (s' & es & Hrun & Hs' & _ & Hq & _).
  exists s'; split; [exact Hrun|].
  rewrite Hs', (Hq (Z.le_refl 0)); repeat split.
Defined.

Lemma replace_char_chars (from to : ascii) (str : string) :
  list_ascii_of_string (replace_char from to str)
  = map (fun c => if Ascii.eqb c from then to else c) (list_ascii_of_string str).
Proof. induction str as [|c str IH]; simpl; now rewrite ?IH. Qed.

Lemma replace_char_length (from to : ascii) (str : string) :
  String.length (replace_char from to str) = String.length str.
Proof. induction str as [|c str IH]; simpl; now rewrite ?IH. Qed.

(** X6: on Windows the directory is stored, and put at the head of sys.path
    when the runtime is up (the stored text being one PyUnicode_FromString
    returns an object for), with every '/' turned into a backslash: the
    stored path has the same length, no '/' is left in it and all other
    characters are kept. *)
Theorem PrependPythonPath_windows (W : World) (d : string) (s : Process) :
  win32 W = true ->
  (py_initialized (python s) = true ->
   PyUnicode_FromString W (out_dir W d) = true) ->
  ~ In slash (list_ascii_of_string (out_dir W d))
  /\ String.length (out_dir W d) = String.length d
  /\ list_ascii_of_string (out_dir W d)
     = map (fun c => if Ascii.eqb c slash then backslash else c)
         (list_ascii_of_string d)
  /\ exists s',
       PrependPythonPath W (Some d) s = Ok tt s'
       /\ PythonPaths s' = PythonPaths s ++ [out_dir W d]
       /\ (py_initialized (python s) = true ->
           sys_path (python s') = out_dir W d :: sys_path (python s)).
Proof.
  intros Hwin Hdec.
  destruct (PrependPythonPath_shape W d s Hdec) as (s' & Hrun & Hins & _).
  split; [|split; [|split]].
  - unfold out_dir; rewrite Hwin.
    rewrite replace_char_chars, in_map_iff; intros (c & Hc & _).
    destruct (Ascii.eqb c slash) eqn:E; [discriminate|].
    subst c; now rewrite Ascii.eqb_refl in E.
  - unfold out_dir; rewrite Hwin; apply replace_char_length.
  - unfold out_dir; rewrite Hwin; apply replace_char_chars.
  - exists s'; split; [exact Hrun|].
    destruct (inserts_statics _ _ _ Hins) as (_ & Hpp & _).
    split; [exact Hpp|].
    intros Hpy; rewrite (inserts_sys_path _ _ _ Hins), Hpy; reflexivity.
Qed.

Lemma PrependPythonPath_windows_witness :
  exists s',
    PrependPythonPath a_windows_world (Some "C:/vtk/lib") a_hosted_process
    = Ok tt s'
    /\ PythonPaths s'
       = ["/a"; "C:" ^^ str1 backslash ^^ "vtk" ^^ str1 backslash ^^ "lib"]
    /\ sys_path (python s')
       = ["C:" ^^ str1 backslash ^^ "vtk" ^^ str1 backslash ^^ "lib";
          "/host/lib"].
Proof.
  destruct (PrependPythonPath_windows a_windows_world "C:/vtk/lib"
              a_hosted_process eq_refl (fun _ => eq_refl))
    as (_ & _ & _ & s' & Hrun & Hpp & Hpath).
  exists s'; split; [exact Hrun|].
  split; [exact Hpp|exact (Hpath eq_refl)].
Defined.

(** X23: a directory for which PyUnicode_FromString returns null (a text
    that is not valid UTF-8).  With the runtime up, PrependPythonPath stores
    it and then hands the null object to Py_DECREF: no defined behaviour.
    With the runtime down it is only stored, and it is the first Initialize
    that has no defined behaviour, when it replays the pending paths. *)
Theorem PrependPythonPath_undecodable (W : World) (n : nat) (initsigs : Z)
  (d : string) (s : Process) :
  PyUnicode_FromString W (out_dir W d) = false ->
  (py_initialized (python s) = true ->
   PrependPythonPath W (Some d) s = Undefined)
  /\ (py_initialized (python s) = false ->
      InitializedOnce s = false ->
      exists s',
        PrependPythonPath W (Some d) s = Ok tt s'
        /\ PythonPaths s' = PythonPaths s ++ [out_dir W d]
        /\ Initialize W (S (S n)) initsigs s' = Undefined
        /\ (forall script, RunSimpleString W (S (S n)) script s' = Undefined)).
Proof.
  intros Hdec; split.
  - intros Hpy; now apply PrependPythonPath_undefined.
  - intros Hpy Honce.
    rewrite (PrependPythonPath_before_startup W d s Hpy).
    eexists; split; [reflexivity|].
    split; [reflexivity|].
    assert (Hinit : forall i,
               Initialize W (S (S n)) i
                 (set_PythonPaths (PythonPaths s ++ [out_dir W d]) s)
               = Undefined).
    { intros i; apply Initialize_first_undefined; [exact Honce|].
      unfold first_Initialize_defined.
      destruct (walk_start W _); trivial.
      cbn [PythonPaths set_PythonPaths].
      rewrite !forallb_app; cbn [forallb]; rewrite Hdec.
      now rewrite andb_false_r, andb_false_r. }
    split; [apply Hinit|].
    intros script; unfold RunSimpleString, RunSimpleString_with, bind.
    now rewrite Hinit.
Qed.

Lemma PrependPythonPath_undecodable_witness :
  PrependPythonPath a_world (Some undecodable) a_hosted_process = Undefined
  /\ exists s',
       PrependPythonPath a_world (Some undecodable) process_start = Ok tt s'
       /\ PythonPaths s' = [undecodable]
       /\ Initialize a_world 2 0 s' = Undefined.
Proof.
  destruct (PrependPythonPath_undecodable a_world 0 0 undecodable
              a_hosted_process eq_refl) as [Hup _].
  destruct (PrependPythonPath_undecodable a_world 0 0 undecodable
              process_start eq_refl) as [_ Hdown].
  split; [exact (Hup eq_refl)|].
  destruct (Hdown eq_refl eq_refl) as (s' & Hrun & Hpp & Hinit & _).
  exists s'; split; [exact Hrun|split; [exact Hpp|exact Hinit]].
Defined.

(** ** SetupVTKPythonPaths *)

Lemma deepest_probe (W : World) (components : list string) (n : nat) :
  (forall j, (1 <= j <= n)%nat -> probe W (firstn j components) = false)
  \/ exists k,
       (1 <= k <= n)%nat
       /\ probe W (firstn k components) = true
       /\ forall j, (k < j <= n)%nat -> probe W (firstn j components) = false.
Proof.
  induction n as [|n IH].
  - left; intros j Hj; lia.
  - destruct (probe W (firstn (S n) components)) eqn:E.
    + right; exists (S n); repeat split; trivial; lia.
    + destruct IH as [Hnone|(k & Hk & Hhit & Hmiss)].
      * left; intros j Hj.
        destruct (Nat.eq_dec j (S n)) as [->|Hne]; trivial.
        apply Hnone; lia.
      * right; exists k; repeat split; trivial; try lia.
        intros j Hj.
        destruct (Nat.eq_dec j (S n)) as [->|Hne]; trivial.
        apply Hmiss; lia.
Qed.

(** X7: whenever the start directory is defined and PyUnicode_FromString
    returns an object for the directory to add, SetupVTKPythonPaths returns
    and changes nothing but sys.path and the lines on cout.  It adds at most
    one entry to sys.path, and an entry it adds is the site-packages path of
    an ancestor of the start directory whose landmark file exists and which
    passes the directory test. *)
Theorem SetupVTKPythonPaths_adds_at_most_one (W : World) (s : Process)
  (components : list string) :
  start_components W s = Some components ->
  forallb (PyUnicode_FromString W) (site_packages W components) = true ->
  exists s' site,
    SetupVTKPythonPaths W s = Ok tt s'
    /\ inserts site s s'
    /\ (site = []
        \/ exists k,
             (1 <= k <= List.length components)%nat
             /\ probe W (firstn k components) = true
             /\ FileIsDirectory W (pathtocheck W (firstn k components)) = true
             /\ site = [pathtocheck W (firstn k components)]).
Proof.
  intros Hstart Hdec.
  destruct (SetupVTKPythonPaths_ok W s components Hstart Hdec)
    as (s' & Hrun & Hins).
  exists s', (site_packages W components).
  split; [exact Hrun|split; [exact Hins|]].
  destruct (deepest_probe W components (List.length components))
    as [Hnone|(k & Hk & Hhit & Hmiss)].
  - left; now apply (site_packages_none W _ components eq_refl).
  - rewrite (site_packages_found W _ k components eq_refl Hk Hhit Hmiss).
    destruct (FileIsDirectory W (pathtocheck W (firstn k components))) eqn:Hdir.
    + right; exists k; auto.
    + now left.
Qed.

Lemma SetupVTKPythonPaths_adds_at_most_one_witness :
  exists s' site,
    SetupVTKPythonPaths a_world process_start = Ok tt s'
    /\ inserts site process_start s'
    /\ List.length site = 1%nat.
Proof.
  destruct (SetupVTKPythonPaths_adds_at_most_one a_world process_start
              ["/"; "opt"; "vtk"; "lib"] eq_refl eq_refl)
    as (s' & site & Hrun & Hins & Hsite).
  exists s', site; split; [exact Hrun|split; [exact Hins|]].
  pose proof (inserts_sys_path _ _ _ Hins) as Hpath.
  vm_compute in Hrun; injection Hrun as <-.
  cbn in Hpath; rewrite app_nil_r in Hpath; now subst site.
Defined.

(** X8: the walk ends at the deepest ancestor whose landmark file exists
    even when the site-packages path of that ancestor fails the directory
    test: then nothing is added to sys.path, whatever the ancestors above
    it hold. *)
Theorem SetupVTKPythonPaths_stops_at_first_landmark (W : World) (s : Process)
  (components : list string) (k : nat) :
  start_components W s = Some components ->
  (1 <= k <= List.length components)%nat ->
  probe W (firstn k components) = true ->
  (forall j, (k < j <= List.length components)%nat ->
             probe W (firstn j components) = false) ->
  FileIsDirectory W (pathtocheck W (firstn k components)) = false ->
  exists s',
    SetupVTKPythonPaths W s = Ok tt s'
    /\ sys_path (python s') = sys_path (python s).
Proof.
  intros Hstart Hk Hhit Hmiss Hdir.
  pose proof (site_packages_found W _ k components eq_refl Hk Hhit Hmiss)
    as Hsite.
  rewrite Hdir in Hsite.
  destruct (SetupVTKPythonPaths_ok W s components Hstart) as (s' & Hrun & Hins).
  { now rewrite Hsite. }
  exists s'; split; [exact Hrun|].
  now rewrite (inserts_sys_path _ _ _ Hins), Hsite.
Qed.

Lemma SetupVTKPythonPaths_stops_at_first_landmark_witness :
  exists s',
    SetupVTKPythonPaths a_world_with_stray_landmark process_start = Ok tt s'
    /\ sys_path (python s') = []
    /\ probe a_world_with_stray_landmark ["/"; "opt"; "vtk"] = true
    /\ FileIsDirectory a_world_with_stray_landmark
         (pathtocheck a_world_with_stray_landmark ["/"; "opt"; "vtk"]) = true.
Proof.
  destruct (SetupVTKPythonPaths_stops_at_first_landmark
              a_world_with_stray_landmark process_start
              ["/"; "opt"; "vtk"; "lib"] 4 eq_refl) as (s' & Hrun & Hpath).
  - simpl; lia.
  - reflexivity.
  - intros j Hj; simpl in Hj; lia.
  - reflexivity.
  - exists s'; repeat split; trivial.
Defined.

(** ** The program name *)

(** X9: in a build that finds no VTK library (a static build, or a failed
    lookup), the first Initialize encodes the program name and assigns the
    result to a std::string without a null test; when the name cannot be
    encoded this has no defined behaviour, and neither has a RunSimpleString
    that is the first to initialize. *)
Theorem Initialize_undefined_without_library (W : World) (n : nat)
  (initsigs : Z) (s : Process) :
  InitializedOnce s = false ->
  vtklib W = EmptyString ->
  Py_EncodeLocale W
    (py_program_name
       (python (if py_initialized (python s) then s else SetupPythonPrefix W s)))
  = None ->
  Initialize W (S (S n)) initsigs s = Undefined
  /\ (forall script, RunSimpleString W (S (S n)) script s = Undefined).
Proof.
  intros Honce Hlib Henc.
  assert (Hinit : forall i, Initialize W (S (S n)) i s = Undefined).
  { intros i; apply Initialize_first_undefined; [exact Honce|].
    unfold first_Initialize_defined, walk_start, start_components, at_walk.
    now rewrite Hlib, Henc. }
  split; [apply Hinit|].
  intros script; unfold RunSimpleString, RunSimpleString_with, bind.
  now rewrite Hinit.
Qed.

Lemma Initialize_undefined_without_library_witness :
  Initialize a_static_world 2 0 process_start = Undefined.
Proof.
  exact (proj1 (Initialize_undefined_without_library a_static_world 0 0
                  process_start eq_refl eq_refl eq_refl)).
Defined.

Lemma SetupPythonPrefix_custom_name (W : World) (s : Process) (old : string) :
  Py_EncodeLocale W (py_program_name (python s)) = Some old ->
  old <> "python" ->
  python (SetupPythonPrefix W s) = python s.
Proof.
  intros Hold Hne; unfold SetupPythonPrefix.
  destruct (Py_GetPythonHome W); [apply sys_path_debug|].
  destruct (GetLibraryForSymbol W "Py_SetProgramName" =? EmptyString)%string;
    [apply sys_path_debug|].
  rewrite Hold.
  apply String.eqb_neq in Hne; rewrite Hne; cbn [negb].
  apply sys_path_debug.
Qed.

(** X10: SetupPythonPrefix changes nothing of the process but the program
    name of the runtime and the diagnostics; and it leaves the program name
    alone when the library of the runtime is not found, or when the name
    has been changed from python. *)
Theorem SetupPythonPrefix_keeps_custom_name (W : World) (s : Process) :
  (exists name es,
      SetupPythonPrefix W s
      = log es (set_python (set_py_program_name name (python s)) s)
      /\ forallb diagnostic es = true)
  /\ (GetLibraryForSymbol W "Py_SetProgramName" = EmptyString ->
      python (SetupPythonPrefix W s) = python s)
  /\ (forall old,
         Py_EncodeLocale W (py_program_name (python s)) = Some old ->
         old <> "python" ->
         python (SetupPythonPrefix W s) = python s).
Proof.
  assert (Hkeep : forall x,
             exists name es,
               VTKPY_DEBUG_MESSAGE x s
               = log es (set_python (set_py_program_name name (python s)) s)
               /\ forallb diagnostic es = true).
  { intros x; destruct (VTKPY_DEBUG_MESSAGE_log x s) as (es & -> & Hes).
    exists (py_program_name (python s)), es; split; trivial.
    now destruct s as [? ? ? ? ? ? ? ? ? [] ?]. }
  split; [|split].
  - unfold SetupPythonPrefix.
    destruct (Py_GetPythonHome W); [apply Hkeep|].
    destruct (GetLibraryForSymbol W "Py_SetProgramName" =? EmptyString)%string;
      [apply Hkeep|].
    match goal with
    | |- context [if ?c then _ else _] => destruct c; [apply Hkeep|]
    end.
    match goal with
    | |- context [VTKPY_DEBUG_MESSAGE ?x s] =>
        destruct (VTKPY_DEBUG_MESSAGE_log x s) as (es & -> & Hes)
    end.
    unfold Py_SetProgramName, emit; rewrite log_log.
    destruct (Py_DecodeLocale W _) as [[|c w]|].
    + exists (py_program_name (python s)), (es ++ [EvPySetProgramName (Some [])]).
      rewrite forallb_app, Hes; split; trivial.
      now destruct s as [? ? ? ? ? ? ? ? ? [] ?].
    + exists (c :: w), (es ++ [EvPySetProgramName (Some (c :: w))]).
      now rewrite forallb_app, Hes.
    + exists (py_program_name (python s)), (es ++ [EvPySetProgramName None]).
      rewrite forallb_app, Hes; split; trivial.
      now destruct s as [? ? ? ? ? ? ? ? ? [] ?].
  - intros Hlib; unfold SetupPythonPrefix.
    destruct (Py_GetPythonHome W); [apply sys_path_debug|].
    rewrite Hlib; cbn [String.eqb]; apply sys_path_debug.
  - intros old; apply SetupPythonPrefix_custom_name.
Qed.

Lemma SetupPythonPrefix_keeps_custom_name_witness :
  python (SetupPythonPrefix a_world
            (Py_SetProgramName (Some (wide "/home/user/app")) process_start))
  = python (Py_SetProgramName (Some (wide "/home/user/app")) process_start).
Proof.
  apply (proj2 (proj2 (SetupPythonPrefix_keeps_custom_name a_world
                         (Py_SetProgramName (Some (wide "/home/user/app"))
                            process_start)))
           "/home/user/app").
  - reflexivity.
  - discriminate.
Defined.

(** X11: with no PYTHONHOME, the library of the runtime found, and a
    program name that is still python (or that cannot be encoded),
    SetupPythonPrefix hands Py_SetProgramName the decoded path of vtkpython
    in the directory of that library, which becomes the program name. *)
Theorem SetupPythonPrefix_sets_name (W : World) (s : Process)
  (pythonlib : string) (c : N) (w : wstring) :
  Py_GetPythonHome W = None ->
  GetLibraryForSymbol W "Py_SetProgramName" = pythonlib ->
  pythonlib <> EmptyString ->
  (Py_EncodeLocale W (py_program_name (python s)) = Some "python"
   \/ Py_EncodeLocale W (py_program_name (python s)) = None) ->
  Py_DecodeLocale W
    (GetFilenamePath W pythonlib ^^ VTK_PATH_SEPARATOR W ^^ "vtkpython")
  = Some (c :: w) ->
  py_program_name (python (SetupPythonPrefix W s)) = c :: w
  /\ last (trace (SetupPythonPrefix W s)) EvPyFinalize
     = EvPySetProgramName (Some (c :: w)).
Proof.
  intros Hhome Hlib Hne Hold Hdec.
  unfold SetupPythonPrefix; rewrite Hhome, Hlib.
  apply String.eqb_neq in Hne; rewrite Hne.
  assert (Hcond : match Py_EncodeLocale W (py_program_name (python s)) with
                  | Some old => negb (old =? "python")%string
                  | None => false
                  end = false).
  { now destruct Hold as [-> | ->]. }
  rewrite Hcond, Hdec.
  match goal with
  | |- context [VTKPY_DEBUG_MESSAGE ?x s] =>
      destruct (VTKPY_DEBUG_MESSAGE_log x s) as (es & -> & Hes)
  end.
  unfold Py_SetProgramName, emit; split; [reflexivity|].
  simpl; apply last_last.
Qed.

Lemma SetupPythonPrefix_sets_name_witness :
  py_program_name (python (SetupPythonPrefix a_world process_start))
  = wide "/usr/lib/vtkpython".
Proof.
  refine (proj1 (SetupPythonPrefix_sets_name a_world process_start
                   "/usr/lib/libpython3.7m.so" 47%N (wide "usr/lib/vtkpython")
                   eq_refl eq_refl _ (or_introl eq_refl) eq_refl)).
  discriminate.
Defined.

(** X12: SetProgramName with a null name does nothing.  A name that
    decodes to a non-empty wide string becomes the program name of the
    runtime.  For a name that cannot be decoded the diagnostic is printed on
    stderr and the runtime is handed the empty name, which leaves its
    program name as it was. *)
Theorem SetProgramName_cases (W : World) (s : Process) :
  SetProgramName W None s = s
  /\ (forall name c w,
         Py_DecodeLocale W name = Some (c :: w) ->
         py_program_name (python (SetProgramName W (Some name) s)) = c :: w
         /\ trace (SetProgramName W (Some name) s)
            = trace s ++ [EvPySetProgramName (Some (c :: w))])
  /\ (forall name,
         Py_DecodeLocale W name = None ->
         python (SetProgramName W (Some name) s) = python s
         /\ trace (SetProgramName W (Some name) s)
            = trace s
              ++ [EvStderr ("Fatal vtkpython error: "
                            ^^ "unable to decode the program name" ^^ str1 LF);
                  EvPySetProgramName (Some [])]).
Proof.
  split; [reflexivity|split].
  - intros name c w Hdec; unfold SetProgramName; now rewrite Hdec.
  - intros name Hdec; unfold SetProgramName; rewrite Hdec.
    split; [reflexivity|].
    unfold Py_SetProgramName, emit; cbn [trace log].
    now rewrite <- app_assoc.
Qed.

Lemma SetProgramName_cases_witness :
  py_program_name (python (SetProgramName a_world (Some "/home/user/app")
                             process_start))
  = wide "/home/user/app"
  /\ python (SetProgramName a_world (Some undecodable) process_start)
     = python process_start.
Proof.
  split.
  - exact (proj1 (proj1 (proj2 (SetProgramName_cases a_world process_start))
                    "/home/user/app" 47%N (wide "home/user/app") eq_refl)).
  - exact (proj1 (proj2 (proj2 (SetProgramName_cases a_world process_start))
                    undecodable eq_refl)).
Defined.

(** X13: a program name given to SetProgramName before the first
    Initialize, which the locale can encode and which is not python, is
    still the program name of the runtime after Initialize; with such a name
    the start of the walk is always defined, so Initialize returns as soon
    as PyUnicode_FromString returns an object for every path it inserts. *)
Theorem SetProgramName_survives_Initialize (W : World) (n : nat)
  (initsigs : Z) (name back : string) (c : N) (w : wstring) (s : Process) :
  InitializedOnce s = false ->
  Py_DecodeLocale W name = Some (c :: w) ->
  Py_EncodeLocale W (c :: w) = Some back ->
  back <> "python" ->
  (forall components,
      walk_start W (SetProgramName W (Some name) s) = Some components ->
      forallb (PyUnicode_FromString W)
        (site_packages W components ++ PythonPaths s) = true) ->
  exists s',
    Initialize W (S (S n)) initsigs (SetProgramName W (Some name) s) = Ok true s'
    /\ py_program_name (python s') = c :: w.
Proof.
  intros Honce Hdec Henc Hne Hpaths.
  set (s0 := SetProgramName W (Some name) s) in *.
  assert (Hname : py_program_name (python s0) = c :: w).
  { subst s0; unfold SetProgramName; now rewrite Hdec. }
  assert (Honce' : InitializedOnce s0 = false).
  { subst s0; unfold SetProgramName; now rewrite Hdec. }
  assert (Hpp : PythonPaths s0 = PythonPaths s).
  { subst s0; unfold SetProgramName; now rewrite Hdec. }
  assert (Hwalk : py_program_name (python (at_walk W s0)) = c :: w).
  { unfold at_walk; destruct (py_initialized (python s0)); trivial.
    rewrite (SetupPythonPrefix_custom_name W s0 back); trivial.
    now rewrite Hname. }
  assert (Hstart : exists components, walk_start W s0 = Some components).
  { unfold walk_start, start_components; rewrite Hwalk, Henc.
    destruct (vtklib W =? EmptyString)%string; eauto. }
  destruct Hstart as (components & Hstart).
  pose proof (Hpaths components Hstart) as Hall; rewrite <- Hpp in Hall.
  destruct (Initialize_first W n initsigs s0 components Honce' Hstart Hall)
    as (r & es & Hrun & _ & _ & _ & _ & _ & Hprog & _).
  eexists; split; [exact Hrun|].
  cbn [python]; now rewrite Hprog.
Qed.

Lemma SetProgramName_survives_Initialize_witness :
  exists s',
    Initialize a_world 2 0
      (SetProgramName a_world (Some "/home/user/app") process_start)
    = Ok true s'
    /\ py_program_name (python s') = wide "/home/user/app".
Proof.
  refine (SetProgramName_survives_Initialize a_world 0 0 "/home/user/app"
            "/home/user/app" 47%N (wide "home/user/app") process_start
            eq_refl eq_refl eq_refl _ _).
  - discriminate.
  - intros components [= <-]; reflexivity.
Defined.

(** ** PyMain, further *)

Lemma decode_args_version (W : World) (argv : list string) (i : nat)
  (argvWide : list wstring) (s : Process) :
  (forall arg, In arg argv -> is_enable_bt arg = false ->
               Py_DecodeLocale W arg <> None) ->
  decode_args W i argv argvWide s
  = (Some (argvWide
           ++ decoded W (filter (fun arg => negb (is_enable_bt arg)) argv)),
     log (repeat (EvCout (GetVTKSourceVersion W))
            (List.length (filter (fun arg => String.eqb arg "-V") argv)))
       (set_StackTraceOnError
          (StackTraceOnError s || existsb is_enable_bt argv) s)).
Proof.
  revert i argvWide s; induction argv as [|arg argv IH]; intros i argvWide s Hall.
  - simpl; rewrite app_nil_r; f_equal.
    destruct s; fields; now rewrite orb_false_r, app_nil_r.
  - cbn [decode_args filter existsb]; fold (is_enable_bt arg).
    destruct (is_enable_bt arg) eqn:Ebt; cbn [negb].
    + assert (HV : String.eqb arg "-V" = false).
      { unfold is_enable_bt in Ebt; apply String.eqb_eq in Ebt; now subst arg. }
      rewrite HV, IH by (intros a Ha; apply Hall; now right).
      f_equal; fields; now rewrite orb_true_r.
    + destruct (Py_DecodeLocale W arg) as [wide0|] eqn:Edec;
        [|exfalso; apply (Hall arg); auto; now left].
      rewrite IH by (intros a Ha; apply Hall; now right).
      unfold decoded at 2; cbn [map]; rewrite Edec, <- app_assoc.
      f_equal.
      destruct (String.eqb arg "-V"); unfold cout; fields;
        cbn [List.length repeat]; now rewrite <- ?app_assoc.
Qed.

(** X14: when the arguments decode, and wherever the Initialize(1) it
    starts with is defined (the one-time block has run, or is defined),
    PyMain prints the VTK source version once for every -V among them, after
    the runtime is initialized and before Py_Main is called, and -V is
    handed on to Py_Main like any other argument. *)
Theorem PyMain_prints_version (W : World) (n : nat) (argv : list string)
  (s : Process) :
  (InitializedOnce s = false -> first_Initialize_defined W s = true) ->
  (forall arg, In arg argv -> is_enable_bt arg = false ->
               Py_DecodeLocale W arg <> None) ->
  exists status s' es1 es2,
    PyMain W (S (S n)) argv s = Ok status s'
    /\ trace s'
       = trace s ++ es1
         ++ repeat (EvCout (GetVTKSourceVersion W))
              (List.length (filter (fun arg => String.eqb arg "-V") argv))
         ++ EvPyMain (decoded W (filter (fun arg => negb (is_enable_bt arg)) argv))
            :: es2
    /\ filter is_main es1 = []
    /\ forallb is_output es2 = true
    /\ (forall wide0, In "-V" argv -> Py_DecodeLocale W "-V" = Some wide0 ->
        In wide0
          (decoded W (filter (fun arg => negb (is_enable_bt arg)) argv))).
Proof.
  intros Hdef Hall.
  destruct (scan_shape argv (set_PythonVerboseFlag 0 s)) as (v & Hv & _).
  unfold PyMain, bind, step; rewrite Hv.
  destruct (Initialize_general W n 1
              (set_PythonVerboseFlag v (set_PythonVerboseFlag 0 s)))
    as (r & es0 & -> & _ & Hmain0 & _);
    [now rewrite first_Initialize_defined_scan|].
  unfold call; rewrite (decode_args_version W argv 0 [] _ Hall); cbn [app].
  match goal with
  | |- context [call_Py_Main W ?args ?st] =>
      destruct (call_Py_Main_shape W args st) as (es2 & be & bo & -> & Hes2)
  end.
  eexists _, _, es0, es2.
  split; [reflexivity|].
  split; [fields; now rewrite <- !app_assoc|].
  repeat split; trivial.
  intros wide0 Hin Hdec.
  unfold decoded; apply in_map_iff; exists "-V"; rewrite Hdec; split; trivial.
  apply filter_In; split; trivial.
Qed.

Lemma PyMain_prints_version_witness :
  exists status s' es1 es2,
    PyMain a_world 2 ["vtkpython"; "-V"] process_start = Ok status s'
    /\ trace s'
       = trace process_start ++ es1
         ++ repeat (EvCout (GetVTKSourceVersion a_world))
              (List.length
                 (filter (fun arg => String.eqb arg "-V") ["vtkpython"; "-V"]))
         ++ EvPyMain
              (decoded a_world
                 (filter (fun arg => negb (is_enable_bt arg))
                    ["vtkpython"; "-V"]))
            :: es2
    /\ filter is_main es1 = []
    /\ forallb is_output es2 = true.
Proof.
  destruct (PyMain_prints_version a_world 0 ["vtkpython"; "-V"] process_start)
    as (status & s' & es1 & es2 & Hrun & Htrace & Hmain & Hout & _).
  - intros _; reflexivity.
  - intros arg [<-|[<-|[]]] H; discriminate.
  - exists status, s', es1, es2.
    split; [exact Hrun|split; [exact Htrace|split; [exact Hmain|exact Hout]]].
Defined.

(** With the streams bound and buffering off every write is displayed and
    handed to the observers at once. *)
Lemma deliver_fold_forwarding (writes : list Output) (s : Process) :
  ConsoleBuffering s = false ->
  sys_stdout (python s) = CaptureHelper false ->
  sys_stderr (python s) = CaptureHelper true ->
  fold_left deliver writes s
  = log (flat_map (forwarded (GlobalInterpreters s)) writes) s.
Proof.
  revert s; induction writes as [|w writes IH]; intros s HCB Hout Herr.
  - simpl; now rewrite log_nil.
  - cbn [fold_left flat_map].
    assert (Hw : deliver s w = log (forwarded (GlobalInterpreters s) w) s).
    { destruct w as [txt|txt]; unfold deliver, stream_write;
        rewrite ?Hout, ?Herr; unfold WriteStdOut, WriteStdErr; rewrite HCB;
        rewrite NotifyInterpreters_log; unfold emit; now rewrite log_log. }
    rewrite Hw, IH by assumption.
    now rewrite log_log.
Qed.

Lemma forwarded_delivery (v : list (option ident)) (writes : list Output) :
  forallb is_delivery (flat_map (forwarded v) writes) = true.
Proof.
  induction writes as [|[txt|txt] writes IH]; simpl; trivial;
    rewrite forallb_app, IH, forallb_notifications; trivial.
Qed.

(** X15: under PyMain nothing is accumulated.  In the supported lifecycle,
    and wherever the Initialize(1) it starts with is defined, every write of
    the program run by Py_Main is shown and handed to every live observer at
    once, one display call and one round of events per write, in the order
    of the writes; no other text is delivered, and both accumulators are
    empty and buffering is off when PyMain returns. *)
Theorem PyMain_forwards_each_write (W : World) (n : nat) (argv : list string)
  (s : Process) :
  (InitializedOnce s = false -> first_Initialize_defined W s = true) ->
  quiescent s ->
  (forall arg, In arg argv -> is_enable_bt arg = false ->
               Py_DecodeLocale W arg <> None) ->
  exists status s' es,
    PyMain W (S (S n)) argv s = Ok status s'
    /\ trace s' = trace s ++ es
    /\ filter is_delivery es
       = flat_map (forwarded (GlobalInterpreters s))
           (fst (Py_Main W
                   (decoded W
                      (filter (fun arg => negb (is_enable_bt arg)) argv))))
    /\ StdErrBuffer s' = EmptyString
    /\ StdOutBuffer s' = EmptyString
    /\ ConsoleBuffering s' = false.
Proof.
  intros Hdef [(Herrb & Houtb & Hstreams) HCB] Hall.
  destruct (scan_shape argv (set_PythonVerboseFlag 0 s)) as (v & Hv & _).
  unfold PyMain, bind, step; rewrite Hv.
  set (s0 := set_PythonVerboseFlag v (set_PythonVerboseFlag 0 s)).
  assert (Hinit : exists r es0,
             Initialize W (S (S n)) 1 s0
             = Ok (negb (InitializedOnce s))
                 (mkProcess true (CaptureStdin s) false EmptyString EmptyString
                    v (GlobalInterpreters s) (PythonPaths s)
                    (StackTraceOnError s) r (trace s ++ es0))
             /\ py_initialized r = true
             /\ sys_stdout r = CaptureHelper false
             /\ sys_stderr r = CaptureHelper true
             /\ filter is_delivery es0 = []).
  { destruct (InitializedOnce s) eqn:Honce.
    - destruct Hstreams as (Hpy & Hout & Herr).
      exists (python s), []; rewrite (Initialize_again W (S n) 1 s0 Honce Hpy).
      repeat split; trivial.
      subst s0; destruct s as [? ? ? ? ? ? ? ? ? [] ?]; simpl in *; subst.
      now rewrite app_nil_r.
    - destruct (first_Initialize_defined_components W s0) as (components & Hstart & Hdec).
      { subst s0; rewrite first_Initialize_defined_scan; now apply Hdef. }
      destruct (Initialize_first W n 1 s0 components Honce Hstart Hdec)
        as (r & es0 & Hrun & Hpy & Hout & Herr & _ & _ & _ & _ & _ & _ & Hquiet & _).
      exists r, es0; rewrite Hrun.
      repeat split; trivial.
      now apply Hquiet. }
  destruct Hinit as (r & es0 & -> & Hpy & Hout & Herr & Hquiet).
  unfold call; rewrite (decode_args_version W argv 0 [] _ Hall); cbn [app].
  unfold call_Py_Main.
  destruct (Py_Main W (decoded W (filter (fun arg => negb (is_enable_bt arg)) argv)))
    as [writes status] eqn:Hmain.
  rewrite deliver_fold_forwarding
    by first [reflexivity | exact Hout | exact Herr].
  eexists _, _, (es0 ++ repeat (EvCout (GetVTKSourceVersion W)) _
                   ++ EvPyMain _ :: flat_map (forwarded (GlobalInterpreters s)) writes).
  split; [reflexivity|].
  split; [fields; now rewrite <- !app_assoc|].
  split.
  - rewrite !filter_app, Hquiet; cbn [filter is_delivery app fst].
    rewrite (filter_none is_delivery diagnostic (repeat _ _)).
    + now rewrite filter_all by apply forwarded_delivery.
    + auto 6 using diagnostic_not.
    + clear; induction (List.length _); simpl; trivial.
  - repeat split; trivial.
Qed.

Lemma PyMain_forwards_each_write_witness :
  exists status s' es,
    PyMain a_chatty_world 2 ["vtkpython"; "script.py"]
      (vtkPythonInterpreter_ctor 7%N process_start) = Ok status s'
    /\ trace s' = trace (vtkPythonInterpreter_ctor 7%N process_start) ++ es
    /\ filter is_delivery es
       = [EvDisplayText "1"; EvInvoke 7%N SetOutputEvent (Text "1");
          EvDisplayText "2"; EvInvoke 7%N SetOutputEvent (Text "2");
          EvDisplayErrorText "e"; EvInvoke 7%N ErrorEvent (Text "e")].
Proof.
  destruct (PyMain_forwards_each_write a_chatty_world 0 ["vtkpython"; "script.py"]
              (vtkPythonInterpreter_ctor 7%N process_start))
    as (status & s' & es & Hrun & Htrace & Hes & _).
  - intros _; reflexivity.
  - repeat split; discriminate.
  - intros arg [<-|[<-|[]]] H; discriminate.
  - exists status, s', es.
    split; [exact Hrun|split; [exact Htrace|exact Hes]].
Defined.

(** ** ReadStdin *)

Lemma ReadStdin_fold (handler : ident -> string -> string)
  (v : list (option ident)) (text : string) (s : Process) :
  fold_left
    (fun acc iter =>
       match iter with
       | Some p =>
           (handler p (fst acc),
            emit (EvInvoke p UpdateEvent (Text (fst acc))) (snd acc))
       | None => acc
       end) v (text, s)
  = (fold_left (fun t p => handler p t) (live v) text,
     log (update_events handler (live v) text) s).
Proof.
  revert text s; induction v as [|[p|] v IH]; intros text s; simpl.
  - now rewrite log_nil.
  - rewrite IH; unfold emit; now rewrite log_log.
  - apply IH.
Qed.

Lemma update_events_observers (handler : ident -> string -> string)
  (ps : list ident) (text : string) :
  map (fun e => match e with
                | EvInvoke p UpdateEvent _ => Some p
                | _ => None
                end) (update_events handler ps text)
  = map Some ps.
Proof.
  revert text; induction ps as [|p ps IH]; intros text; simpl; trivial.
  now rewrite IH.
Qed.

(** X16: with stdin capture off ReadStdin returns the token read from cin
    and invokes no observer.  With capture on it invokes UpdateEvent once on
    every live observer, in the order of the registry, each one finding in
    the string what the ones before it left there, and returns what the
    last one leaves; with no live observer it returns the empty string. *)
Theorem ReadStdin_capture (cin : string) (handler : ident -> string -> string)
  (s : Process) :
  (forall val, GetCaptureStdin (SetCaptureStdin val s) = val)
  /\ (CaptureStdin s = false -> ReadStdin cin handler s = (cin, s))
  /\ (CaptureStdin s = true ->
      ReadStdin cin handler s
      = (fold_left (fun t p => handler p t) (live (GlobalInterpreters s))
           EmptyString,
         log (update_events handler (live (GlobalInterpreters s)) EmptyString) s)
      /\ map (fun e => match e with
                       | EvInvoke p UpdateEvent _ => Some p
                       | _ => None
                       end)
           (update_events handler (live (GlobalInterpreters s)) EmptyString)
         = map Some (live (GlobalInterpreters s))
      /\ (live (GlobalInterpreters s) = [] ->
          ReadStdin cin handler s = (EmptyString, s))).
Proof.
  split; [reflexivity|split].
  - intros Hoff; unfold ReadStdin; now rewrite Hoff.
  - intros Hon; unfold ReadStdin; rewrite Hon; cbn [negb].
    rewrite ReadStdin_fold.
    split; [reflexivity|split; [apply update_events_observers|]].
    intros ->; simpl; now rewrite log_nil.
Qed.

Lemma ReadStdin_capture_witness :
  ReadStdin "typed" (fun p text => text ^^ "!")
    (vtkPythonInterpreter_ctor 7%N process_start)
  = ("typed", vtkPythonInterpreter_ctor 7%N process_start)
  /\ fst (ReadStdin "typed" (fun p text => text ^^ "!")
            (SetCaptureStdin true
               (vtkPythonInterpreter_ctor 8%N
                  (vtkPythonInterpreter_ctor 7%N process_start))))
     = "!!".
Proof.
  split.
  - exact (proj1 (proj2 (ReadStdin_capture "typed" (fun p text => text ^^ "!")
                           (vtkPythonInterpreter_ctor 7%N process_start)))
             eq_refl).
  - rewrite (proj1 (proj2 (proj2 (ReadStdin_capture "typed"
                                    (fun p text => text ^^ "!")
                                    (SetCaptureStdin true
                                       (vtkPythonInterpreter_ctor 8%N
                                          (vtkPythonInterpreter_ctor 7%N
                                             process_start)))))
                      eq_refl)).
    reflexivity.
Defined.

(** ** Sequences of calls

    Over a sequence of calls the first Initialize can come at any point.  It
    is defined at every point when the start of the walk is defined whatever
    the program name, every directory of the file system has a name
    PyUnicode_FromString accepts, and so has every directory registered. *)

Lemma start_components_defined (W : World) (s : Process) :
  prefix_defined W -> exists components, start_components W s = Some components.
Proof.
  intros [Hlib|Henc]; unfold start_components.
  - apply String.eqb_neq in Hlib; rewrite Hlib; eauto.
  - destruct (vtklib W =? EmptyString)%string; eauto.
    destruct (Py_EncodeLocale W (py_program_name (python s))) eqn:E; eauto.
    now apply Henc in E.
Qed.

Lemma a_world_prefix_defined : prefix_defined a_world.
Proof. left; discriminate. Qed.

Lemma a_world_directories_decode : directories_decode a_world.
Proof.
  intros path H; apply String.eqb_eq in H; subst path; reflexivity.
Qed.

Lemma site_packages_directories (W : World) (components : list string) :
  forallb (FileIsDirectory W) (site_packages W components) = true.
Proof.
  unfold site_packages.
  destruct (find (probe W) (candidates components)) as [candidate|]; trivial.
  destruct (FileIsDirectory W (pathtocheck W candidate)) eqn:Hdir; trivial.
  cbn [forallb]; now rewrite Hdir.
Qed.

Lemma first_Initialize_defined_world (W : World) (s : Process) :
  prefix_defined W ->
  directories_decode W ->
  forallb (PyUnicode_FromString W) (PythonPaths s) = true ->
  first_Initialize_defined W s = true.
Proof.
  intros Hdef Hdirs Hpp; unfold first_Initialize_defined, walk_start.
  destruct (start_components_defined W (at_walk W s) Hdef) as (components & ->).
  rewrite forallb_app, Hpp, andb_true_r.
  apply forallb_forall; intros path Hin; apply Hdirs.
  pose proof (site_packages_directories W components) as Hall.
  rewrite forallb_forall in Hall; now apply Hall.
Qed.

Lemma decode_args_shape (W : World) (argv : list string) (i : nat)
  (argvWide : list wstring) (s : Process) :
  exists o es ste,
    decode_args W i argv argvWide s = (o, log es (set_StackTraceOnError ste s)).
Proof.
  revert i argvWide s; induction argv as [|arg argv IH]; intros i argvWide s.
  - exists (Some argvWide), [], (StackTraceOnError s); simpl; f_equal.
    destruct s; fields; now rewrite app_nil_r.
  - cbn [decode_args].
    destruct (String.eqb arg "--enable-bt").
    + destruct (IH (S i) argvWide (set_StackTraceOnError true s))
        as (o & es & ste & ->).
      now exists o, es, ste.
    + destruct (cout_if_log (String.eqb arg "-V") (GetVTKSourceVersion W) s)
        as (es1 & -> & _).
      destruct (Py_DecodeLocale W arg) as [wide0|].
      * destruct (IH (S i) (argvWide ++ [wide0]) (log es1 s))
          as (o & es & ste & ->).
        exists o, (es1 ++ es), ste; f_equal; fields; now rewrite app_assoc.
      * eexists None, (es1 ++ [_]), (StackTraceOnError s); f_equal.
        unfold emit; rewrite log_log; now destruct s.
Qed.

Lemma WriteStdOut_shape (txt : string) (s : Process) :
  exists es be bo,
    WriteStdOut txt s = set_StdOutBuffer bo (set_StdErrBuffer be (log es s)).
Proof.
  unfold WriteStdOut; destruct (ConsoleBuffering s).
  - exists [], (StdErrBuffer s), (StdOutBuffer s ^^ txt); by_fields s.
  - rewrite NotifyInterpreters_log; unfold emit; rewrite log_log.
    eexists _, (StdErrBuffer s), (StdOutBuffer s); now destruct s.
Qed.

Lemma WriteStdErr_shape (txt : string) (s : Process) :
  exists es be bo,
    WriteStdErr txt s = set_StdOutBuffer bo (set_StdErrBuffer be (log es s)).
Proof.
  unfold WriteStdErr; destruct (ConsoleBuffering s).
  - exists [], (StdErrBuffer s ^^ txt), (StdOutBuffer s); by_fields s.
  - rewrite NotifyInterpreters_log; unfold emit; rewrite log_log.
    eexists _, (StdErrBuffer s), (StdOutBuffer s); now destruct s.
Qed.

Lemma Initialize_frame (W : World) (n : nat) (initsigs : Z) (s : Process) :
  (InitializedOnce s = false -> first_Initialize_defined W s = true) ->
  exists s',
    Initialize W (S (S n)) initsigs s = Ok (negb (InitializedOnce s)) s'
    /\ PythonPaths s' = PythonPaths s
    /\ GlobalInterpreters s' = GlobalInterpreters s
    /\ InitializedOnce s' = true.
Proof.
  intros Hdef.
  destruct (Initialize_general W n initsigs s Hdef) as (r & es & -> & _).
  eexists; split; [reflexivity|]; now repeat split.
Qed.

Lemma RunSimpleString_frame (W : World) (n : nat) (script : option string)
  (s : Process) :
  (InitializedOnce s = false -> first_Initialize_defined W s = true) ->
  exists status s',
    RunSimpleString W (S (S n)) script s = Ok status s'
    /\ PythonPaths s' = PythonPaths s
    /\ GlobalInterpreters s' = GlobalInterpreters s
    /\ InitializedOnce s' = true.
Proof.
  intros Hdef; unfold RunSimpleString.
  destruct (Initialize_general W n 1 s Hdef) as (r & es0 & Hinit & _).
  rewrite (RunSimpleString_with_run _ W script s _ _ Hinit).
  match goal with
  | |- context [snd (run_script W ?b ?st)] =>
      destruct (run_script_general W b st) as (es & -> & _)
  end.
  eexists _, _; split; [reflexivity|]; now repeat split.
Qed.

Lemma PyMain_frame (W : World) (n : nat) (argv : list string) (s : Process) :
  (InitializedOnce s = false -> first_Initialize_defined W s = true) ->
  exists status s',
    PyMain W (S (S n)) argv s = Ok status s'
    /\ PythonPaths s' = PythonPaths s
    /\ GlobalInterpreters s' = GlobalInterpreters s
    /\ InitializedOnce s' = true.
Proof.
  intros Hdef.
  destruct (scan_shape argv (set_PythonVerboseFlag 0 s)) as (v & Hv & _).
  unfold PyMain, bind, step; rewrite Hv.
  destruct (Initialize_general W n 1
              (set_PythonVerboseFlag v (set_PythonVerboseFlag 0 s)))
    as (r & es0 & -> & _);
    [now rewrite first_Initialize_defined_scan|].
  unfold call.
  match goal with
  | |- context [decode_args W 0 argv [] ?st] =>
      destruct (decode_args_shape W argv 0 [] st) as (o & es1 & ste & ->)
  end.
  destruct o as [args|].
  - match goal with
    | |- context [call_Py_Main W args ?st] =>
        destruct (call_Py_Main_shape W args st) as (es2 & be & bo & -> & _)
    end.
    eexists _, _; split; [reflexivity|]; now repeat split.
  - eexists _, _; split; [reflexivity|]; now repeat split.
Qed.

(** One call: it returns, and what it does to the statics. *)
Lemma run_call_frame (W : World) (n : nat) (c : Call) (s : Process) :
  prefix_defined W ->
  directories_decode W ->
  forallb (PyUnicode_FromString W) (PythonPaths s ++ registered W [c]) = true ->
  exists a s',
    run_call W (S (S n)) c s = Ok a s'
    /\ PythonPaths s' = PythonPaths s ++ registered W [c]
    /\ GlobalInterpreters s'
       = match c with
         | CallNew this => GlobalInterpreters s ++ [Some this]
         | CallDelete this => expire this (erase_first this (GlobalInterpreters s))
         | _ => GlobalInterpreters s
         end
    /\ (InitializedOnce s = true -> InitializedOnce s' = true)
    /\ (answered_true a = true ->
        InitializedOnce s = false /\ InitializedOnce s' = true).
Proof.
  intros Hdef Hdirs Hpaths.
  rewrite forallb_app in Hpaths; apply andb_prop in Hpaths.
  destruct Hpaths as [Hpp Hreg].
  pose proof (fun _ : InitializedOnce s = false =>
                first_Initialize_defined_world W s Hdef Hdirs Hpp) as Hinit.
  destruct c; cbn [run_call registered flat_map app]; unfold bind, step, ret;
    rewrite ?app_nil_r.
  - destruct (Initialize_frame W n initsigs s Hinit) as (s' & -> & Hpp' & Hgi & Ho).
    eexists _, _; split; [reflexivity|].
    repeat split; trivial.
    destruct (InitializedOnce s); [discriminate|trivial].
  - rewrite Finalize_shape.
    eexists _, _; split; [reflexivity|].
    destruct (py_initialized (python s)); repeat split; trivial; discriminate.
  - eexists _, _; split; [reflexivity|].
    destruct programname as [name|]; cbn [SetProgramName];
      [destruct (Py_DecodeLocale W name) as [[|c w]|]|];
      repeat split; trivial; discriminate.
  - destruct dir as [d|].
    + destruct (PrependPythonPath_shape W d s) as (s' & -> & Hins & _).
      { intros _; cbn [registered flat_map app forallb] in Hreg.
        now apply andb_prop in Hreg. }
      destruct (inserts_statics _ _ _ Hins) as (_ & Hpp' & Hgi & Ho).
      eexists _, _; split; [reflexivity|].
      repeat split; trivial; try discriminate.
      now rewrite Ho.
    + cbn [PrependPythonPath ret]; rewrite app_nil_r.
      eexists _, _; split; [reflexivity|].
      repeat split; trivial; discriminate.
  - destruct (PyMain_frame W n argv s Hinit) as (z & s' & -> & Hpp' & Hgi & Ho).
    eexists _, _; split; [reflexivity|].
    repeat split; trivial; discriminate.
  - destruct (RunSimpleString_frame W n script s Hinit)
      as (z & s' & -> & Hpp' & Hgi & Ho).
    eexists _, _; split; [reflexivity|].
    repeat split; trivial; discriminate.
  - eexists _, _; split; [reflexivity|].
    repeat split; trivial; discriminate.
  - destruct (WriteStdOut_shape txt s) as (es & be & bo & ->).
    eexists _, _; split; [reflexivity|].
    repeat split; trivial; discriminate.
  - destruct (WriteStdErr_shape txt s) as (es & be & bo & ->).
    eexists _, _; split; [reflexivity|].
    repeat split; trivial; discriminate.
  - eexists _, _; split; [reflexivity|].
    repeat split; trivial; discriminate.
  - eexists _, _; split; [reflexivity|].
    repeat split; trivial; discriminate.
Qed.

Lemma registered_cons (W : World) (c : Call) (cs : list Call) :
  registered W (c :: cs) = registered W [c] ++ registered W cs.
Proof. unfold registered; simpl; now rewrite app_nil_r. Qed.

(** The paths to decode, one call further. *)
Lemma paths_decode_step (W : World) (c : Call) (cs : list Call)
  (s s1 : Process) :
  forallb (PyUnicode_FromString W) (PythonPaths s ++ registered W (c :: cs))
  = true ->
  PythonPaths s1 = PythonPaths s ++ registered W [c] ->
  forallb (PyUnicode_FromString W) (PythonPaths s ++ registered W [c]) = true
  /\ forallb (PyUnicode_FromString W) (PythonPaths s1 ++ registered W cs) = true.
Proof.
  intros Hall Hpp; rewrite registered_cons, app_assoc in Hall.
  rewrite Hpp; split; trivial.
  rewrite forallb_app in Hall; now apply andb_prop in Hall.
Qed.



(** X18: PythonPaths is the record of the registrations: after any
    sequence of calls it is what it was, followed by the directories of the
    PrependPythonPath calls with a non-null argument, as stored and in call
    order.  No call removes or reorders an entry, Finalize included.  The
    sequence returns under the conditions of X17. *)
Theorem PythonPaths_history (W : World) (n : nat) (cs : list Call)
  (s : Process) :
  prefix_defined W ->
  directories_decode W ->
  forallb (PyUnicode_FromString W) (PythonPaths s ++ registered W cs) = true ->
  exists answers s',
    run_calls W (S (S n)) cs s = Ok answers s'
    /\ PythonPaths s' = PythonPaths s ++ registered W cs.
Proof.
  intros Hdef Hdirs; revert s; induction cs as [|c cs IH]; intros s Hpaths.
  - exists [], s; split; trivial.
    unfold registered; simpl; now rewrite app_nil_r.
  - destruct (run_call_frame W n c s Hdef Hdirs) as (a & s1 & Hc & Hpp & _).
    { rewrite registered_cons, app_assoc, forallb_app in Hpaths.
      now apply andb_prop in Hpaths. }
    destruct (IH s1 (proj2 (paths_decode_step W c cs s s1 Hpaths Hpp)))
      as (answers & s' & Hcs & Hpp').
    exists (a :: answers), s'.
    cbn [run_calls]; unfold bind; rewrite Hc, Hcs.
    split; [reflexivity|].
    now rewrite registered_cons, Hpp', Hpp, app_assoc.
Qed.

Lemma PythonPaths_history_witness :
  exists answers s',
    run_calls a_world 2
      [CallPrependPythonPath (Some "/a"); CallInitialize 0;
       CallPrependPythonPath None; CallFinalize;
       CallPrependPythonPath (Some "/b")] process_start
    = Ok answers s'
    /\ PythonPaths s' = ["/a"; "/b"].
Proof.
  exact (PythonPaths_history a_world 0
           [CallPrependPythonPath (Some "/a"); CallInitialize 0;
            CallPrependPythonPath None; CallFinalize;
            CallPrependPythonPath (Some "/b")] process_start
           a_world_prefix_defined a_world_directories_decode eq_refl).
Defined.

Lemma Initialize_quiescent (W : World) (n : nat) (initsigs : Z) (s : Process) :
  (InitializedOnce s = false -> first_Initialize_defined W s = true) ->
  quiescent s ->
  exists b s',
    Initialize W (S (S n)) initsigs s = Ok b s'
    /\ quiescent s'
    /\ InitializedOnce s' = true
    /\ PythonPaths s' = PythonPaths s.
Proof.
  intros Hdef [Hok HCB].
  destruct (InitializedOnce s) eqn:Honce.
  - exists false, s.
    pose proof Hok as (_ & _ & Hrest); rewrite Honce in Hrest.
    rewrite Initialize_again by tauto.
    repeat split; trivial; apply Hok.
  - destruct (first_Initialize_defined_components W s (Hdef eq_refl))
      as (components & Hstart & Hdec).
    destruct (Initialize_first W n initsigs s components Honce Hstart Hdec)
      as (r & es & -> & Hpy & Hout & Herr & _).
    eexists _, _; split; [reflexivity|].
    now repeat split.
Qed.

Lemma RunSimpleString_quiescent (W : World) (n : nat) (script : option string)
  (s : Process) :
  (InitializedOnce s = false -> first_Initialize_defined W s = true) ->
  quiescent s ->
  exists status s', RunSimpleString W (S (S n)) script s = Ok status s'
                    /\ quiescent s'
                    /\ PythonPaths s' = PythonPaths s.
Proof.
  intros Hdef Hq.
  destruct (Initialize_quiescent W n 1 s Hdef Hq)
    as (b & s1 & Hinit & [(Herrb & Houtb & Hstreams) HCB] & Honce & Hpp).
  rewrite Honce in Hstreams; destruct Hstreams as (Hpy & Hout & Herr).
  unfold RunSimpleString.
  rewrite (RunSimpleString_with_run _ W script s s1 b Hinit).
  match goal with
  | |- context [snd (run_script W ?buffer s1)] =>
      destruct (run_script_general W buffer s1) as (es & -> & _)
  end.
  eexists _, _; split; [reflexivity|].
  repeat split; trivial.
  cbn [InitializedOnce after_run python]; rewrite Honce; auto.
Qed.

Lemma run_call_quiescent (W : World) (n : nat) (c : Call) (s : Process) :
  prefix_defined W ->
  directories_decode W ->
  forallb (PyUnicode_FromString W) (PythonPaths s ++ registered W [c]) = true ->
  quiescent s ->
  is_finalize c = false ->
  exists a s',
    run_call W (S (S n)) c s = Ok a s'
    /\ quiescent s'
    /\ PythonPaths s' = PythonPaths s ++ registered W [c].
Proof.
  intros Hdef Hdirs Hpaths Hq Hfin.
  rewrite forallb_app in Hpaths; apply andb_prop in Hpaths.
  destruct Hpaths as [Hpp Hreg].
  pose proof (fun _ : InitializedOnce s = false =>
                first_Initialize_defined_world W s Hdef Hdirs Hpp) as Hinit.
  destruct c; try discriminate; cbn [run_call registered flat_map app];
    unfold bind, step, ret; rewrite ?app_nil_r.
  - destruct (Initialize_quiescent W n initsigs s Hinit Hq)
      as (b & s' & -> & Hq' & _ & Hpp').
    eauto.
  - eexists _, _; split; [reflexivity|].
    destruct programname as [name|]; cbn [SetProgramName]; [|now split].
    destruct (Py_DecodeLocale W name) as [[|c w]|]; now split.
  - destruct dir as [d|].
    + destruct (PrependPythonPath_shape W d s) as (s' & -> & Hins & _).
      { intros _; cbn [registered flat_map app forallb] in Hreg.
        now apply andb_prop in Hreg. }
      destruct (inserts_statics _ _ _ Hins) as (_ & Hpp' & _).
      eexists _, _; split; [reflexivity|split; [|exact Hpp']].
      destruct Hins as (es & -> & _); exact Hq.
    + cbn [PrependPythonPath ret]; rewrite app_nil_r.
      eexists _, _; split; [reflexivity|now split].
  - destruct (RunSimpleString_quiescent W n script s Hinit Hq)
      as (z & s' & -> & Hq' & Hpp').
    eauto.
  - eexists _, _; split; [reflexivity|now split].
  - eexists _, _; split; [reflexivity|].
    unfold WriteStdOut; rewrite (proj2 Hq), NotifyInterpreters_log; now split.
  - eexists _, _; split; [reflexivity|].
    unfold WriteStdErr; rewrite (proj2 Hq), NotifyInterpreters_log; now split.
  - eexists _, _; split; [reflexivity|now split].
  - eexists _, _; split; [reflexivity|now split].
Qed.

(** X19: as long as neither Finalize nor PyMain is called (Py_Main shuts
    the runtime down before it returns), every call of the class leaves the
    process in the supported lifecycle: between calls buffering is off, both
    accumulators are empty, and the streams are bound to the capture helpers
    from the first initialization on.  This holds from the start of the
    process.  The sequence returns under the conditions of X17. *)
Theorem quiescent_between_calls (W : World) (n : nat) (cs : list Call)
  (s : Process) :
  prefix_defined W ->
  directories_decode W ->
  forallb (PyUnicode_FromString W) (PythonPaths s ++ registered W cs) = true ->
  quiescent s ->
  existsb is_finalize cs = false ->
  exists answers s',
    run_calls W (S (S n)) cs s = Ok answers s' /\ quiescent s'.
Proof.
  intros Hdef Hdirs; revert s; induction cs as [|c cs IH];
    intros s Hpaths Hq Hfin.
  - now exists [], s.
  - cbn [existsb] in Hfin; apply orb_false_elim in Hfin; destruct Hfin as [Hc Hcs].
    destruct (run_call_quiescent W n c s Hdef Hdirs) as (a & s1 & Hrun & Hq1 & Hpp);
      trivial.
    { rewrite registered_cons, app_assoc, forallb_app in Hpaths.
      now apply andb_prop in Hpaths. }
    destruct (IH s1 (proj2 (paths_decode_step W c cs s s1 Hpaths Hpp)) Hq1 Hcs)
      as (answers & s' & Hruns & Hq').
    exists (a :: answers), s'.
    cbn [run_calls]; unfold bind; now rewrite Hrun, Hruns.
Qed.

Lemma quiescent_start : quiescent process_start.
Proof. repeat split; discriminate. Qed.

Lemma quiescent_between_calls_witness :
  exists answers s',
    run_calls a_world 2
      [CallNew 7%N; CallPrependPythonPath (Some "/a");
       CallRunSimpleString (Some "print('x')"); CallWriteStdErr "late";
       CallPrependPythonPath (Some "/b"); CallInitialize 0;
       CallRunSimpleString (Some "raise"); CallDelete 7%N] process_start
    = Ok answers s'
    /\ quiescent s'.
Proof.
  exact (quiescent_between_calls a_world 0
           [CallNew 7%N; CallPrependPythonPath (Some "/a");
            CallRunSimpleString (Some "print('x')"); CallWriteStdErr "late";
            CallPrependPythonPath (Some "/b"); CallInitialize 0;
            CallRunSimpleString (Some "raise"); CallDelete 7%N]
           process_start a_world_prefix_defined a_world_directories_decode
           eq_refl quiescent_start eq_refl).
Defined.

(** ** The registry over a sequence of calls *)

Lemma remove_absent (this : ident) (l : list ident) :
  ~ In this l -> remove N.eq_dec this l = l.
Proof.
  induction l as [|a l IH]; simpl; intros Hnot; trivial.
  destruct (N.eq_dec this a) as [->|Hne]; [tauto|].
  rewrite IH; tauto.
Qed.

Lemma expire_map_Some (this : ident) (l : list ident) :
  ~ In this l -> expire this (map Some l) = map Some l.
Proof.
  intros Hnot; apply expire_absent.
  rewrite in_map_iff; intros (p & [= ->] & Hin); tauto.
Qed.

Lemma dtor_registry (this : ident) (l : list ident) :
  NoDup l ->
  expire this (erase_first this (map Some l))
  = map Some (remove N.eq_dec this l).
Proof.
  induction l as [|a l IH]; intros Hnd; trivial.
  inversion Hnd as [|? ? Hnot Hnd']; subst.
  cbn [map erase_first weak_is remove].
  destruct (N.eq_dec this a) as [->|Hne].
  - rewrite N.eqb_refl, remove_absent by assumption.
    now apply expire_map_Some.
  - assert (E : N.eqb a this = false) by (apply N.eqb_neq; congruence).
    rewrite E; cbn [expire map weak_is]; rewrite E.
    fold (expire this (erase_first this (map Some l))).
    now rewrite IH.
Qed.

Lemma NoDup_remove_all (this : ident) (l : list ident) :
  NoDup l -> NoDup (remove N.eq_dec this l).
Proof.
  induction l as [|a l IH]; intros Hnd; simpl; trivial.
  inversion Hnd as [|? ? Hnot Hnd']; subst.
  destruct (N.eq_dec this a); auto.
  constructor; auto.
  intros Hin; apply in_remove in Hin; tauto.
Qed.

Lemma NoDup_snoc (this : ident) (l : list ident) :
  NoDup l -> ~ In this l -> NoDup (l ++ [this]).
Proof.
  intros Hnd Hnot; induction l as [|a l IH]; simpl.
  - constructor; [tauto|constructor].
  - inversion Hnd as [|? ? Ha Hnd']; subst.
    constructor.
    + rewrite in_app_iff; simpl; intros [H|[H|[]]]; [tauto|].
      subst; apply Hnot; now left.
    + apply IH; trivial; intros H; apply Hnot; now right.
Qed.

(** X20: when no instance is constructed at the address of one that is
    alive, the registry holds, after any sequence of calls, exactly the
    instances constructed and not yet destroyed, each once and in the order
    of construction, and never a null entry; a notification then invokes
    exactly those instances.  The sequence returns under the conditions of
    X17. *)
Theorem registry_is_alive (W : World) (n : nat) (cs : list Call)
  (l : list ident) (s : Process) :
  prefix_defined W ->
  directories_decode W ->
  forallb (PyUnicode_FromString W) (PythonPaths s ++ registered W cs) = true ->
  GlobalInterpreters s = map Some l ->
  NoDup l ->
  constructs_fresh cs l ->
  exists answers s',
    run_calls W (S (S n)) cs s = Ok answers s'
    /\ GlobalInterpreters s' = map Some (alive_after cs l)
    /\ NoDup (alive_after cs l)
    /\ forall eventid calldata,
         NotifyInterpreters eventid calldata s'
         = log (map (fun p => EvInvoke p eventid calldata) (alive_after cs l)) s'.
Proof.
  intros Hdef Hdirs; revert l s; induction cs as [|c cs IH];
    intros l s Hpaths Hgi Hnd Hfresh.
  - exists [], s; repeat split; trivial.
    intros e d; rewrite NotifyInterpreters_log; unfold notifications.
    rewrite Hgi; cbn [alive_after fold_left]; f_equal; f_equal.
    clear; induction l as [|a l IH]; simpl; now rewrite ?IH.
  - destruct Hfresh as [Hc Hfresh].
    destruct (run_call_frame W n c s Hdef Hdirs)
      as (a & s1 & Hrun & Hpp & Hgi1 & _).
    { rewrite registered_cons, app_assoc, forallb_app in Hpaths.
      now apply andb_prop in Hpaths. }
    assert (Hstep : GlobalInterpreters s1 = map Some (alive_step l c)
                    /\ NoDup (alive_step l c)).
    { rewrite Hgi1, Hgi; destruct c; cbn [alive_step]; auto.
      - rewrite map_app; split; trivial; now apply NoDup_snoc.
      - split; [now apply dtor_registry|now apply NoDup_remove_all]. }
    destruct Hstep as [Hgi' Hnd'].
    destruct (IH (alive_step l c) s1
                (proj2 (paths_decode_step W c cs s s1 Hpaths Hpp))
                Hgi' Hnd' Hfresh)
      as (answers & s' & Hruns & Hres).
    exists (a :: answers), s'.
    cbn [run_calls]; unfold bind; rewrite Hrun, Hruns.
    split; [reflexivity|exact Hres].
Qed.

Lemma registry_is_alive_witness :
  exists answers s',
    run_calls a_world 2
      [CallNew 1%N; CallNew 2%N; CallInitialize 0; CallDelete 1%N;
       CallNew 3%N; CallNew 1%N] process_start
    = Ok answers s'
    /\ GlobalInterpreters s' = [Some 2%N; Some 3%N; Some 1%N].
Proof.
  destruct (registry_is_alive a_world 0
              [CallNew 1%N; CallNew 2%N; CallInitialize 0; CallDelete 1%N;
               CallNew 3%N; CallNew 1%N] [] process_start
              a_world_prefix_defined a_world_directories_decode eq_refl
              eq_refl (NoDup_nil _))
    as (answers & s' & Hrun & Hgi & _).
  - cbv; intuition discriminate.
  - exists answers, s'; split; [exact Hrun|exact Hgi].
Defined.

(** ** Diagnostics on cout *)

Lemma filter_absent (x : string) (argv : list string) :
  ~ In x argv -> filter (String.eqb x) argv = [].
Proof.
  induction argv as [|a argv IH]; intros Hnot; simpl; trivial.
  destruct (String.eqb_spec x a) as [->|_].
  - exfalso; apply Hnot; now left.
  - apply IH; intros Hin; apply Hnot; now right.
Qed.

Lemma decode_args_quiet (W : World) (argv : list string) (i : nat)
  (argvWide : list wstring) (s : Process) :
  ~ In "-V" argv ->
  extends silent s (snd (decode_args W i argv argvWide s))
  /\ PythonVerboseFlag (snd (decode_args W i argv argvWide s))
     = PythonVerboseFlag s.
Proof.
  revert i argvWide s; induction argv as [|arg argv IH];
    intros i argvWide s Hnot.
  - split; [apply extends_refl|reflexivity].
  - assert (Hrest : ~ In "-V" argv) by (intros Hin; apply Hnot; now right).
    assert (HV : String.eqb arg "-V" = false).
    { apply String.eqb_neq; intros ->; apply Hnot; now left. }
    cbn [decode_args]; rewrite HV.
    destruct (String.eqb arg "--enable-bt").
    + exact (IH (S i) argvWide (set_StackTraceOnError true s) Hrest).
    + destruct (Py_DecodeLocale W arg) as [wide0|].
      * now apply IH.
      * split; [|reflexivity].
        now eexists [_].
Qed.

Lemma run_script_plain (W : World) (buffer : string) (s : Process) :
  extends plain s (snd (run_script W buffer s)).
Proof.
  destruct (run_script_general W buffer s) as (es & -> & Hes).
  exists (EvPyRunSimpleString buffer :: es); split; trivial.
  cbn [forallb plain silent no_startup is_cout is_startup negb andb].
  apply (forallb_weaken is_output plain); [exact output_plain|exact Hes].
Qed.

(** X21: at verbosity zero Initialize and RunSimpleString, wherever they
    are defined (the one-time block has run, or is defined), print nothing
    on cout and leave the verbosity as it is.  PyMain takes the verbosity
    from its arguments alone: when none of them is -v, -vv or -V it prints
    nothing on cout and leaves the verbosity at zero, whatever it was
    before. *)
Theorem silent_at_verbosity_zero (W : World) (n : nat) (s : Process) :
  (InitializedOnce s = false -> first_Initialize_defined W s = true) ->
  (PythonVerboseFlag s <= 0 ->
   (forall initsigs,
       exists b s',
         Initialize W (S (S n)) initsigs s = Ok b s'
         /\ extends silent s s'
         /\ PythonVerboseFlag s' = PythonVerboseFlag s)
   /\ (forall script,
          exists status s',
            RunSimpleString W (S (S n)) script s = Ok status s'
            /\ extends silent s s'
            /\ PythonVerboseFlag s' = PythonVerboseFlag s))
  /\ (forall argv,
         ~ In "-v" argv -> ~ In "-vv" argv -> ~ In "-V" argv ->
         exists status s',
           PyMain W (S (S n)) argv s = Ok status s'
           /\ extends silent s s'
           /\ PythonVerboseFlag s' = 0).
Proof.
  intros Hdef.
  assert (Hinit : forall i s0,
             (InitializedOnce s0 = false -> first_Initialize_defined W s0 = true) ->
             PythonVerboseFlag s0 <= 0 ->
             exists b s',
               Initialize W (S (S n)) i s0 = Ok b s'
               /\ extends silent s0 s'
               /\ PythonVerboseFlag s' = PythonVerboseFlag s0).
  { intros i s0 Hdef0 Hv0.
    destruct (Initialize_general W n i s0 Hdef0) as (r & es & -> & _ & _ & _ & Hq).
    eexists _, _; split; [reflexivity|].
    split; [|reflexivity].
    exists es; split; [reflexivity|now apply Hq]. }
  split.
  - intros Hv; split.
    + intros initsigs; now apply Hinit.
    + intros script; unfold RunSimpleString.
      destruct (Hinit 1 s Hdef Hv) as (b & s1 & Hrun & Hext & Hv1).
      rewrite (RunSimpleString_with_run _ W script s s1 b Hrun).
      eexists _, _; split; [reflexivity|]; split.
      * apply (extends_trans silent s s1); trivial.
        apply (extends_weaken plain); [exact plain_silent|].
        apply run_script_plain.
      * match goal with
        | |- context [snd (run_script W ?b ?st)] =>
            destruct (run_script_general W b st) as (es & -> & _)
        end.
        exact Hv1.
  - intros argv Hv Hvv HV.
    destruct (scan_shape argv (set_PythonVerboseFlag 0 s)) as (v & Hscan & Hnone & _).
    specialize (Hnone Hvv).
    rewrite (filter_absent "-v" argv Hv) in Hnone.
    change (v = 0) in Hnone; subst v.
    unfold PyMain, bind, step; rewrite Hscan.
    destruct (Hinit 1 (set_PythonVerboseFlag 0 (set_PythonVerboseFlag 0 s)))
      as (b & s1 & -> & Hext & Hv1).
    { now rewrite first_Initialize_defined_scan. }
    { apply Z.le_refl. }
    cbn [PythonVerboseFlag set_PythonVerboseFlag] in Hv1.
    unfold call.
    destruct (decode_args_quiet W argv 0 [] s1 HV) as [Hext2 Hv2].
    destruct (decode_args W 0 argv [] s1) as [o s2].
    cbn [snd] in Hext2, Hv2.
    assert (Hext12 : extends silent s s2).
    { apply (extends_trans silent s s1); trivial. }
    destruct o as [args|].
    + destruct (call_Py_Main_shape W args s2) as (es2 & be & bo & -> & Hes2).
      eexists _, _; split; [reflexivity|]; split.
      * apply (extends_trans silent s s2); trivial.
        exists (EvPyMain args :: es2); split; trivial.
        cbn [forallb silent is_cout negb andb].
        now apply (forallb_weaken is_output silent es2 output_silent).
      * cbn [PythonVerboseFlag set_python set_StdOutBuffer set_StdErrBuffer log].
        now rewrite Hv2.
    + exists 1, s2; split; [reflexivity|]; split; trivial.
      now rewrite Hv2.
Qed.

Lemma silent_at_verbosity_zero_witness :
  (exists b s',
      Initialize a_world 2 0 process_start = Ok b s'
      /\ extends silent process_start s'
      /\ PythonVerboseFlag s' = PythonVerboseFlag process_start)
  /\ (exists status s',
         PyMain a_world 2 ["vtkpython"; "script.py"] process_start = Ok status s'
         /\ extends silent process_start s'
         /\ PythonVerboseFlag s' = 0).
Proof.
  split.
  - exact (proj1 (proj1 (silent_at_verbosity_zero a_world 0 process_start
                           (fun _ => eq_refl)) (Z.le_refl 0)) 0).
  - apply (proj2 (silent_at_verbosity_zero a_world 0 process_start
                    (fun _ => eq_refl)));
      intros [H|[H|[]]]; discriminate.
Defined.

(** ** A runtime started by the host *)

Lemma site_packages_length (W : World) (components : list string) :
  (List.length (site_packages W components) <= 1)%nat.
Proof.
  unfold site_packages.
  destruct (find (probe W) (candidates components)) as [candidate|];
    [|simpl; lia].
  destruct (FileIsDirectory W (pathtocheck W candidate)); simpl; lia.
Qed.

(** X22: when the host has started the runtime itself, the first Initialize
    (where it is defined: the start of the walk is defined and
    PyUnicode_FromString returns an object for every path inserted) neither
    starts nor configures it: Py_InitializeEx and Py_SetProgramName are not
    called and the signal handler is not touched, whatever initsigs is.  The
    program name is kept, and so is the sys.path of the host, in front of
    which go the site-packages directory of VTK, if found, and then the
    pending paths.  The one-time block runs all the same: the call answers
    true. *)
Theorem Initialize_on_hosted_runtime (W : World) (n : nat) (initsigs : Z)
  (s : Process) (components : list string) :
  InitializedOnce s = false ->
  py_initialized (python s) = true ->
  start_components W s = Some components ->
  forallb (PyUnicode_FromString W)
    (site_packages W components ++ PythonPaths s) = true ->
  exists s',
    Initialize W (S (S n)) initsigs s = Ok true s'
    /\ extends no_startup s s'
    /\ py_program_name (python s') = py_program_name (python s)
    /\ sys_path (python s')
       = rev (PythonPaths s) ++ site_packages W components
         ++ sys_path (python s)
    /\ (List.length (site_packages W components) <= 1)%nat
    /\ InitializedOnce s' = true.
Proof.
  intros Honce Hpy Hstart Hdec.
  assert (Hwalk : walk_start W s = Some components).
  { unfold walk_start, at_walk; now rewrite Hpy. }
  destruct (Initialize_first W n initsigs s components Honce Hwalk Hdec)
    as (r & es & -> & _ & _ & _ & _ & Hpath & Hname & _ & _ & _ & _ & _ & Hq).
  eexists; split; [reflexivity|].
  split; [exists es; split; [reflexivity|now apply Hq]|].
  split; [cbn [python]; rewrite Hname; unfold at_walk; now rewrite Hpy|].
  split; [cbn [python]; rewrite Hpath; now rewrite Hpy|].
  split; [apply site_packages_length|reflexivity].
Qed.

Lemma Initialize_on_hosted_runtime_witness :
  exists s',
    Initialize a_world 2 1 a_hosted_process = Ok true s'
    /\ extends no_startup a_hosted_process s'
    /\ sys_path (python s')
       = ["/a"; "/opt/vtk/lib/python3.7/site-packages"; "/host/lib"].
Proof.
  destruct (Initialize_on_hosted_runtime a_world 0 1 a_hosted_process
              ["/"; "opt"; "vtk"; "lib"] eq_refl eq_refl eq_refl eq_refl)
    as (s' & Hrun & Hext & _ & Hpath & _).
  exists s'; split; [exact Hrun|split; [exact Hext|]].
  rewrite Hpath; reflexivity.
Defined.
